(** * AI-Overlay: the suggestion engine, the screen context and the
      activation controller, embedded from the Python sources

    - [ai_engine.py]       : [AIEngine] (rate limiting, provider call,
                             response parsing, cache accessors);
    - [screen_monitor.py]  : [ScreenMonitor] (context written by a capture,
                             detection, the monitoring loop);
    - [main.py], [overlay_ui.py] : [RealTimeCopilot] activation handlers and
                             the visibility flag of [OverlayUI]; the two
                             loops, the voice command, [start] and [stop];
    - [keyboard_handler.py] : [KeyboardHandler] (hotkeys, callbacks, key
                             combinations);
    - [audio_processor.py] : [AudioProcessor] (voice commands);
    - [config.py]          : the position of the window.

    The definitions come first, each named after the method it embeds; the
    properties follow, grouped by component.

    Conventions of the embedding.
    - A Python [str] is a [string]; one [ascii] stands for one character.
    - A Python [dict] with string keys is a [gmap string _] where the code
      does not depend on its iteration order, and the list of its items in
      the order of insertion where it does (the keyboard handler).
    - [time.time()] is read from an explicit clock, counted in milliseconds
      ([Z]); a duration in seconds is converted with [seconds].
    - A Python exception is a value of type [exn]; a computation that may
      raise returns an [outcome]. *)

From stdpp Require Import gmap strings list fin_maps sorting.
From Stdlib Require Import ZArith Ascii String Lia.

Local Open Scope string_scope.
Local Open Scope list_scope.
Local Open Scope Z_scope.

#[local] Set Warnings "-register-all,-clear-no-such-hyp".

(* ===================================================================== *)
(** ** Python values                                                      *)
(* ===================================================================== *)

(** A float is kept as an exact decimal [m * 10^e], or one of the three
    non-finite values that [json.loads] accepts. *)
Inductive pyfloat :=
| FDec (m e : Z)
| FNaN
| FInf (negative : bool).

Inductive pyval :=
| VNone
| VBool (b : bool)
| VInt (z : Z)
| VFloat (f : pyfloat)
| VStr (s : string)
| VList (l : list pyval)
| VDict (d : gmap string pyval).

Abbreviation pydict := (gmap string pyval).

(** [bool(v)]: the truth value Python gives [v] in [if v:]. *)
Definition truthy (v : pyval) : bool :=
  match v with
  | VNone => false
  | VBool b => b
  | VInt z => negb (z =? 0)
  | VFloat (FDec m _) => negb (m =? 0)
  | VFloat _ => true
  | VStr s => negb (String.eqb s "")
  | VList l => match l with [] => false | _ => true end
  | VDict d => negb (bool_decide (d = ∅))
  end.

(** [type(v).__name__], as it appears in the text of a [TypeError]. *)
Definition type_name (v : pyval) : string :=
  match v with
  | VNone => "NoneType"
  | VBool _ => "bool"
  | VInt _ => "int"
  | VFloat _ => "float"
  | VStr _ => "str"
  | VList _ => "list"
  | VDict _ => "dict"
  end.

(** [d.get(k)] and [d.get(k, default)]. *)
Definition dict_get (d : pydict) (k : string) : pyval :=
  default VNone (d !! k).

Definition dict_get_or (d : pydict) (k : string) (dflt : pyval) : pyval :=
  default dflt (d !! k).

(** [k in d]. *)
Definition dict_has (d : pydict) (k : string) : bool :=
  bool_decide (is_Some (d !! k)).

(** [d.update(other)]: every key of [other] is written into [d]; the keys
    of [d] that [other] does not have keep their value. *)
Definition dict_update (d other : pydict) : pydict := other ∪ d.

(** A dictionary display [{k1: v1, ...}]; a later entry for the same key
    overwrites an earlier one. *)
Definition mkdict (kvs : list (string * pyval)) : pydict :=
  fold_left (fun d kv => <[kv.1 := kv.2]> d) kvs ∅.

(* ===================================================================== *)
(** ** Strings                                                            *)
(* ===================================================================== *)

Fixpoint str_take (n : nat) (s : string) : string :=
  match n, s with
  | S n', String c s' => String c (str_take n' s')
  | _, _ => ""
  end.

Fixpoint str_drop (n : nat) (s : string) : string :=
  match n, s with
  | S n', String _ s' => str_drop n' s'
  | _, _ => s
  end.

(** [s[-n:]] for [n > 0]: the last [n] characters, the whole of [s] when it
    is shorter. *)
Definition str_last (n : nat) (s : string) : string :=
  str_drop (String.length s - n) s.

(** [str.isspace] on one character (code points below 256). *)
Definition is_py_space (c : ascii) : bool :=
  let n := nat_of_ascii c in
  ((9 <=? n) && (n <=? 13) || (28 <=? n) && (n <=? 32)
   || (n =? 133) || (n =? 160))%nat%bool.

Fixpoint lstrip (s : string) : string :=
  match s with
  | String c s' => if is_py_space c then lstrip s' else s
  | EmptyString => ""
  end.

Definition str_rev (s : string) : string :=
  string_of_list_ascii (rev (list_ascii_of_string s)).

(** [s.strip()] *)
Definition strip (s : string) : string :=
  str_rev (lstrip (str_rev (lstrip s))).

(** [s.startswith(p)] *)
Definition startswith (p s : string) : bool := String.prefix p s.

(** [sep.join(parts)] on a list of strings. *)
Fixpoint join (sep : string) (parts : list string) : string :=
  match parts with
  | [] => ""
  | [p] => p
  | p :: rest => p +:+ sep +:+ join sep rest
  end.

(** Decimal text of a natural number and of an integer ([str(n)]). *)
Definition digit_char (d : nat) : ascii := ascii_of_nat (48 + d).

Fixpoint nat_digits (fuel n : nat) (acc : string) : string :=
  match fuel with
  | O => acc
  | S fuel' =>
      let acc' := String (digit_char (n mod 10)) acc in
      if (n <? 10)%nat then acc' else nat_digits fuel' (n / 10) acc'
  end.

Definition str_of_nat (n : nat) : string := nat_digits (S n) n "".

(* ===================================================================== *)
(** ** Exceptions and outcomes                                            *)
(* ===================================================================== *)

(** The exception classes the modelled code distinguishes: [json.loads]
    failures are caught by name in [_parse_response]; everything else is
    caught by [except Exception]. [APIError] stands for whatever the
    OpenAI client raises (authentication, network, rate limit). *)
Inductive exn :=
| JSONDecodeError (msg : string)
| TypeError (msg : string)
| AttributeError (msg : string)
| APIError (msg : string)
| OSError (msg : string).

(** [str(e)] *)
Definition exn_str (e : exn) : string :=
  match e with
  | JSONDecodeError m | TypeError m | AttributeError m
  | APIError m | OSError m => m
  end.

Inductive outcome (A : Type) :=
| Return (a : A)
| Raise (e : exn).
Arguments Return {A} a.
Arguments Raise {A} e.

Definition is_raise {A} (o : outcome A) : bool :=
  match o with Raise _ => true | Return _ => false end.

(* ===================================================================== *)
(** ** A reference JSON decoder                                           *)
(* ===================================================================== *)

(** [json.loads] belongs to the Python standard library. The engine below is
    parametrised by the decoder it calls, so that every general statement
    holds for any decoder; [Json.loads] is a decoder for the grammar that
    [json.loads] accepts (RFC 8259 plus [NaN], [Infinity], [-Infinity]), used
    to run the engine on concrete provider responses. An escape [\uXXXX]
    above U+00FF has no character in a [string]; it is decoded as ["?"]. The
    text of an error follows [json.JSONDecodeError]:
    [msg: line L column C (char P)]. The scanner recurses on a fuel of
    twice the length of the text plus two, enough for one step per opening
    bracket and one per element. *)
Module Json.

Local Open Scope char_scope.

Inductive pres (A : Type) :=
| POk (a : A) (rest : list ascii)
| PErr (msg : string) (remaining : nat).
Arguments POk {A} a rest.
Arguments PErr {A} msg remaining.

(** The whitespace of the JSON grammar: space, tab, line feed, return. *)
Definition is_ws (c : ascii) : bool :=
  let n := nat_of_ascii c in
  ((n =? 32) || (n =? 9) || (n =? 10) || (n =? 13))%nat%bool.

Fixpoint skip_ws (s : list ascii) : list ascii :=
  match s with
  | c :: s' => if is_ws c then skip_ws s' else s
  | [] => []
  end.

Definition is_digit (c : ascii) : bool :=
  let n := nat_of_ascii c in ((48 <=? n) && (n <=? 57))%nat%bool.

Definition digit_val (c : ascii) : Z := Z.of_nat (nat_of_ascii c) - 48.

Fixpoint span_digits (s : list ascii) : list ascii * list ascii :=
  match s with
  | c :: s' =>
      if is_digit c
      then let '(ds, r) := span_digits s' in (c :: ds, r)
      else ([], s)
  | [] => ([], [])
  end.

Definition digits_val (ds : list ascii) : Z :=
  fold_left (fun acc c => 10 * acc + digit_val c) ds 0.

Definition hex_val (c : ascii) : option Z :=
  let n := Z.of_nat (nat_of_ascii c) in
  if ((48 <=? n)%Z && (n <=? 57)%Z)%bool then Some (n - 48)
  else if ((65 <=? n)%Z && (n <=? 70)%Z)%bool then Some (n - 55)
  else if ((97 <=? n)%Z && (n <=? 102)%Z)%bool then Some (n - 87)
  else None.

Definition hex4 (a b c d : ascii) : option Z :=
  match hex_val a, hex_val b, hex_val c, hex_val d with
  | Some x, Some y, Some z, Some w =>
      Some (((x * 16 + y) * 16 + z) * 16 + w)
  | _, _, _, _ => None
  end.

(** The character of a code point, ["?"] outside the 8-bit range. *)
Definition chr (cp : Z) : ascii :=
  if (cp <? 256)%Z then ascii_of_nat (Z.to_nat cp) else "?".

Definition is_high_surrogate (cp : Z) : bool :=
  ((55296 <=? cp)%Z && (cp <=? 56319)%Z)%bool.

Definition is_low_surrogate (cp : Z) : bool :=
  ((56320 <=? cp)%Z && (cp <=? 57343)%Z)%bool.

(** The integer part, the fraction and the exponent of a number, as the
    scanner's regular expression matches them: an optional minus sign, then
    either a single zero or a non-zero digit followed by digits; an optional
    dot with at least one digit; an optional exponent letter with an
    optional sign and at least one digit. *)
Definition scan_int_part (s : list ascii) : option (list ascii * list ascii) :=
  match s with
  | "0" :: r => Some (["0"], r)
  | c :: _ => if is_digit c then Some (span_digits s) else None
  | [] => None
  end.

Definition scan_frac (s : list ascii) : option (list ascii) * list ascii :=
  match s with
  | "." :: r =>
      match span_digits r with
      | ([], _) => (None, s)
      | (fs, r') => (Some fs, r')
      end
  | _ => (None, s)
  end.

Definition scan_exp (s : list ascii) : option Z * list ascii :=
  let after_e r :=
    let '(sign, r1) :=
      match r with
      | "-" :: r1 => (-1, r1)
      | "+" :: r1 => (1, r1)
      | _ => (1, r)
      end in
    match span_digits r1 with
    | ([], _) => (None, s)
    | (es, r2) => (Some (sign * digits_val es), r2)
    end in
  match s with
  | "e" :: r => after_e r
  | "E" :: r => after_e r
  | _ => (None, s)
  end.

Definition scan_number (s : list ascii) : option (pyval * list ascii) :=
  let '(neg, s1) :=
    match s with
    | "-" :: r => (true, r)
    | _ => (false, s)
    end in
  match scan_int_part s1 with
  | None => None
  | Some (ip, r) =>
      let sgn := if (neg : bool) then -1 else 1 in
      match scan_frac r with
      | (None, _) =>
          match scan_exp r with
          | (None, _) => Some (VInt (sgn * digits_val ip), r)
          | (Some e, r') => Some (VFloat (FDec (sgn * digits_val ip) e), r')
          end
      | (Some fs, r1) =>
          let m := sgn * digits_val (ip ++ fs) in
          let shift := Z.of_nat (List.length fs) in
          match scan_exp r1 with
          | (None, _) => Some (VFloat (FDec m (- shift)), r1)
          | (Some e, r') => Some (VFloat (FDec m (e - shift)), r')
          end
      end
  end.

Definition dquote : ascii := ascii_of_nat 34.

Definition is_dquote (c : ascii) : bool := Ascii.eqb c dquote.

(** The character a one-letter escape stands for. *)
Definition simple_escape (e : ascii) : option ascii :=
  if is_dquote e then Some dquote
  else match e with
       | "\" => Some "\"
       | "/" => Some "/"
       | "b" => Some (ascii_of_nat 8)
       | "f" => Some (ascii_of_nat 12)
       | "n" => Some (ascii_of_nat 10)
       | "r" => Some (ascii_of_nat 13)
       | "t" => Some (ascii_of_nat 9)
       | _ => None
       end.

(** The body of a string literal, after its opening quote. [start] is the
    length of the input that remained at the opening quote. *)
Fixpoint scan_string (start : nat) (s : list ascii) (acc : list ascii)
  : pres string :=
  match s with
  | [] => PErr "Unterminated string starting at" start
  | c :: r =>
      if is_dquote c then POk (string_of_list_ascii (rev acc)) r
      else if Ascii.eqb c "\" then
        match r with
        | [] => PErr "Unterminated string starting at" start
        | "u" :: h1 :: h2 :: h3 :: h4 :: r' =>
            match hex4 h1 h2 h3 h4 with
            | None => PErr "Invalid \uXXXX escape" (List.length r)
            | Some cp =>
                match r' with
                | "\" :: "u" :: l1 :: l2 :: l3 :: l4 :: r'' =>
                    match hex4 l1 l2 l3 l4 with
                    | Some lo =>
                        if (is_high_surrogate cp && is_low_surrogate lo)%bool
                        then scan_string start r'' ("?" :: acc)
                        else scan_string start r' (chr cp :: acc)
                    | None => scan_string start r' (chr cp :: acc)
                    end
                | _ => scan_string start r' (chr cp :: acc)
                end
            end
        | "u" :: _ => PErr "Invalid \uXXXX escape" (List.length r)
        | e :: r' =>
            match simple_escape e with
            | Some x => scan_string start r' (x :: acc)
            | None => PErr "Invalid \escape" (List.length s)
            end
        end
      else if (nat_of_ascii c <? 32)%nat
      then PErr "Invalid control character at" (List.length s)
      else scan_string start r (c :: acc)
  end.

Definition starts (p : string) (s : list ascii) : option (list ascii) :=
  let lp := list_ascii_of_string p in
  if bool_decide (take (List.length lp) s = lp)
  then Some (drop (List.length lp) s) else None.

(** Literals, numbers and, failing those, "Expecting value". *)
Definition scan_atom (s : list ascii) : pres pyval :=
  match starts "null" s, starts "true" s, starts "false" s with
  | Some r, _, _ => POk VNone r
  | _, Some r, _ => POk (VBool true) r
  | _, _, Some r => POk (VBool false) r
  | _, _, _ =>
      match scan_number s with
      | Some (v, r) => POk v r
      | None =>
          match starts "NaN" s, starts "Infinity" s, starts "-Infinity" s with
          | Some r, _, _ => POk (VFloat FNaN) r
          | _, Some r, _ => POk (VFloat (FInf false)) r
          | _, _, Some r => POk (VFloat (FInf true)) r
          | _, _, _ => PErr "Expecting value" (List.length s)
          end
      end
  end.

Definition expect_name : string :=
  "Expecting property name enclosed in double quotes".

(** [scan_once] reads one value at the head of [s]; [scan_array] the
    elements of an array from its first value on; [scan_object] the members
    of an object from the opening quote of a key on. *)
Fixpoint scan_once (fuel : nat) (s : list ascii) : pres pyval :=
  match fuel with
  | O => PErr "Expecting value" (List.length s)
  | S fuel' =>
      match s with
      | "[" :: r =>
          match skip_ws r with
          | "]" :: r' => POk (VList []) r'
          | r1 =>
              match scan_array fuel' r1 [] with
              | POk l r' => POk (VList l) r'
              | PErr m p => PErr m p
              end
          end
      | "{" :: r =>
          match skip_ws r with
          | "}" :: r' => POk (VDict ∅) r'
          | r1 =>
              match scan_object fuel' r1 ∅ with
              | POk d r' => POk (VDict d) r'
              | PErr m p => PErr m p
              end
          end
      | c :: r =>
          if is_dquote c then
            match scan_string (List.length s) r [] with
            | POk str r' => POk (VStr str) r'
            | PErr m p => PErr m p
            end
          else scan_atom s
      | [] => scan_atom s
      end
  end
with scan_array (fuel : nat) (s : list ascii) (acc : list pyval)
  : pres (list pyval) :=
  match fuel with
  | O => PErr "Expecting value" (List.length s)
  | S fuel' =>
      match scan_once fuel' s with
      | PErr m p => PErr m p
      | POk v r =>
          match skip_ws r with
          | "]" :: r1 => POk (rev (v :: acc)) r1
          | "," :: r1 => scan_array fuel' (skip_ws r1) (v :: acc)
          | r1 => PErr "Expecting ',' delimiter" (List.length r1)
          end
      end
  end
with scan_object (fuel : nat) (s : list ascii) (acc : pydict)
  : pres pydict :=
  match fuel with
  | O => PErr expect_name (List.length s)
  | S fuel' =>
      match s with
      | [] => PErr expect_name (List.length s)
      | c :: r =>
          if negb (is_dquote c) then PErr expect_name (List.length s)
          else
            match scan_string (List.length s) r [] with
            | PErr m p => PErr m p
            | POk key r1 =>
                match skip_ws r1 with
                | ":" :: r2 =>
                    match scan_once fuel' (skip_ws r2) with
                    | PErr m p => PErr m p
                    | POk v r3 =>
                        match skip_ws r3 with
                        | "}" :: r4 => POk (<[key := v]> acc) r4
                        | "," :: r4 =>
                            scan_object fuel' (skip_ws r4) (<[key := v]> acc)
                        | r4 => PErr "Expecting ',' delimiter" (List.length r4)
                        end
                    end
                | r2 => PErr "Expecting ':' delimiter" (List.length r2)
                end
            end
      end
  end.

(** [msg: line L column C (char P)] for an error at offset [pos] of [doc]. *)
Definition errmsg (msg : string) (doc : list ascii) (pos : nat) : string :=
  let step (lc : nat * nat) (c : ascii) :=
    if Ascii.eqb c (ascii_of_nat 10) then (S lc.1, 1%nat) else (lc.1, S lc.2) in
  let '(lineno, colno) := fold_left step (take pos doc) (1%nat, 1%nat) in
  msg +:+ ": line " +:+ str_of_nat lineno +:+ " column " +:+ str_of_nat colno
      +:+ " (char " +:+ str_of_nat pos +:+ ")".

Definition loads (s : string) : outcome pyval :=
  let doc := list_ascii_of_string s in
  let err m remaining :=
    Raise (JSONDecodeError (errmsg m doc (List.length doc - remaining))) in
  match scan_once (2 * List.length doc + 2) (skip_ws doc) with
  | PErr m p => err m p
  | POk v r =>
      match skip_ws r with
      | [] => Return v
      | r' => err "Extra data"%string (List.length r')
      end
  end.

End Json.

(* ===================================================================== *)
(** ** Configuration and the world outside the program                    *)
(* ===================================================================== *)

(** The class attributes of [Config] (config.py) that the modelled code
    reads. Durations are in seconds, as in the source. *)
Record config := {
  OPENAI_API_KEY : string;
  ENABLE_CACHING : bool;
  CACHE_TTL : Z;
  VOICE_COMMANDS : gmap string string;
  OCR_ENABLED : bool;
  MONITORED_EXTENSIONS : list string;
}.

Definition seconds (n : Z) : Z := 1000 * n.

(** What the program calls and does not define: the JSON decoder, the
    formatting of a value inside an f-string ([format(v)]; a [str] is its
    own text, see [fmt]), the constructor of the OpenAI client, and the
    provider behind [client.chat.completions.create]. The provider answers
    its [n]-th call (counted from 0) on a prompt after some latency, in
    milliseconds, with a reply or an exception. *)
Record Env := {
  Config : config;
  json_loads : string -> outcome pyval;
  py_format : pyval -> string;
  openai_OpenAI : string -> outcome unit;
  chat_completions_create : nat -> string -> N * outcome string;
}.

(** One call of the provider: when it was issued and with which prompt. *)
Record Call := { call_time : Z; call_prompt : string }.

Record World := {
  clock : Z;
  calls : list Call;
}.

(** [time.sleep(d)] and the time a provider call takes move the clock. *)
Definition elapse (d : Z) (w : World) : World :=
  {| clock := clock w + d; calls := calls w |}.

(* ===================================================================== *)
(** ** ai_engine.py: [AIEngine]                                           *)
(* ===================================================================== *)

(** An entry of [suggestion_cache]: [{"timestamp": t, "suggestion": s}]. *)
Record CacheEntry := { timestamp : Z; suggestion : pyval }.

(** The attributes of an [AIEngine]; [client] tells whether [self.client]
    holds a client object or [None]. *)
Record AIEngine := {
  client : bool;
  is_initialized : bool;
  suggestion_cache : gmap string CacheEntry;
  last_request_time : Z;
  rate_limit_delay : Z;
}.

Record State := { self : AIEngine; world : World }.

(** A method body: it may read and write the engine and the world, and it
    returns or raises. What it wrote before raising stays written. *)
Definition Py (A : Type) : Type := State -> outcome A * State.

Definition ret {A} (a : A) : Py A := fun st => (Return a, st).

Definition raise {A} (e : exn) : Py A := fun st => (Raise e, st).

Definition bind {A B} (m : Py A) (k : A -> Py B) : Py B :=
  fun st =>
    match m st with
    | (Return a, st') => k a st'
    | (Raise e, st') => (Raise e, st')
    end.

(** [try: body  except Exception as e: handler(e)] *)
Definition try_except {A} (body : Py A) (handler : exn -> Py A) : Py A :=
  fun st =>
    match body st with
    | (Return a, st') => (Return a, st')
    | (Raise e, st') => handler e st'
    end.

Definition lift {A} (o : outcome A) : Py A := fun st => (o, st).

Notation "'let*' x ':=' m 'in' k" := (bind m (fun x => k))
  (at level 10, x name, m at level 100, k at level 200).

Notation "m1 ';;' m2" := (bind m1 (fun _ => m2))
  (at level 100, m2 at level 200, right associativity).

(** [time.time()] *)
Definition time_time : Py Z := fun st => (Return (clock (world st)), st).

(** [time.sleep(d)] *)
Definition time_sleep (d : Z) : Py unit :=
  fun st => (Return tt, {| self := self st; world := elapse d (world st) |}).

Definition get_self : Py AIEngine := fun st => (Return (self st), st).

Definition set_last_request_time (t : Z) : Py unit :=
  fun st =>
    let e := self st in
    (Return tt,
     {| self := {| client := client e;
                   is_initialized := is_initialized e;
                   suggestion_cache := suggestion_cache e;
                   last_request_time := t;
                   rate_limit_delay := rate_limit_delay e |};
        world := world st |}).

Definition set_suggestion_cache (c : gmap string CacheEntry) : Py unit :=
  fun st =>
    let e := self st in
    (Return tt,
     {| self := {| client := client e;
                   is_initialized := is_initialized e;
                   suggestion_cache := c;
                   last_request_time := last_request_time e;
                   rate_limit_delay := rate_limit_delay e |};
        world := world st |}).

(** A time stamp as the float Python stores: milliseconds as a decimal
    number of seconds. *)
Definition VTime (t : Z) : pyval := VFloat (FDec t (-3)).

(* ===================================================================== *)
(** *** Python operations on values that the engine uses                  *)
(* ===================================================================== *)

Definition obind {A B} (o : outcome A) (k : A -> outcome B) : outcome B :=
  match o with
  | Return a => k a
  | Raise e => Raise e
  end.

Notation "'let+' x ':=' o 'in' k" := (obind o (fun x => k))
  (at level 10, x name, o at level 100, k at level 200).

(** The double quote, and a text between double quotes. *)
Definition dq : string := String (ascii_of_nat 34) "".

Definition q (s : string) : string := dq +:+ s +:+ dq.

(** The characters of a string, each as a string of length one. *)
Fixpoint chars (s : string) : list string :=
  match s with
  | String c s' => String c "" :: chars s'
  | EmptyString => []
  end.

(** The keys of a dictionary. A [gmap] lists them in its own order, Python
    in the order of insertion; only [iterate] and [str_join] on a dictionary
    read it. *)
Definition keys (d : pydict) : list string := (map_to_list d).*1.

Definition not_subscriptable (v : pyval) : exn :=
  TypeError ("'" +:+ type_name v +:+ "' object is not subscriptable").

(** [v[:n]]. A dictionary cannot be sliced (a [TypeError] up to Python
    3.11), a number, a boolean or [None] cannot be subscripted. *)
Definition slice_head (n : nat) (v : pyval) : outcome pyval :=
  match v with
  | VList l => Return (VList (take n l))
  | VStr s => Return (VStr (str_take n s))
  | VDict _ => Raise (TypeError "unhashable type: 'slice'")
  | _ => Raise (not_subscriptable v)
  end.

(** [v[-n:]], for [n > 0] *)
Definition slice_tail (n : nat) (v : pyval) : outcome pyval :=
  match v with
  | VList l => Return (VList (drop (List.length l - n) l))
  | VStr s => Return (VStr (str_last n s))
  | VDict _ => Raise (TypeError "unhashable type: 'slice'")
  | _ => Raise (not_subscriptable v)
  end.

(** The items [for x in v] visits. *)
Definition iterate (v : pyval) : outcome (list pyval) :=
  match v with
  | VList l => Return l
  | VStr s => Return (VStr <$> chars s)
  | VDict d => Return (VStr <$> keys d)
  | _ => Raise (TypeError ("'" +:+ type_name v +:+ "' object is not iterable"))
  end.

(** The items of [sep.join(items)] must all be strings. *)
Fixpoint join_items (i : nat) (items : list pyval) : outcome (list string) :=
  match items with
  | [] => Return []
  | VStr s :: rest =>
      let+ parts := join_items (S i) rest in Return (s :: parts)
  | v :: _ =>
      Raise (TypeError ("sequence item " +:+ str_of_nat i
                        +:+ ": expected str instance, " +:+ type_name v
                        +:+ " found"))
  end.

(** [sep.join(v)] *)
Definition str_join (sep : string) (v : pyval) : outcome string :=
  match iterate v with
  | Return items => let+ parts := join_items 0 items in Return (join sep parts)
  | Raise _ => Raise (TypeError "can only join an iterable")
  end.

(** [s or dflt] for an optional string argument. *)
Definition str_or (s : option string) (dflt : string) : string :=
  match s with
  | Some x => if String.eqb x "" then dflt else x
  | None => dflt
  end.

Definition system_prompt : string :=
  "You are an intelligent coding assistant that provides real-time help to developers. 
        Analyze the current context and provide relevant, actionable suggestions.
        
        Focus on:
        - Code quality and best practices
        - Error detection and fixes
        - Performance optimization
        - Security considerations
        - Modern development patterns
        
        Provide concise, practical suggestions that can be immediately applied.".

Definition format_request : string :=
  "
        Please provide your response in the following JSON format:
        {
            " +:+ q "suggestions" +:+ ": [
                {
                    " +:+ q "type" +:+ ": " +:+ q "code_fix|optimization|best_practice|security|documentation" +:+ ",
                    " +:+ q "title" +:+ ": " +:+ q "Brief title" +:+ ",
                    " +:+ q "description" +:+ ": " +:+ q "Detailed description" +:+ ",
                    " +:+ q "code" +:+ ": " +:+ q "Code snippet if applicable" +:+ ",
                    " +:+ q "priority" +:+ ": " +:+ q "high|medium|low" +:+ "
                }
            ],
            " +:+ q "summary" +:+ ": " +:+ q "Brief summary of main issues/suggestions" +:+ ",
            " +:+ q "confidence" +:+ ": 0.0-1.0
        }
        ".

Definition error_dict (msg : string) : pydict :=
  {[ "error" := VStr msg ]}.

Section Engine.

Context (env : Env).

(** The text an f-string puts for [{v}]. *)
Definition fmt (v : pyval) : string :=
  match v with
  | VStr s => s
  | _ => py_format env v
  end.

(** [AIEngine._initialize_client]: the client is created, and the engine
    marked initialized, only with a non-empty API key; an exception of the
    constructor is logged and leaves both as they were. *)
Definition _initialize_client (e : AIEngine) : AIEngine :=
  let key := OPENAI_API_KEY (Config env) in
  if truthy (VStr key) then
    match openai_OpenAI env key with
    | Return _ =>
        {| client := true;
           is_initialized := true;
           suggestion_cache := suggestion_cache e;
           last_request_time := last_request_time e;
           rate_limit_delay := rate_limit_delay e |}
    | Raise _ => e
    end
  else e.

(** [AIEngine.__init__] *)
Definition AIEngine_init : AIEngine :=
  _initialize_client
    {| client := false;
       is_initialized := false;
       suggestion_cache := ∅;
       last_request_time := 0;
       rate_limit_delay := seconds 1 |}.

(** The lines [_build_prompt] adds for the code snippets. *)
Definition snippet_lines (snippets : list pyval) : list string :=
  imap (fun i snippet =>
          "Snippet " +:+ str_of_nat (S i) +:+ ": " +:+ fmt snippet) snippets.

(** [AIEngine._build_prompt] *)
Definition _build_prompt (context : pydict) (command query : option string)
  : outcome string :=
  let parts := [system_prompt] in
  let parts :=
    if truthy (dict_get context "code_detected") then
      parts ++ [ "
Language: " +:+ fmt (dict_get_or context "language" (VStr "Unknown"));
                 "File type: "
                   +:+ fmt (dict_get_or context "file_type" (VStr "Unknown")) ]
    else parts in
  let+ parts :=
    if truthy (dict_get context "error_indicators") then
      let+ joined := str_join ", " (dict_get context "error_indicators") in
      Return (parts ++ [ "Error indicators detected: " +:+ joined ])
    else Return parts in
  let parts :=
    if truthy (dict_get context "suggestions_context") then
      parts ++ [ "Context: " +:+ fmt (dict_get context "suggestions_context") ]
    else parts in
  let parts :=
    match command with
    | Some c =>
        if truthy (VStr c) then
          let command_description :=
            default c (VOICE_COMMANDS (Config env) !! c) in
          parts ++ [ "
User request: " +:+ command_description ]
        else parts
    | None => parts
    end in
  let parts :=
    match query with
    | Some qu =>
        if truthy (VStr qu) then parts ++ [ "
User query: " +:+ qu ]
        else parts
    | None => parts
    end in
  let+ parts :=
    if truthy (dict_get context "code_snippets") then
      let+ first3 := slice_head 3 (dict_get context "code_snippets") in
      let+ snippets := iterate first3 in
      Return (parts ++ [ "
Code snippets detected:" ] ++ snippet_lines snippets)
    else Return parts in
  let+ parts :=
    if truthy (dict_get context "text_content") then
      let+ recent_text := slice_tail 1000 (dict_get context "text_content") in
      Return (parts ++ [ "
Recent screen content: " +:+ fmt recent_text ])
    else Return parts in
  Return (join "
" (parts ++ [format_request])).

(** [AIEngine._call_openai]: one call of the provider. The call is
    recorded with the time at which it is issued; the clock then moves by
    the latency of the answer. An exception of the client is logged and
    raised again. *)
Definition _call_openai (prompt : string) : Py string :=
  fun st =>
    if client (self st) then
      let w := world st in
      let '(latency, reply) :=
        chat_completions_create env (List.length (calls w)) prompt in
      (reply,
       {| self := self st;
          world := {| clock := clock w + Z.of_N latency;
                      calls := calls w ++ [ {| call_time := clock w;
                                               call_prompt := prompt |} ] |} |})
    else (Raise (AttributeError "'NoneType' object has no attribute 'chat'"),
          st).

(** The entry [_format_suggestions] keeps for a candidate with a title. *)
Definition valid_suggestion (suggestion : pydict) : pydict :=
  <[ "type" := dict_get_or suggestion "type" (VStr "general") ]>
  (<[ "title" := dict_get_or suggestion "title" (VStr "") ]>
  (<[ "description" := dict_get_or suggestion "description" (VStr "") ]>
  (<[ "code" := dict_get_or suggestion "code" (VStr "") ]>
  (<[ "priority" := dict_get_or suggestion "priority" (VStr "medium") ]> ∅)))).

(** One turn of the loop of [_format_suggestions]:
    [if isinstance(suggestion, dict) and "title" in suggestion: append]. *)
Definition clean_step (valid_suggestions : list pyval) (suggestion : pyval)
  : list pyval :=
  match suggestion with
  | VDict s =>
      if dict_has s "title"
      then valid_suggestions ++ [VDict (valid_suggestion s)]
      else valid_suggestions
  | _ => valid_suggestions
  end.

(** [AIEngine._format_suggestions] *)
Definition _format_suggestions (parsed : pyval) (context : pydict)
  : Py pydict :=
  let* now := time_time in
  match parsed with
  | VDict p =>
      let suggestions : pydict :=
        <[ "timestamp" := VTime now ]>
        (<[ "context" := VDict context ]>
        (<[ "suggestions" := dict_get_or p "suggestions" (VList []) ]>
        (<[ "summary" := dict_get_or p "summary" (VStr "") ]>
        (<[ "confidence" := dict_get_or p "confidence" (VFloat (FDec 5 (-1))) ]>
        (<[ "source" := VStr "ai_engine" ]> ∅))))) in
      let* items := lift (iterate (dict_get suggestions "suggestions")) in
      let valid_suggestions := fold_left clean_step items [] in
      ret (<[ "suggestions" := VList valid_suggestions ]> suggestions)
  | _ =>
      raise (AttributeError
               ("'" +:+ type_name parsed +:+ "' object has no attribute 'get'"))
  end.

(** [response[:200] + "..." if len(response) > 200 else response] *)
Definition text_summary (response : string) : string :=
  if (200 <? String.length response)%nat
  then str_take 200 response +:+ "..."
  else response.

(** [AIEngine._format_text_response] *)
Definition _format_text_response (response : string) (context : pydict)
  : Py pydict :=
  let* now := time_time in
  ret (<[ "timestamp" := VTime now ]>
       (<[ "context" := VDict context ]>
       (<[ "suggestions" :=
             VList [ VDict
                       (<[ "type" := VStr "general" ]>
                        (<[ "title" := VStr "AI Suggestion" ]>
                        (<[ "description" := VStr response ]>
                        (<[ "code" := VStr "" ]>
                        (<[ "priority" := VStr "medium" ]> ∅))))) ] ]>
       (<[ "summary" := VStr (text_summary response) ]>
       (<[ "confidence" := VFloat (FDec 5 (-1)) ]>
       (<[ "source" := VStr "ai_engine" ]> ∅)))))).

(** [AIEngine._parse_response]: a response that starts, once stripped,
    with an opening brace is decoded and formatted; any other response, and
    one the decoder rejects with [JSONDecodeError], is formatted as text;
    every other exception is answered with an error dictionary. *)
Definition _parse_response (response : string) (context : pydict)
  : Py pydict :=
  try_except
    (if startswith "{" (strip response) then
       let* parsed := lift (json_loads env response) in
       _format_suggestions parsed context
     else _format_text_response response context)
    (fun e =>
       match e with
       | JSONDecodeError _ => _format_text_response response context
       | _ => ret (error_dict "Failed to parse AI response")
       end).

(** [AIEngine.generate_suggestions] *)
Definition generate_suggestions
    (context : pydict) (command query : option string) : Py pydict :=
  let* e := get_self in
  if negb (is_initialized e) then ret (error_dict "AI Engine not initialized")
  else
    try_except
      (let* current_time := time_time in
       (if current_time - last_request_time e <? rate_limit_delay e
        then time_sleep
               (rate_limit_delay e - (current_time - last_request_time e))
        else ret tt) ;;
       let* prompt := lift (_build_prompt context command query) in
       let* response := _call_openai prompt in
       let* suggestions := _parse_response response context in
       let* t := time_time in
       set_last_request_time t ;;
       ret suggestions)
      (fun exc => ret (error_dict (exn_str exc))).

Definition analyze_prompt (code_snippet : string) (language : option string)
  : string :=
  "
            Analyze the following "
  +:+ str_or language "code"
  +:+ " for quality issues:
            
            "
  +:+ code_snippet
  +:+ "
            
            Provide analysis in JSON format:
            {
                " +:+ q "issues" +:+ ": [
                    {
                        " +:+ q "type" +:+ ": " +:+ q "syntax|logic|performance|security|style" +:+ ",
                        " +:+ q "severity" +:+ ": " +:+ q "high|medium|low" +:+ ",
                        " +:+ q "description" +:+ ": " +:+ q "Issue description" +:+ ",
                        " +:+ q "suggestion" +:+ ": " +:+ q "How to fix" +:+ "
                    }
                ],
                " +:+ q "score" +:+ ": 0.0-1.0,
                " +:+ q "improvements" +:+ ": [" +:+ q "list of improvements" +:+ "]
            }
            ".

Definition fixes_prompt (error_message : string) (code_context : option string)
  : string :=
  "
            Suggest fixes for this error:
            
            Error: "
  +:+ error_message
  +:+ "
            
            Code context: "
  +:+ str_or code_context "Not provided"
  +:+ "
            
            Provide fixes in JSON format:
            {
                " +:+ q "fixes" +:+ ": [
                    {
                        " +:+ q "description" +:+ ": " +:+ q "Fix description" +:+ ",
                        " +:+ q "code" +:+ ": " +:+ q "Fixed code" +:+ ",
                        " +:+ q "explanation" +:+ ": " +:+ q "Why this fixes the issue" +:+ "
                    }
                ],
                " +:+ q "prevention" +:+ ": " +:+ q "How to prevent this error in the future" +:+ "
            }
            ".

Definition documentation_prompt
    (code_snippet : string) (language : option string) : string :=
  "
            Generate documentation for this "
  +:+ str_or language "code"
  +:+ ":
            
            "
  +:+ code_snippet
  +:+ "
            
            Provide documentation in JSON format:
            {
                " +:+ q "description" +:+ ": " +:+ q "Function/class description" +:+ ",
                " +:+ q "parameters" +:+ ": [" +:+ q "parameter descriptions" +:+ "],
                " +:+ q "returns" +:+ ": " +:+ q "Return value description" +:+ ",
                " +:+ q "examples" +:+ ": [" +:+ q "usage examples" +:+ "],
                " +:+ q "notes" +:+ ": " +:+ q "Additional notes" +:+ "
            }
            ".

(** The body shared by [analyze_code_quality], [suggest_fixes] and
    [generate_documentation]: the guard, then, inside [try], the provider
    call and [json.loads] on its answer; any exception is answered with
    [{"error": str(e)}]. *)
Definition ask_json (prompt : string) : Py pyval :=
  let* e := get_self in
  if negb (is_initialized e)
  then ret (VDict (error_dict "AI Engine not initialized"))
  else
    try_except
      (let* response := _call_openai prompt in
       lift (json_loads env response))
      (fun exc => ret (VDict (error_dict (exn_str exc)))).

(** [AIEngine.analyze_code_quality] *)
Definition analyze_code_quality
    (code_snippet : string) (language : option string) : Py pyval :=
  ask_json (analyze_prompt code_snippet language).

(** [AIEngine.suggest_fixes] *)
Definition suggest_fixes
    (error_message : string) (code_context : option string) : Py pyval :=
  ask_json (fixes_prompt error_message code_context).

(** [AIEngine.generate_documentation] *)
Definition generate_documentation
    (code_snippet : string) (language : option string) : Py pyval :=
  ask_json (documentation_prompt code_snippet language).

(** [AIEngine.get_cached_suggestion] *)
Definition get_cached_suggestion (context_hash : string)
  : Py (option pyval) :=
  let* e := get_self in
  if ENABLE_CACHING (Config env) then
    match suggestion_cache e !! context_hash with
    | Some cached =>
        let* now := time_time in
        if now - timestamp cached <? seconds (CACHE_TTL (Config env))
        then ret (Some (suggestion cached))
        else ret None
    | None => ret None
    end
  else ret None.

(** [AIEngine.cache_suggestion] *)
Definition cache_suggestion (context_hash : string) (s : pyval) : Py unit :=
  let* e := get_self in
  if ENABLE_CACHING (Config env) then
    let* now := time_time in
    set_suggestion_cache
      (<[ context_hash := {| timestamp := now; suggestion := s |} ]>
         (suggestion_cache e))
  else ret tt.

(** [AIEngine.clear_cache] *)
Definition clear_cache : Py unit := set_suggestion_cache ∅.

End Engine.

(* ===================================================================== *)
(** *** Callers of the engine                                             *)
(* ===================================================================== *)

(** A call of one of the four public operations of the engine. *)
Inductive request :=
| GenerateSuggestions (context : pydict) (command query : option string)
| SuggestFixes (error_message : string) (code_context : option string)
| AnalyzeCodeQuality (code_snippet : string) (language : option string)
| GenerateDocumentation (code_snippet : string) (language : option string).

Definition call (env : Env) (r : request) : Py pyval :=
  match r with
  | GenerateSuggestions context command query =>
      let* d := generate_suggestions env context command query in
      ret (VDict d)
  | SuggestFixes error_message code_context =>
      suggest_fixes env error_message code_context
  | AnalyzeCodeQuality code_snippet language =>
      analyze_code_quality env code_snippet language
  | GenerateDocumentation code_snippet language =>
      generate_documentation env code_snippet language
  end.

(** A caller lets some time pass (milliseconds), then issues a call; [run]
    plays a sequence of such steps, one after the other, and collects what
    each call gave back. *)
Definition idle (d : N) (st : State) : State :=
  {| self := self st; world := elapse (Z.of_N d) (world st) |}.

Fixpoint run (env : Env) (trace : list (N * request)) (st : State)
  : list (outcome pyval) * State :=
  match trace with
  | [] => ([], st)
  | (d, r) :: rest =>
      let '(o, st1) := call env r (idle d st) in
      let '(os, st2) := run env rest st1 in
      (o :: os, st2)
  end.

(* ===================================================================== *)
(** *** A concrete environment                                            *)
(* ===================================================================== *)

Definition str_of_Z (z : Z) : string :=
  if z <? 0 then "-" +:+ str_of_nat (Z.to_nat (- z))
  else str_of_nat (Z.to_nat z).

(** [format(v)] for the values whose text does not depend on a float or on
    the order of a container; the others are shown by their type. *)
Definition format_scalar (v : pyval) : string :=
  match v with
  | VNone => "None"
  | VBool true => "True"
  | VBool false => "False"
  | VInt z => str_of_Z z
  | VStr s => s
  | _ => "<" +:+ type_name v +:+ ">"
  end.

(** [Config] as config.py sets it; the API key comes from the process
    environment. *)
Definition default_Config (api_key : string) : config :=
  {| OPENAI_API_KEY := api_key;
     ENABLE_CACHING := true;
     CACHE_TTL := 300;
     VOICE_COMMANDS :=
       list_to_map
         [ ("explain", "Explain the current code");
           ("fix", "Suggest fixes for errors");
           ("optimize", "Optimize the current code");
           ("document", "Generate documentation");
           ("test", "Generate test cases");
           ("refactor", "Suggest refactoring");
           ("debug", "Help debug issues") ];
     OCR_ENABLED := true;
     MONITORED_EXTENSIONS :=
       [ ".py"; ".js"; ".ts"; ".jsx"; ".tsx"; ".java"; ".cpp"; ".c"; ".cs";
         ".php"; ".rb"; ".go"; ".rs"; ".swift"; ".kt"; ".scala"; ".html";
         ".css"; ".scss"; ".sass"; ".json"; ".xml"; ".yaml"; ".yml" ] |}.

(** An environment with the reference decoder, a client constructor that
    succeeds, and a given provider. *)
Definition sample_env
    (api_key : string) (provider : nat -> string -> N * outcome string)
  : Env :=
  {| Config := default_Config api_key;
     json_loads := Json.loads;
     py_format := format_scalar;
     openai_OpenAI := fun _ => Return tt;
     chat_completions_create := provider |}.

(** A provider that gives the same answer to every call, after 40 ms. *)
Definition always (reply : outcome string) : nat -> string -> N * outcome string :=
  fun _ _ => (40%N, reply).

(** A world whose clock shows [t] and in which no call was made yet. *)
Definition world_at (t : Z) : World := {| clock := t; calls := [] |}.

Definition fresh (env : Env) (t : Z) : State :=
  {| self := AIEngine_init env; world := world_at t |}.

(** Sample inputs: an environment without an API key; one call of each
    public operation, a few milliseconds apart; the prompt for an empty
    context without command or query; the unstructured answer of the
    specification's example. *)
Definition env_without_key : Env := sample_env "" (always (Return "ok")).

Definition one_call_each : list (N * request) :=
  [ (0%N, GenerateSuggestions ∅ None None);
    (5%N, SuggestFixes "NameError" None);
    (5%N, AnalyzeCodeQuality "x = 1" (Some "python"));
    (5%N, GenerateDocumentation "def f(): pass" None) ].

Definition bare_prompt : string :=
  join "
" [system_prompt; format_request].

Definition colon_advice : string := "Use a colon after if statements".

Definition env_plain_text : Env :=
  sample_env "sk-test" (always (Return colon_advice)).

(** An answer that is JSON, with a number where the list of suggestions
    is expected: [{"suggestions": 5}]. *)
Definition five_suggestions : string := "{" +:+ q "suggestions" +:+ ": 5}".

Definition env_bad_shape : Env :=
  sample_env "sk-test" (always (Return five_suggestions)).

(** A provider that cannot be reached. *)
Definition env_unreachable : Env :=
  sample_env "sk-test" (always (Raise (APIError "Connection error."))).

(** Three calls of [generate_suggestions]: at once, 300 ms after the first
    has returned, and five seconds after the second. *)
Definition three_generate_calls : list (N * request) :=
  [ (0%N, GenerateSuggestions ∅ None None);
    (300%N, GenerateSuggestions ∅ (Some "explain") None);
    (5000%N, GenerateSuggestions ∅ None (Some "why")) ].

(** [generate_suggestions], then [suggest_fixes] five milliseconds after
    it has returned; and two calls of [generate_suggestions] in a row. *)
Definition generate_then_fix : list (N * request) :=
  [ (0%N, GenerateSuggestions ∅ None None);
    (5%N, SuggestFixes "NameError" None) ].

Definition generate_twice : list (N * request) :=
  [ (0%N, GenerateSuggestions ∅ None None);
    (0%N, GenerateSuggestions ∅ None None) ].

(** A decoded answer with four candidates: one with a title and a
    priority, one without a title, one that is no dictionary, one whose
    title is empty. *)
Definition four_candidates : list pyval :=
  [ VDict (<[ "title" := VStr "Add a colon" ]>
           (<[ "priority" := VStr "high" ]> ∅));
    VDict {[ "type" := VStr "security" ]};
    VInt 7;
    VDict {[ "title" := VStr "" ]} ].

Definition decoded_answer : pydict :=
  <[ "suggestions" := VList four_candidates ]>
  (<[ "confidence" := VFloat (FDec 9 (-1)) ]> ∅).

(** A clock reading, in milliseconds since the epoch. *)
Definition t0 : Z := 1700000000000.

(* ===================================================================== *)
(** ** screen_monitor.py: [ScreenMonitor]                                 *)
(* ===================================================================== *)

Module ScreenMonitor.

(** What a capture cycle gets from outside: the screenshot ([sct.grab], an
    exception makes [_capture_screen] return [None]), the time, and the text
    that [Image.fromarray] and [pytesseract.image_to_string] read from the
    screenshot, or the exception one of them raises. *)
Record Capture := {
  grab : outcome unit;
  now : Z;
  ocr : outcome string;
}.

(** The regular expression engine: [re.search(pattern, text,
    re.IGNORECASE)] finds a match or not, [re.findall(pattern, text)] lists
    the matches. *)
Record Regex := {
  re_search : string -> string -> bool;
  re_findall : string -> string -> list string;
}.

Definition is_upper (c : ascii) : bool :=
  let n := nat_of_ascii c in ((65 <=? n) && (n <=? 90))%nat%bool.

Definition is_lower (c : ascii) : bool :=
  let n := nat_of_ascii c in ((97 <=? n) && (n <=? 122))%nat%bool.

Definition to_upper (c : ascii) : ascii :=
  if is_lower c then ascii_of_nat (nat_of_ascii c - 32) else c.

Definition to_lower (c : ascii) : ascii :=
  if is_upper c then ascii_of_nat (nat_of_ascii c + 32) else c.

(** [s.title()]: a letter that follows a letter is lowered, any other
    letter is raised. *)
Fixpoint title_from (after_letter : bool) (s : string) : string :=
  match s with
  | EmptyString => ""
  | String c s' =>
      let letter := (is_upper c || is_lower c)%bool in
      String (if after_letter then to_lower c else to_upper c)
             (title_from letter s')
  end.

Definition title (s : string) : string := title_from false s.

(** [s.replace(old, new)] for a one-character [old]. *)
Fixpoint replace_char (old : ascii) (new : string) (s : string) : string :=
  match s with
  | EmptyString => ""
  | String c s' =>
      if Ascii.eqb c old then new +:+ replace_char old new s'
      else String c (replace_char old new s')
  end.

(** The table of [_detect_code_patterns], in the order of the source. *)
Definition code_patterns : list (string * list string) :=
  [ ("python", ["def\s+\w+"; "import\s+\w+"; "class\s+\w+"; "if\s+__name__"]);
    ("javascript", ["function\s+\w+"; "const\s+\w+"; "let\s+\w+"; "var\s+\w+";
                    "console\.log"]);
    ("typescript", ["interface\s+\w+"; "type\s+\w+"; "const\s+\w+:\s+\w+";
                    "function\s+\w+\(.*\):"]);
    ("java", ["public\s+class"; "public\s+static\s+void"; "import\s+java"]);
    ("cpp", ["#include"; "int\s+main"; "class\s+\w+"; "std::"]);
    ("html", ["<!DOCTYPE"; "<html"; "<div"; "<script"]);
    ("css", ["\.\w+\s*\{"; "#\w+\s*\{"; "@media"; "@keyframes"]) ].

Definition snippet_pattern : string := "[\w\s\(\)\{\}\[\]]{20,}".

Definition error_patterns : list string :=
  [ "error:"; "exception:"; "traceback:"; "failed:"; "failure:";
    "undefined"; "null"; "nan"; "infinity"; "stack trace";
    "syntax error"; "type error"; "reference error"; "runtime error";
    "import error"; "module not found"; "file not found";
    "permission denied"; "access denied"; "timeout"; "connection refused" ].

(** The dictionary [_detect_code_patterns] returns, field by field. *)
Record CodeAnalysis := {
  code_detected : bool;
  file_type : option string;
  language : option string;
  code_snippets : list string;
}.

Definition opt_str (o : option string) : pyval :=
  match o with Some s => VStr s | None => VNone end.

Definition code_analysis_dict (a : CodeAnalysis) : pydict :=
  <[ "code_detected" := VBool (code_detected a) ]>
  (<[ "file_type" := opt_str (file_type a) ]>
  (<[ "language" := opt_str (language a) ]>
  (<[ "code_snippets" := VList (VStr <$> code_snippets a) ]> ∅))).

Section Monitor.

Context (cfg : config) (re : Regex).

(** The extension test in [_detect_code_patterns]. *)
Definition ext_matches (lang ext : string) : bool :=
  (startswith ("." +:+ lang) ext
   || (String.eqb lang "javascript"
       && bool_decide (ext ∈ [".js"; ".jsx"]))
   || (String.eqb lang "typescript"
       && bool_decide (ext ∈ [".ts"; ".tsx"])))%bool.

(** [ScreenMonitor._detect_code_patterns]: the first language of the table
    one of whose patterns is found decides. *)
Definition _detect_code_patterns (text : string) : CodeAnalysis :=
  match List.find (fun lp => existsb (fun p => re_search re p text) lp.2)
                  code_patterns with
  | Some (lang, _) =>
      {| code_detected := true;
         file_type := List.find (ext_matches lang) (MONITORED_EXTENSIONS cfg);
         language := Some lang;
         code_snippets := take 5 (re_findall re snippet_pattern text) |}
  | None =>
      {| code_detected := false;
         file_type := None;
         language := None;
         code_snippets := [] |}
  end.

(** [ScreenMonitor._detect_error_indicators]. The source returns
    [list(set(...))]; the names are distinct, their order is the table's
    here and unspecified in Python. *)
Definition _detect_error_indicators (text : string) : list string :=
  (fun pattern => title (replace_char "_" " " (replace_char ":" "" pattern)))
    <$> List.filter (fun pattern => re_search re pattern text) error_patterns.

(** [ScreenMonitor._generate_suggestions_context] *)
Definition _generate_suggestions_context
    (text : string) (code_analysis : CodeAnalysis) : string :=
  let context_parts :=
    if code_detected code_analysis then
      ("Language: " +:+ default "None" (language code_analysis))
        :: (if truthy (VList (VStr <$> code_snippets code_analysis))
            then ["Code snippets detected"] else [])
    else [] in
  let recent_text :=
    if (500 <? String.length text)%nat then str_last 500 text else text in
  let context_parts :=
    if truthy (VStr (strip recent_text))
    then context_parts ++ ["Recent content: " +:+ strip recent_text]
    else context_parts in
  join " | " context_parts.

(** [ScreenMonitor._analyze_screen_content]: the six entries every analysis
    has; with OCR enabled and successful, the text and what is detected in
    it are written over them, which adds the entries ["language"] and
    ["code_snippets"]. An exception is logged and the analysis returned as
    it stands. *)
Definition _analyze_screen_content (c : Capture) : pydict :=
  let analysis : pydict :=
    <[ "timestamp" := VTime (now c) ]>
    (<[ "text_content" := VStr "" ]>
    (<[ "code_detected" := VBool false ]>
    (<[ "file_type" := VNone ]>
    (<[ "error_indicators" := VList [] ]>
    (<[ "suggestions_context" := VStr "" ]> ∅))))) in
  if OCR_ENABLED cfg then
    match ocr c with
    | Return text =>
        let analysis := <[ "text_content" := VStr text ]> analysis in
        let code_analysis := _detect_code_patterns text in
        let analysis := dict_update analysis (code_analysis_dict code_analysis) in
        let analysis :=
          <[ "error_indicators" :=
               VList (VStr <$> _detect_error_indicators text) ]> analysis in
        <[ "suggestions_context" :=
             VStr (_generate_suggestions_context text code_analysis) ]> analysis
    | Raise _ => analysis
    end
  else analysis.

(** The attributes of a [ScreenMonitor] that a capture reads or writes. *)
Record t := {
  is_monitoring : bool;
  current_context : pydict;
  last_capture_time : Z;
}.

(** [ScreenMonitor.__init__] *)
Definition init : t :=
  {| is_monitoring := false; current_context := ∅; last_capture_time := 0 |}.

(** [ScreenMonitor._capture_and_analyze]:
    [self.current_context.update(analysis)], unless there is no screenshot. *)
Definition _capture_and_analyze (c : Capture) (m : t) : t :=
  match grab c with
  | Raise _ => m
  | Return _ =>
      {| is_monitoring := is_monitoring m;
         current_context :=
           dict_update (current_context m) (_analyze_screen_content c);
         last_capture_time := last_capture_time m |}
  end.

(** [ScreenMonitor.get_current_context]: a copy of the dictionary. *)
Definition get_current_context (m : t) : pydict := current_context m.

End Monitor.

(** A matcher for the patterns that are plain text: it looks for the
    pattern in the text, letters compared without case. It is meant for
    texts in which no pattern with an operator ([\s], [\w], [.], ...) has a
    match; it reports none for those. *)
Definition lower (s : string) : string :=
  string_of_list_ascii (to_lower <$> list_ascii_of_string s).

Fixpoint contains (p s : string) : bool :=
  (String.prefix p s
   || match s with
      | String _ s' => contains p s'
      | EmptyString => false
      end)%bool.

Definition plain_search (pattern text : string) : bool :=
  contains (lower pattern) (lower text).

(** [findall] for [snippet_pattern] on ASCII text: the maximal runs, of 20
    characters or more, of letters, digits, underscores, blanks and
    brackets. *)
Definition is_code_char (c : ascii) : bool :=
  let n := nat_of_ascii c in
  (is_upper c || is_lower c || ((48 <=? n) && (n <=? 57))%nat
   || bool_decide (n ∈ [95; 32; 9; 10; 11; 12; 13;
                        40; 41; 123; 125; 91; 93]%nat))%bool.

Fixpoint code_runs (s : list ascii) (run : list ascii) : list string :=
  let close (rest : list string) :=
    if (20 <=? List.length run)%nat
    then string_of_list_ascii (rev run) :: rest else rest in
  match s with
  | [] => close []
  | c :: s' =>
      if is_code_char c then code_runs s' (c :: run)
      else close (code_runs s' [])
  end.

Definition sample_regex : Regex :=
  {| re_search := plain_search;
     re_findall := fun _ text => code_runs (list_ascii_of_string text) [] |}.

(** Two capture cycles, two seconds apart: the screen shows a C++ source
    and the text is read; then the text recognition fails. *)
Definition capture_cpp : Capture :=
  {| grab := Return tt; now := 1700000000000;
     ocr := Return "#include <stdio.h>" |}.

Definition capture_ocr_failure : Capture :=
  {| grab := Return tt; now := 1700000002000;
     ocr := Raise (OSError "tesseract is not installed or it's not in your PATH.") |}.

Definition sample_cfg : config := default_Config "sk-test".

End ScreenMonitor.

(* ===================================================================== *)
(** ** overlay_ui.py and main.py: [OverlayUI], [RealTimeCopilot]          *)
(* ===================================================================== *)

Module Copilot.

(** The attributes of an [OverlayUI] that decide whether the overlay is
    shown (overlay_ui_20250920204427.py; the later snapshot starts another
    fade routine in [create_overlay], with the same effect on
    [is_visible]). The Tk window is kept as the list [displayed] of the
    batches [create_overlay] built a window for, and [suggestions_frame]
    tells whether the attribute of that name is set. A fade runs in a
    thread of its own: [fade_alive] tells that one is running, and
    [_fade_animation_end] is what it does when it ends.

    The calls into Tk are taken to succeed. What Python itself raises
    while it reads a batch is kept: [suggestion.get] on what is no
    dictionary, the look-up of the icon and of the colour on a key that
    cannot be hashed, [.upper()] on a priority that is no string, the loop
    over what cannot be iterated and [len] of what has no length. *)
Record OverlayUI := {
  is_visible : bool;
  fade_direction : Z;
  fade_alive : bool;
  displayed : list pyval;
  suggestions_frame : bool;
}.

(** [OverlayUI.__init__] *)
Definition OverlayUI_init : OverlayUI :=
  {| is_visible := false; fade_direction := 1; fade_alive := false;
     displayed := []; suggestions_frame := false |}.

(** [OverlayUI._start_fade_animation]: the direction is set; a thread is
    started unless one is alive. *)
Definition _start_fade_animation (direction : Z) (ui : OverlayUI)
  : OverlayUI :=
  {| is_visible := is_visible ui;
     fade_direction := direction;
     fade_alive := true;
     displayed := displayed ui;
     suggestions_frame := suggestions_frame ui |}.

(** The end of [OverlayUI._fade_animation]: after the last step, a fade
    out withdraws the window and clears [is_visible]. *)
Definition _fade_animation_end (ui : OverlayUI) : OverlayUI :=
  if fade_alive ui then
    {| is_visible := if fade_direction ui =? -1 then false else is_visible ui;
       fade_direction := fade_direction ui;
       fade_alive := false;
       displayed := displayed ui;
       suggestions_frame := suggestions_frame ui |}
  else ui.

(** [table.get(key, default)] on a table with string keys, for a key of
    any type: a list or a dictionary cannot be hashed. *)
Definition table_get (table : list (string * string)) (key : pyval)
    (dflt : string) : outcome string :=
  match key with
  | VList _ | VDict _ =>
      Raise (TypeError ("unhashable type: '" +:+ type_name key +:+ "'"))
  | VStr k =>
      Return (default dflt
                (snd <$> List.find (fun kv => String.eqb kv.1 k) table))
  | _ => Return dflt
  end.

(** [OverlayUI._get_type_icon] *)
Definition _get_type_icon (suggestion_type : pyval) : outcome string :=
  table_get
    [ ("code_fix", "🔧"); ("optimization", "⚡"); ("best_practice", "✅");
      ("security", "🔒"); ("documentation", "📝"); ("general", "💡") ]
    suggestion_type "💡".

(** [OverlayUI._get_priority_color] *)
Definition _get_priority_color (priority : pyval) : outcome string :=
  table_get
    [ ("high", "#FF6B6B"); ("medium", "#4ECDC4"); ("low", "#45B7D1") ]
    priority "#4ECDC4".

(** [v.upper()]: a method of [str] only. *)
Definition upper (v : pyval) : outcome string :=
  match v with
  | VStr s =>
      Return (string_of_list_ascii
                (ScreenMonitor.to_upper <$> list_ascii_of_string s))
  | _ =>
      Raise (AttributeError
               ("'" +:+ type_name v +:+ "' object has no attribute 'upper'"))
  end.

(** [OverlayUI._create_suggestion_widget], for what it reads of the
    suggestion before Tk gets the texts: the icon of its type, the colour
    of its priority, its priority in capitals. *)
Definition _create_suggestion_widget (suggestion : pyval) : outcome unit :=
  match suggestion with
  | VDict s =>
      let+ type_icon :=
        _get_type_icon (dict_get_or s "type" (VStr "general")) in
      let+ foreground :=
        _get_priority_color (dict_get_or s "priority" (VStr "medium")) in
      let+ priority_text := upper (dict_get_or s "priority" (VStr "medium")) in
      Return tt
  | _ =>
      Raise (AttributeError
               ("'" +:+ type_name suggestion
                +:+ "' object has no attribute 'get'"))
  end.

(** The loop [for i, suggestion in enumerate(suggestions)]: it ends at the
    first widget that cannot be built. *)
Fixpoint create_suggestion_widgets (items : list pyval) : outcome unit :=
  match items with
  | [] => Return tt
  | suggestion :: rest =>
      let+ widget := _create_suggestion_widget suggestion in
      create_suggestion_widgets rest
  end.

(** [OverlayUI._add_suggestions]: a label for an empty batch, a widget
    for each suggestion otherwise. *)
Definition _add_suggestions (suggestions : pyval) : outcome unit :=
  if negb (truthy suggestions) then Return tt
  else
    let+ items := iterate suggestions in
    create_suggestion_widgets items.

(** [len(v)] *)
Definition len (v : pyval) : outcome nat :=
  match v with
  | VList l => Return (List.length l)
  | VStr s => Return (String.length s)
  | VDict d => Return (size d)
  | _ =>
      Raise (TypeError
               ("object of type '" +:+ type_name v +:+ "' has no len()"))
  end.

(** [OverlayUI._create_ui_elements], once [suggestions_frame] is set: the
    suggestions are added, and the status bar tells their number. *)
Definition _create_ui_elements (suggestions : pyval) : outcome unit :=
  let+ added := _add_suggestions suggestions in
  let+ found := len suggestions in
  Return tt.

(** [OverlayUI.create_overlay]. Everything is done inside a [try]: when
    [_create_ui_elements] raises, the exception is logged before
    [is_visible] is set and before the fade is started; [suggestions_frame]
    was set by then. *)
Definition create_overlay (suggestions : pyval) (ui : OverlayUI) : OverlayUI :=
  match _create_ui_elements suggestions with
  | Return _ =>
      _start_fade_animation 1
        {| is_visible := true;
           fade_direction := fade_direction ui;
           fade_alive := fade_alive ui;
           displayed := displayed ui ++ [suggestions];
           suggestions_frame := true |}
  | Raise _ =>
      {| is_visible := is_visible ui;
         fade_direction := fade_direction ui;
         fade_alive := fade_alive ui;
         displayed := displayed ui;
         suggestions_frame := true |}
  end.

(** [OverlayUI.hide_overlay] *)
Definition hide_overlay (ui : OverlayUI) : OverlayUI :=
  if is_visible ui then _start_fade_animation (-1) ui else ui.

(** The attributes of a [RealTimeCopilot] that its activation handlers
    read or write. *)
Record RealTimeCopilot := {
  is_running : bool;
  is_active : bool;
  current_context : pydict;
  last_suggestions : list pyval;
  overlay_ui : OverlayUI;
}.

(** [RealTimeCopilot.__init__] *)
Definition init : RealTimeCopilot :=
  {| is_running := false; is_active := false; current_context := ∅;
     last_suggestions := []; overlay_ui := OverlayUI_init |}.

Definition set_is_active (b : bool) (s : RealTimeCopilot) : RealTimeCopilot :=
  {| is_running := is_running s; is_active := b;
     current_context := current_context s;
     last_suggestions := last_suggestions s;
     overlay_ui := overlay_ui s |}.

Definition with_overlay (f : OverlayUI -> OverlayUI) (s : RealTimeCopilot)
  : RealTimeCopilot :=
  {| is_running := is_running s; is_active := is_active s;
     current_context := current_context s;
     last_suggestions := last_suggestions s;
     overlay_ui := f (overlay_ui s) |}.

(** The two entries of [_show_welcome_overlay]. *)
Definition welcome_suggestions : pyval :=
  VList
    [ VDict
        (<[ "type" := VStr "general" ]>
         (<[ "title" := VStr "Welcome to AI Copilot! 🤖" ]>
         (<[ "description" :=
               VStr "I'm here to help you with your coding. Say 'Hey Copilot' or use keyboard shortcuts to get started." ]>
         (<[ "code" := VStr "" ]>
         (<[ "priority" := VStr "low" ]> ∅)))));
      VDict
        (<[ "type" := VStr "best_practice" ]>
         (<[ "title" := VStr "Available Commands" ]>
         (<[ "description" :=
               VStr "Try saying: explain, fix, optimize, document, test, refactor, or debug" ]>
         (<[ "code" := VStr "" ]>
         (<[ "priority" := VStr "low" ]> ∅))))) ].

(** [RealTimeCopilot._show_welcome_overlay] *)
Definition _show_welcome_overlay (s : RealTimeCopilot) : RealTimeCopilot :=
  with_overlay (create_overlay welcome_suggestions) s.

(** [RealTimeCopilot._show_suggestions]: nothing is shown while the
    copilot is not active, and nothing for an empty list. *)
Definition _show_suggestions (suggestions : pydict) (s : RealTimeCopilot)
  : RealTimeCopilot :=
  if negb (is_active s) then s
  else
    let suggestion_list := dict_get_or suggestions "suggestions" (VList []) in
    if truthy suggestion_list
    then with_overlay (create_overlay suggestion_list) s
    else s.

(** [{"suggestions": self.last_suggestions}] *)
Definition last_batch (s : RealTimeCopilot) : pydict :=
  {[ "suggestions" := VList (last_suggestions s) ]}.

(** [RealTimeCopilot._activate_copilot] *)
Definition _activate_copilot (s : RealTimeCopilot) : RealTimeCopilot :=
  if negb (is_active s) then
    let s := set_is_active true s in
    if truthy (VList (last_suggestions s))
    then _show_suggestions (last_batch s) s
    else _show_welcome_overlay s
  else s.

(** [RealTimeCopilot._deactivate_copilot] *)
Definition _deactivate_copilot (s : RealTimeCopilot) : RealTimeCopilot :=
  if is_active s then with_overlay hide_overlay (set_is_active false s)
  else s.

(** [RealTimeCopilot._toggle_overlay] *)
Definition _toggle_overlay (s : RealTimeCopilot) : RealTimeCopilot :=
  if is_visible (overlay_ui s) then with_overlay hide_overlay s
  else _show_suggestions (last_batch s) s.

(** [RealTimeCopilot._on_hotword_detected] *)
Definition _on_hotword_detected (s : RealTimeCopilot) : RealTimeCopilot :=
  _activate_copilot s.

(** The events the handlers are bound to in [_setup_callbacks]: the
    hotword of the audio processor and the three keyboard shortcuts. *)
Inductive event :=
| HotwordDetected
| HotkeyActivate
| HotkeyDeactivate
| HotkeyToggle.

Definition handle (e : event) (s : RealTimeCopilot) : RealTimeCopilot :=
  match e with
  | HotwordDetected => _on_hotword_detected s
  | HotkeyActivate => _activate_copilot s
  | HotkeyDeactivate => _deactivate_copilot s
  | HotkeyToggle => _toggle_overlay s
  end.

(** The fade thread of the overlay comes to its end. *)
Definition fade_ends (s : RealTimeCopilot) : RealTimeCopilot :=
  with_overlay _fade_animation_end s.



(** A suggestion of which [_create_suggestion_widget] makes a widget: a
    dictionary whose type, ["general"] when missing, can be hashed, and
    whose priority, ["medium"] when missing, is a string. *)
Definition is_hashable (v : pyval) : bool :=
  match v with VList _ | VDict _ => false | _ => true end.

Definition is_string (v : pyval) : bool :=
  match v with VStr _ => true | _ => false end.

Definition widget_ready (suggestion : pyval) : bool :=
  match suggestion with
  | VDict s =>
      (is_hashable (dict_get_or s "type" (VStr "general"))
       && is_string (dict_get_or s "priority" (VStr "medium")))%bool
  | _ => false
  end.

(** An idle copilot that remembers one suggestion. *)
Definition idle_with_suggestion : RealTimeCopilot :=
  {| is_running := true; is_active := false; current_context := ∅;
     last_suggestions := [VDict {[ "title" := VStr "Add a colon" ]}];
     overlay_ui := OverlayUI_init |}.

(** A suggestion as [_format_suggestions] keeps it when the provider gave
    the title ["T"] and the number 1 as priority, and an idle copilot that
    remembers it. *)
Definition suggestion_with_priority_1 : pyval :=
  VDict (<[ "type" := VStr "general" ]>
         (<[ "title" := VStr "T" ]>
         (<[ "description" := VStr "" ]>
         (<[ "code" := VStr "" ]>
         (<[ "priority" := VInt 1 ]> ∅))))).


End Copilot.

(* ===================================================================== *)
(** ** Vocabulary of the statements                                       *)
(* ===================================================================== *)

Section EngineVocabulary.

Context (env : Env).

(** The state in which [generate_suggestions] builds its prompt: the one it
    was called in, after the sleep of the rate limiter if there is one. *)
Definition after_gate (st : State) : State :=
  let e := self st in
  let current_time := clock (world st) in
  if current_time - last_request_time e <? rate_limit_delay e
  then {| self := e;
          world := elapse (rate_limit_delay e
                           - (current_time - last_request_time e))
                          (world st) |}
  else st.

(** The state after a provider call on [prompt] issued in [st]. *)
Definition after_call (prompt : string) (st : State) : State :=
  let w := world st in
  {| self := self st;
     world :=
       {| clock := clock w
                   + Z.of_N (chat_completions_create env
                               (List.length (calls w)) prompt).1;
          calls := calls w ++ [ {| call_time := clock w;
                                   call_prompt := prompt |} ] |} |}.

Definition reply_to (prompt : string) (st : State) : outcome string :=
  (chat_completions_create env (List.length (calls (world st))) prompt).2.

(** The batch [_format_text_response] builds at time [now]. *)
Definition text_batch (response : string) (context : pydict) (now : Z)
  : pydict :=
  <[ "timestamp" := VTime now ]>
  (<[ "context" := VDict context ]>
  (<[ "suggestions" :=
        VList [ VDict
                  (<[ "type" := VStr "general" ]>
                   (<[ "title" := VStr "AI Suggestion" ]>
                   (<[ "description" := VStr response ]>
                   (<[ "code" := VStr "" ]>
                   (<[ "priority" := VStr "medium" ]> ∅))))) ] ]>
  (<[ "summary" := VStr (text_summary response) ]>
  (<[ "confidence" := VFloat (FDec 5 (-1)) ]>
  (<[ "source" := VStr "ai_engine" ]> ∅))))).

(** A response is unstructured when it does not start with an opening
    brace once stripped, or when the decoder rejects it. *)
Definition unstructured (response : string) : Prop :=
  startswith "{" (strip response) = false
  \/ exists msg, json_loads env response = Raise (JSONDecodeError msg).

(** [self.last_request_time = time.time()] *)
Definition stamp (st : State) : State :=
  (set_last_request_time (clock (world st)) st).2.

(** The time a caller spent between its calls. *)
Definition total_idle (trace : list (N * request)) : Z :=
  foldr (fun dr acc => Z.of_N dr.1 + acc) 0 trace.

Definition not_initialized : outcome pyval :=
  Return (VDict (error_dict "AI Engine not initialized")).

Definition is_generate (r : request) : bool :=
  match r with GenerateSuggestions _ _ _ => true | _ => false end.

(** Every two calls of the provider are at least [delay] apart. *)
Definition spaced (delay : Z) (cs : list Call) : Prop :=
  forall i j ci cj,
    (i < j)%nat -> cs !! i = Some ci -> cs !! j = Some cj ->
    call_time ci + delay ≤ call_time cj.

(** What the loop of [_format_suggestions] makes of one candidate: the
    entry it appends, or nothing. *)
Definition cleaned (candidate : pyval) : option pyval :=
  match candidate with
  | VDict s =>
      if dict_has s "title" then Some (VDict (valid_suggestion s)) else None
  | _ => None
  end.

(** The provider answers every call. *)
Definition reliable : Prop :=
  forall n p, is_raise (chat_completions_create env n p).2 = false.

(** What the rate limiter of [generate_suggestions] maintains from one
    call to the next: no call of the provider is later than
    [last_request_time], and the calls made so far are spaced. *)
Definition rate_limited (delay : Z) (st : State) : Prop :=
  client (self st) = is_initialized (self st)
  /\ rate_limit_delay (self st) = delay
  /\ 0 ≤ delay
  /\ (forall c, c ∈ calls (world st) ->
                call_time c ≤ last_request_time (self st))
  /\ spaced delay (calls (world st)).

End EngineVocabulary.

(* ===================================================================== *)
(** ** Further vocabulary for the engine                                  *)
(* ===================================================================== *)

(** The five keys of a suggestion as the engine hands it out. *)
Definition suggestion_keys : gset string :=
  {[ "type"; "title"; "description"; "code"; "priority" ]}.

Definition is_suggestion (v : pyval) : Prop :=
  exists s, v = VDict s /\ dom s = suggestion_keys.

(** The two shapes of what [generate_suggestions] returns for [context]:
    an error dictionary, or a batch that carries a list of suggestions. *)
Definition is_batch (context : pydict) (d : pydict) : Prop :=
  d !! "error" = None
  /\ (exists l, d !! "suggestions" = Some (VList l) /\ Forall is_suggestion l)
  /\ d !! "context" = Some (VDict context)
  /\ d !! "source" = Some (VStr "ai_engine")
  /\ (exists t, d !! "timestamp" = Some (VTime t))
  /\ dom d = {[ "timestamp"; "context"; "suggestions"; "summary";
                "confidence"; "source" ]}.

Definition is_result (context : pydict) (d : pydict) : Prop :=
  (exists msg, d = error_dict msg) \/ is_batch context d.

(** The keys of the context that [_build_prompt] reads. *)
Definition prompt_keys : list string :=
  [ "code_detected"; "language"; "file_type"; "error_indicators";
    "suggestions_context"; "code_snippets"; "text_content" ].

(** A value that is a list of strings. *)
Definition is_str_list (v : pyval) : Prop :=
  exists l : list string, v = VList (VStr <$> l).

(** What the screen monitor guarantees of the entries of its context that
    [_build_prompt] joins or slices: the error indicators and the code
    snippets, when present, are lists of strings, the text is a string. *)
Definition monitor_typed (context : pydict) : Prop :=
  (forall v, context !! "error_indicators" = Some v -> is_str_list v)
  /\ (forall v, context !! "code_snippets" = Some v -> is_str_list v)
  /\ (forall v, context !! "text_content" = Some v -> exists s, v = VStr s).

(** A structured answer, as the specification's end-to-end example has it:
    two suggestions, of high and medium priority, and a confidence. *)
Definition two_suggestions_json : string :=
  "{" +:+ q "suggestions" +:+ ": [{"
      +:+ q "type" +:+ ": " +:+ q "code_fix" +:+ ", "
      +:+ q "title" +:+ ": " +:+ q "Add a colon" +:+ ", "
      +:+ q "priority" +:+ ": " +:+ q "high" +:+ "}, {"
      +:+ q "title" +:+ ": " +:+ q "Use f-strings" +:+ ", "
      +:+ q "priority" +:+ ": " +:+ q "medium" +:+ "}], "
      +:+ q "summary" +:+ ": " +:+ q "Two issues" +:+ ", "
      +:+ q "confidence" +:+ ": 0.85}".

(** The two candidates and the object that this text decodes to. *)
Definition two_candidates : list pyval :=
  [ VDict (<[ "type" := VStr "code_fix" ]>
           (<[ "title" := VStr "Add a colon" ]>
           (<[ "priority" := VStr "high" ]> ∅)));
    VDict (<[ "title" := VStr "Use f-strings" ]>
           (<[ "priority" := VStr "medium" ]> ∅)) ].

Definition two_suggestions_decoded : pydict :=
  <[ "suggestions" := VList two_candidates ]>
  (<[ "summary" := VStr "Two issues" ]>
  (<[ "confidence" := VFloat (FDec 85 (-2)) ]> ∅)).

Definition env_structured : Env :=
  sample_env "sk-test" (always (Return two_suggestions_json)).

(** Calls of the three operations that have no rate limiter. *)
Definition three_direct_calls : list (N * request) :=
  [ (0%N, SuggestFixes "NameError" None);
    (0%N, AnalyzeCodeQuality "x = 1" (Some "python"));
    (7%N, GenerateDocumentation "def f(): pass" None) ].

(** The prompt of a call of one of the three operations without rate
    limiter. *)
Definition direct_prompt (r : request) : string :=
  match r with
  | GenerateSuggestions _ _ _ => ""
  | SuggestFixes error_message code_context =>
      fixes_prompt error_message code_context
  | AnalyzeCodeQuality code_snippet language =>
      analyze_prompt code_snippet language
  | GenerateDocumentation code_snippet language =>
      documentation_prompt code_snippet language
  end.

(** A context as a capture leaves it, and the same with another time
    stamp. *)
Definition context_cpp : pydict :=
  ScreenMonitor.get_current_context
    (ScreenMonitor._capture_and_analyze
       ScreenMonitor.sample_cfg ScreenMonitor.sample_regex
       ScreenMonitor.capture_cpp ScreenMonitor.init).

Definition context_cpp_later : pydict :=
  <[ "timestamp" := VTime 1700000009000 ]> context_cpp.

(* ===================================================================== *)
(** ** screen_monitor.py: the monitoring loop                             *)
(* ===================================================================== *)

Module MonitorLoop.

Import ScreenMonitor.

Definition set_is_monitoring (b : bool) (m : t) : t :=
  {| is_monitoring := b;
     current_context := current_context m;
     last_capture_time := last_capture_time m |}.

(** [ScreenMonitor.start_monitoring]: nothing when already monitoring;
    otherwise the flag is set and the loop started in a thread. *)
Definition start_monitoring (m : t) : t :=
  if is_monitoring m then m else set_is_monitoring true m.

(** [ScreenMonitor.stop_monitoring] *)
Definition stop_monitoring (m : t) : t := set_is_monitoring false m.

Section Loop.

Context (cfg : config) (re : Regex).

(** [Config.SCREEN_CAPTURE_INTERVAL], in seconds (2.0 in config.py). *)
Context (SCREEN_CAPTURE_INTERVAL : Z).

(** One turn of [ScreenMonitor._monitor_loop], at [current_time]: when the
    interval has passed since [last_capture_time], a capture is made with
    what the screen then gives, and [last_capture_time] set to
    [current_time]. *)
Definition _monitor_loop_turn (current_time : Z) (c : Capture) (m : t) : t :=
  if seconds SCREEN_CAPTURE_INTERVAL <=? current_time - last_capture_time m
  then
    let m' := _capture_and_analyze cfg re c m in
    {| is_monitoring := is_monitoring m';
       current_context := current_context m';
       last_capture_time := current_time |}
  else m.

(** The turns the loop makes while [is_monitoring] stays set: each with
    the time it reads and what the screen gives at that time. *)
Definition _monitor_loop (turns : list (Z * Capture)) (m : t) : t :=
  if is_monitoring m
  then fold_left (fun m tc => _monitor_loop_turn tc.1 tc.2 m) turns m
  else m.

(** Captures made one after the other. *)
Definition capture_all (cs : list Capture) (m : t) : t :=
  fold_left (fun m c => _capture_and_analyze cfg re c m) cs m.

(** The turns at which the interval test of the loop passes, [last] being
    the time of the capture before them. *)
Fixpoint due (turns : list (Z * Capture)) (last : Z) : list (Z * Capture) :=
  match turns with
  | [] => []
  | tc :: rest =>
      if seconds SCREEN_CAPTURE_INTERVAL <=? tc.1 - last
      then tc :: due rest tc.1
      else due rest last
  end.

End Loop.

(** The six entries every analysis has. *)
Definition base_keys : list string :=
  [ "timestamp"; "text_content"; "code_detected"; "file_type";
    "error_indicators"; "suggestions_context" ].

(** The names of the languages of [code_patterns], in its order. *)
Definition languages : list string := code_patterns.*1.

(** The entries on detection agree with each other. *)
Definition detection_agrees (cfg : config) (context : pydict) : Prop :=
  (context !! "code_detected" = Some (VBool true) ->
   exists lang,
     context !! "language" = Some (VStr lang) /\ lang ∈ languages)
  /\ (forall ext,
        context !! "file_type" = Some (VStr ext) ->
        context !! "code_detected" = Some (VBool true)
        /\ ext ∈ MONITORED_EXTENSIONS cfg)
  /\ (context = ∅ \/ forall k, k ∈ base_keys -> is_Some (context !! k)).

(** The name [_detect_error_indicators] gives to a pattern. *)
Definition indicator_name (pattern : string) : string :=
  title (replace_char "_" " " (replace_char ":" "" pattern)).

(** A capture whose text was not read: text recognition is switched off,
    or it failed. *)
Definition unread (cfg : config) (c : Capture) : bool :=
  (negb (OCR_ENABLED cfg) || is_raise (ocr c))%bool.

(** Turns of the loop, with the 0.1 s sleep between them shortened to whole
    seconds: a capture is due at the first and at the third. *)
Definition four_turns : list (Z * Capture) :=
  [ (1700000000000, capture_cpp);
    (1700000001000, capture_cpp);
    (1700000002000, capture_ocr_failure);
    (1700000003000, capture_cpp) ].

(** A screenshot that cannot be taken. *)
Definition capture_no_screen : Capture :=
  {| grab := Raise (OSError "XGetImage() failed"); now := 1700000004000;
     ocr := Return "" |}.

End MonitorLoop.

(* ===================================================================== *)
(** ** keyboard_handler.py: [KeyboardHandler]                             *)
(* ===================================================================== *)

Module KeyboardHandler.

(** The three shortcuts of config.py. *)
Definition ACTIVATE_SHORTCUT : string := "ctrl+shift+c".
Definition DEACTIVATE_SHORTCUT : string := "escape".
Definition TOGGLE_OVERLAY_SHORTCUT : string := "ctrl+shift+o".

(** A dictionary whose order counts, as the items in the order of their
    insertion: [d[k] = v] writes in place when [k] is there and at the end
    when it is not. *)
Fixpoint od_set {V} (k : string) (v : V) (d : list (string * V))
  : list (string * V) :=
  match d with
  | [] => [(k, v)]
  | (k', v') :: d' =>
      if String.eqb k' k then (k, v) :: d' else (k', v') :: od_set k v d'
  end.

Definition od_get {V} (k : string) (d : list (string * V)) : option V :=
  snd <$> List.find (fun kv => String.eqb kv.1 k) d.

Definition od_del {V} (k : string) (d : list (string * V))
  : list (string * V) :=
  List.filter (fun kv => negb (String.eqb kv.1 k)) d.

(** [sorted(keys)] on strings: Python compares them code point by code
    point, which is the order of their bytes. *)
Definition str_le (a b : string) : Prop := String.leb a b = true.

#[local] Instance str_le_dec (a b : string) : Decision (str_le a b).
Proof. unfold str_le. apply _. Defined.

Definition sorted (keys : list string) : list string :=
  merge_sort str_le keys.

(** An entry of [key_combinations]. *)
Record Combo {C : Type} := {
  combo_keys : gset string;
  combo_action : string;
  combo_callback : option C;
  combo_pressed : gset string;
}.
Arguments Combo : clear implicits.

Section Handler.

(** [L] is the state of the [keyboard] library, [C] what a callback is.
    [add_hotkey hotkey action] stands for
    [keyboard.add_hotkey(hotkey, self._hotkey_callback, args=(action,))]
    and [remove_hotkey hotkey] for [keyboard.remove_hotkey(hotkey)]; each
    may raise. *)
Context {L C : Type}.
Context (add_hotkey : string -> string -> L -> outcome unit * L).
Context (remove_hotkey : string -> L -> outcome unit * L).

Record t := {
  is_active : bool;
  registered_hotkeys : list (string * string);
  callbacks : gmap string C;
  key_combinations : list (string * Combo C);
  keyboard : L;
}.

(** [KeyboardHandler.__init__] *)
Definition init (l : L) : t :=
  {| is_active := false; registered_hotkeys := []; callbacks := ∅;
     key_combinations := []; keyboard := l |}.

(** [KeyboardHandler.register_hotkey]: when the library raises, the
    error is logged and nothing is recorded. *)
Definition register_hotkey
    (hotkey action : string) (callback : option C) (kh : t) : t :=
  match add_hotkey hotkey action (keyboard kh) with
  | (Return _, l) =>
      {| is_active := is_active kh;
         registered_hotkeys := od_set hotkey action (registered_hotkeys kh);
         callbacks :=
           match callback with
           | Some cb => <[ action := cb ]> (callbacks kh)
           | None => callbacks kh
           end;
         key_combinations := key_combinations kh;
         keyboard := l |}
  | (Raise _, l) =>
      {| is_active := is_active kh;
         registered_hotkeys := registered_hotkeys kh;
         callbacks := callbacks kh;
         key_combinations := key_combinations kh;
         keyboard := l |}
  end.

(** [KeyboardHandler._register_default_hotkeys] *)
Definition default_hotkeys : list (string * string) :=
  [ (ACTIVATE_SHORTCUT, "activate_copilot");
    (DEACTIVATE_SHORTCUT, "deactivate_copilot");
    (TOGGLE_OVERLAY_SHORTCUT, "toggle_overlay") ].

Definition _register_default_hotkeys (kh : t) : t :=
  fold_left (fun kh ha => register_hotkey ha.1 ha.2 None kh)
            default_hotkeys kh.

(** [KeyboardHandler.start_monitoring] *)
Definition start_monitoring (kh : t) : t :=
  if is_active kh then kh
  else
    _register_default_hotkeys
      {| is_active := true;
         registered_hotkeys := registered_hotkeys kh;
         callbacks := callbacks kh;
         key_combinations := key_combinations kh;
         keyboard := keyboard kh |}.

(** [KeyboardHandler.stop_monitoring]: every registered hotkey is removed
    from the library, a failure is logged; then both dictionaries are
    cleared. *)
Definition stop_monitoring (kh : t) : t :=
  {| is_active := false;
     registered_hotkeys := [];
     callbacks := ∅;
     key_combinations := key_combinations kh;
     keyboard :=
       fold_left (fun l ha => (remove_hotkey ha.1 l).2)
                 (registered_hotkeys kh) (keyboard kh) |}.

(** [KeyboardHandler.unregister_hotkey]: when the library raises, the
    error is logged and the hotkey stays in the dictionary. *)
Definition unregister_hotkey (hotkey : string) (kh : t) : t :=
  match od_get hotkey (registered_hotkeys kh) with
  | Some action =>
      match remove_hotkey hotkey (keyboard kh) with
      | (Return _, l) =>
          {| is_active := is_active kh;
             registered_hotkeys := od_del hotkey (registered_hotkeys kh);
             callbacks := delete action (callbacks kh);
             key_combinations := key_combinations kh;
             keyboard := l |}
      | (Raise _, l) =>
          {| is_active := is_active kh;
             registered_hotkeys := registered_hotkeys kh;
             callbacks := callbacks kh;
             key_combinations := key_combinations kh;
             keyboard := l |}
      end
  | None => kh
  end.

(** [KeyboardHandler._hotkey_callback]: the callback it calls, if any. *)
Definition _hotkey_callback (action : string) (kh : t) : option C :=
  callbacks kh !! action.

(** [KeyboardHandler.set_callback] and [remove_callback] *)
Definition set_callback (action : string) (callback : C) (kh : t) : t :=
  {| is_active := is_active kh;
     registered_hotkeys := registered_hotkeys kh;
     callbacks := <[ action := callback ]> (callbacks kh);
     key_combinations := key_combinations kh;
     keyboard := keyboard kh |}.

Definition remove_callback (action : string) (kh : t) : t :=
  {| is_active := is_active kh;
     registered_hotkeys := registered_hotkeys kh;
     callbacks := delete action (callbacks kh);
     key_combinations := key_combinations kh;
     keyboard := keyboard kh |}.

(** [KeyboardHandler.get_registered_hotkeys] *)
Definition get_registered_hotkeys (kh : t) : list (string * string) :=
  registered_hotkeys kh.

(** [KeyboardHandler.register_key_combination] *)
Definition register_key_combination
    (keys : list string) (action : string) (callback : option C) (kh : t)
  : t :=
  let key_combo := join "+" (sorted keys) in
  {| is_active := is_active kh;
     registered_hotkeys := registered_hotkeys kh;
     callbacks := callbacks kh;
     key_combinations :=
       od_set key_combo
         {| combo_keys := list_to_set keys; combo_action := action;
            combo_callback := callback; combo_pressed := ∅ |}
         (key_combinations kh);
     keyboard := keyboard kh |}.

(** [KeyboardHandler.clear_all_hotkeys] *)
Definition clear_all_hotkeys (kh : t) : t :=
  let kh :=
    fold_left (fun kh ha => unregister_hotkey ha.1 kh)
              (registered_hotkeys kh) kh in
  {| is_active := is_active kh;
     registered_hotkeys := registered_hotkeys kh;
     callbacks := callbacks kh;
     key_combinations := [];
     keyboard := keyboard kh |}.

(** [KeyboardHandler.pause_monitoring] and [resume_monitoring] *)
Definition pause_monitoring (kh : t) : t :=
  {| is_active := false;
     registered_hotkeys := registered_hotkeys kh;
     callbacks := callbacks kh;
     key_combinations := key_combinations kh;
     keyboard := keyboard kh |}.

Definition resume_monitoring (kh : t) : t :=
  if is_active kh then kh else start_monitoring kh.

End Handler.

(** One poll of [KeyboardHandler._check_key_combinations].
    [is_pressed key] is what [keyboard.is_pressed(key)] answers during
    the poll, or the exception it raises. *)
Section Poll.

Context {C : Type}.
Context (is_pressed : string -> outcome bool).

(** The loop over the keys of one combination: a pressed key is added to
    [current_pressed], one that is not pressed is discarded from it. *)
Definition scan_keys (keys : list string) (current_pressed : gset string)
  : outcome (gset string) :=
  fold_left
    (fun acc key =>
       let+ current := acc in
       let+ down := is_pressed key in
       Return (if down : bool then {[ key ]} ∪ current
               else current ∖ {[ key ]}))
    keys (Return current_pressed).

(** The loop over the combinations, from [combos] on: the combinations
    as they are left, and the actions executed with their callbacks.
    [current_pressed] is one set for the whole poll; an exception ends the
    poll where it is. *)
Fixpoint check_from
    (combos : list (string * Combo C)) (current_pressed : gset string)
  : list (string * Combo C) * list (string * option C) :=
  match combos with
  | [] => ([], [])
  | (key_combo, combo_data) :: rest =>
      match scan_keys (elements (combo_keys combo_data)) current_pressed with
      | Raise _ => (combos, [])
      | Return current_pressed =>
          let complete :=
            bool_decide (current_pressed = combo_keys combo_data) in
          let held :=
            negb (bool_decide (combo_pressed combo_data = ∅)) in
          if (complete && negb held)%bool then
            let '(rest', executed) := check_from rest current_pressed in
            ((key_combo,
              {| combo_keys := combo_keys combo_data;
                 combo_action := combo_action combo_data;
                 combo_callback := combo_callback combo_data;
                 combo_pressed := current_pressed |}) :: rest',
             (combo_action combo_data, combo_callback combo_data)
               :: executed)
          else if (negb complete && held)%bool then
            let '(rest', executed) := check_from rest current_pressed in
            ((key_combo,
              {| combo_keys := combo_keys combo_data;
                 combo_action := combo_action combo_data;
                 combo_callback := combo_callback combo_data;
                 combo_pressed := ∅ |}) :: rest',
             executed)
          else
            let '(rest', executed) := check_from rest current_pressed in
            ((key_combo, combo_data) :: rest', executed)
      end
  end.

(** [KeyboardHandler._check_key_combinations] *)
Definition _check_key_combinations (combos : list (string * Combo C))
  : list (string * Combo C) * list (string * option C) :=
  check_from combos ∅.

End Poll.

(** The keys of [keys] that are down. *)
Definition held_down (down : string -> bool) (keys : gset string)
  : gset string :=
  filter (fun key => down key = true) keys.

(** A [keyboard] library that accepts every call, and a handler with two
    hotkeys for one action, the callback being the toggle of the
    overlay. *)
Definition accept_add (hotkey action : string) (l : unit)
  : outcome unit * unit := (Return tt, l).

Definition accept_remove (hotkey : string) (l : unit)
  : outcome unit * unit := (Return tt, l).

Definition two_hotkeys_one_action : @t unit Copilot.event :=
  register_hotkey accept_add "f9" "toggle_overlay" None
    (register_hotkey accept_add TOGGLE_OVERLAY_SHORTCUT "toggle_overlay"
       (Some Copilot.HotkeyToggle) (init tt)).

(** Two combinations as [register_key_combination] makes them, and keys
    that are down: those of the second and [alt]. *)
Definition combo_save : Combo Copilot.event :=
  {| combo_keys := {[ "alt"; "s" ]}; combo_action := "save";
     combo_callback := None; combo_pressed := ∅ |}.

Definition combo_toggle : Combo Copilot.event :=
  {| combo_keys := {[ "ctrl"; "o" ]}; combo_action := "toggle_overlay";
     combo_callback := Some Copilot.HotkeyToggle; combo_pressed := ∅ |}.

Definition alt_ctrl_o (key : string) : bool :=
  bool_decide (key ∈ ["alt"; "ctrl"; "o"]).

Definition combo_hyper : Combo Copilot.event :=
  {| combo_keys := {[ "hyper"; "h" ]}; combo_action := "deactivate_copilot";
     combo_callback := Some Copilot.HotkeyDeactivate; combo_pressed := ∅ |}.

(** The library knows no key named [hyper]. *)
Definition no_hyper (key : string) : outcome bool :=
  if String.eqb key "hyper"
  then Raise (OSError "Key 'hyper' is not mapped to any known key.")
  else Return false.

End KeyboardHandler.

(* ===================================================================== *)
(** ** audio_processor.py: [AudioProcessor]                               *)
(* ===================================================================== *)

Module AudioProcessor.

(** The items of [Config.VOICE_COMMANDS], in the order of config.py, which
    is the order in which [_process_voice_command] visits them. *)
Definition voice_commands : list (string * string) :=
  [ ("explain", "Explain the current code");
    ("fix", "Suggest fixes for errors");
    ("optimize", "Optimize the current code");
    ("document", "Generate documentation");
    ("test", "Generate test cases");
    ("refactor", "Suggest refactoring");
    ("debug", "Help debug issues") ].

(** [command in text] *)
Definition is_in (command text : string) : bool :=
  ScreenMonitor.contains command text.

(** The attributes of an [AudioProcessor] that tell whether it listens and
    whom it calls; [H] and [V] are what the two callbacks are. *)
Record t {H V : Type} := {
  is_listening : bool;
  hotword_callback : option H;
  voice_command_callback : option V;
}.
Arguments t : clear implicits.

Section Processor.

Context {H V : Type}.

(** [AudioProcessor.__init__] *)
Definition init : t H V :=
  {| is_listening := false; hotword_callback := None;
     voice_command_callback := None |}.

(** [AudioProcessor.start_listening] *)
Definition start_listening
    (hotword : option H) (voice_command : option V) (ap : t H V) : t H V :=
  if is_listening ap then ap
  else {| is_listening := true; hotword_callback := hotword;
          voice_command_callback := voice_command |}.

(** [AudioProcessor.stop_listening] *)
Definition stop_listening (ap : t H V) : t H V :=
  {| is_listening := false; hotword_callback := hotword_callback ap;
     voice_command_callback := voice_command_callback ap |}.

(** [AudioProcessor._process_voice_command]: the call of
    [voice_command_callback] it makes, as the callback with its two
    arguments; none without a callback. *)
Definition _process_voice_command
    (voice_commands : list (string * string)) (text : string) (ap : t H V)
  : option (V * string * string) :=
  match voice_command_callback ap with
  | Some callback =>
      match List.find (fun cd => is_in cd.1 text) voice_commands with
      | Some (command, description) => Some (callback, command, text)
      | None => Some (callback, "query", text)
      end
  | None => None
  end.

End Processor.

End AudioProcessor.

(* ===================================================================== *)
(** ** config.py, overlay_ui.py: where the window is put                  *)
(* ===================================================================== *)

Module Placement.

(** [Config.get_overlay_position], for the values of [OVERLAY_POSITION],
    [OVERLAY_WIDTH] and [OVERLAY_HEIGHT]: the coordinates [x] and [y]. The
    screen is taken to be 1920 by 1080. *)
Definition get_overlay_position
    (OVERLAY_POSITION : string) (OVERLAY_WIDTH OVERLAY_HEIGHT : Z) : Z * Z :=
  let screen_width := 1920 in
  let screen_height := 1080 in
  if String.eqb OVERLAY_POSITION "top-right" then
    (screen_width - OVERLAY_WIDTH - 20, 20)
  else if String.eqb OVERLAY_POSITION "top-left" then
    (20, 20)
  else if String.eqb OVERLAY_POSITION "bottom-right" then
    (screen_width - OVERLAY_WIDTH - 20, screen_height - OVERLAY_HEIGHT - 20)
  else if String.eqb OVERLAY_POSITION "bottom-left" then
    (20, screen_height - OVERLAY_HEIGHT - 20)
  else (20, 20).

(** The geometry [OverlayUI._configure_window] asks for: the position it
    is given, or that of the configuration. *)
Definition window_geometry
    (OVERLAY_POSITION : string) (OVERLAY_WIDTH OVERLAY_HEIGHT : Z)
    (position : option (Z * Z)) : string :=
  let position :=
    match position with
    | Some xy => xy
    | None =>
        get_overlay_position OVERLAY_POSITION OVERLAY_WIDTH OVERLAY_HEIGHT
    end in
  str_of_Z OVERLAY_WIDTH +:+ "x" +:+ str_of_Z OVERLAY_HEIGHT
    +:+ "+" +:+ str_of_Z position.1 +:+ "+" +:+ str_of_Z position.2.

End Placement.

(* ===================================================================== *)
(** ** main.py: [RealTimeCopilot] with its components                     *)
(* ===================================================================== *)

Module Main.

(** The handler [RealTimeCopilot._on_voice_command], as a callback. *)
Inductive voice_handler := OnVoiceCommand.

(** [OverlayUI.destroy] *)
Definition destroy (ui : Copilot.OverlayUI) : Copilot.OverlayUI :=
  {| Copilot.is_visible := false;
     Copilot.fade_direction := Copilot.fade_direction ui;
     Copilot.fade_alive := Copilot.fade_alive ui;
     Copilot.displayed := Copilot.displayed ui;
     Copilot.suggestions_frame := Copilot.suggestions_frame ui |}.

(** The entry [_show_error_suggestions] makes of one fix. *)
Definition error_fix (fix_ : pyval) : outcome pyval :=
  match fix_ with
  | VDict f =>
      Return
        (VDict
           (<[ "type" := VStr "code_fix" ]>
            (<[ "title" := VStr "Error Fix" ]>
            (<[ "description" := dict_get_or f "description" (VStr "") ]>
            (<[ "code" := dict_get_or f "code" (VStr "") ]>
            (<[ "priority" := VStr "high" ]> ∅))))))
  | v =>
      Raise (AttributeError
               ("'" +:+ type_name v +:+ "' object has no attribute 'get'"))
  end.

Fixpoint error_fixes (fixes : list pyval) : outcome (list pyval) :=
  match fixes with
  | [] => Return []
  | fix_ :: rest =>
      let+ suggestion := error_fix fix_ in
      let+ suggestions := error_fixes rest in
      Return (suggestion :: suggestions)
  end.

(** [isinstance(v, dict)] *)
Definition is_dict (v : pyval) : bool :=
  match v with VDict _ => true | _ => false end.

(** [RealTimeCopilot._show_error_suggestions]: an exception, of the loop
    over the fixes or of [fix.get], is logged and nothing is shown. *)
Definition _show_error_suggestions
    (error_suggestions : pydict) (s : Copilot.RealTimeCopilot)
  : Copilot.RealTimeCopilot :=
  let fixes := dict_get_or error_suggestions "fixes" (VList []) in
  if truthy fixes then
    match (let+ items := iterate fixes in error_fixes items) with
    | Return suggestions =>
        Copilot._show_suggestions {[ "suggestions" := VList suggestions ]} s
    | Raise _ => s
    end
  else s.

(** [self.last_suggestions = v]. What [generate_suggestions] hands out
    under ["suggestions"] is a list. *)
Definition set_last_suggestions (v : pyval) (s : Copilot.RealTimeCopilot)
  : Copilot.RealTimeCopilot :=
  {| Copilot.is_running := Copilot.is_running s;
     Copilot.is_active := Copilot.is_active s;
     Copilot.current_context := Copilot.current_context s;
     Copilot.last_suggestions :=
       match v with VList l => l | _ => Copilot.last_suggestions s end;
     Copilot.overlay_ui := Copilot.overlay_ui s |}.

Definition set_current_context (context : pydict) (s : Copilot.RealTimeCopilot)
  : Copilot.RealTimeCopilot :=
  {| Copilot.is_running := Copilot.is_running s;
     Copilot.is_active := Copilot.is_active s;
     Copilot.current_context := context;
     Copilot.last_suggestions := Copilot.last_suggestions s;
     Copilot.overlay_ui := Copilot.overlay_ui s |}.

Definition set_running (running active : bool) (s : Copilot.RealTimeCopilot)
  : Copilot.RealTimeCopilot :=
  {| Copilot.is_running := running;
     Copilot.is_active := active;
     Copilot.current_context := Copilot.current_context s;
     Copilot.last_suggestions := Copilot.last_suggestions s;
     Copilot.overlay_ui := Copilot.overlay_ui s |}.

Section App.

(** [L] is the state of the [keyboard] library, with its two calls. *)
Context {L : Type}.
Context (add_hotkey : string -> string -> L -> outcome unit * L).
Context (remove_hotkey : string -> L -> outcome unit * L).
Context (env : Env).

(** A [RealTimeCopilot]: its own attributes, its components, and the
    batches that [OverlayUI.update_suggestions] put into the open window
    without an exception. *)
Record t := {
  copilot : Copilot.RealTimeCopilot;
  screen_monitor : ScreenMonitor.t;
  audio_processor : AudioProcessor.t Copilot.event voice_handler;
  keyboard_handler : @KeyboardHandler.t L Copilot.event;
  ai_engine : State;
  overlay_updates : list pyval;
}.

Definition with_copilot
    (f : Copilot.RealTimeCopilot -> Copilot.RealTimeCopilot) (a : t) : t :=
  {| copilot := f (copilot a);
     screen_monitor := screen_monitor a;
     audio_processor := audio_processor a;
     keyboard_handler := keyboard_handler a;
     ai_engine := ai_engine a;
     overlay_updates := overlay_updates a |}.

Definition with_engine (st : State) (a : t) : t :=
  {| copilot := copilot a;
     screen_monitor := screen_monitor a;
     audio_processor := audio_processor a;
     keyboard_handler := keyboard_handler a;
     ai_engine := st;
     overlay_updates := overlay_updates a |}.

(** [RealTimeCopilot.__init__], with [_initialize_components] and
    [_setup_callbacks]: the audio processor listens from here on. *)
Definition init (l : L) (w : World) : t :=
  {| copilot := Copilot.init;
     screen_monitor := ScreenMonitor.init;
     audio_processor :=
       AudioProcessor.start_listening
         (Some Copilot.HotwordDetected) (Some OnVoiceCommand)
         AudioProcessor.init;
     keyboard_handler :=
       KeyboardHandler.set_callback "toggle_overlay" Copilot.HotkeyToggle
         (KeyboardHandler.set_callback "deactivate_copilot"
            Copilot.HotkeyDeactivate
            (KeyboardHandler.set_callback "activate_copilot"
               Copilot.HotkeyActivate (KeyboardHandler.init l)));
     ai_engine := {| self := AIEngine_init env; world := w |};
     overlay_updates := [] |}.

(** [RealTimeCopilot.start] *)
Definition start (a : t) : t :=
  if Copilot.is_running (copilot a) then a
  else
    {| copilot :=
         Copilot._show_welcome_overlay (set_running true true (copilot a));
       screen_monitor := MonitorLoop.start_monitoring (screen_monitor a);
       audio_processor := audio_processor a;
       keyboard_handler :=
         KeyboardHandler.start_monitoring add_hotkey (keyboard_handler a);
       ai_engine := ai_engine a;
       overlay_updates := overlay_updates a |}.

(** [RealTimeCopilot.stop] *)
Definition stop (a : t) : t :=
  if negb (Copilot.is_running (copilot a)) then a
  else
    {| copilot :=
         Copilot.with_overlay destroy (set_running false false (copilot a));
       screen_monitor := MonitorLoop.stop_monitoring (screen_monitor a);
       audio_processor := AudioProcessor.stop_listening (audio_processor a);
       keyboard_handler :=
         KeyboardHandler.stop_monitoring remove_hotkey (keyboard_handler a);
       ai_engine := ai_engine a;
       overlay_updates := overlay_updates a |}.

(** [OverlayUI.update_suggestions]. Nothing catches what
    [_add_suggestions] or [len] raises: the exception goes to the caller. *)
Definition update_suggestions (suggestions : pyval) (a : t)
  : outcome unit * t :=
  if (Copilot.is_visible (Copilot.overlay_ui (copilot a))
      && Copilot.suggestions_frame (Copilot.overlay_ui (copilot a)))%bool
  then
    match (let+ added := Copilot._add_suggestions suggestions in
           let+ updated := Copilot.len suggestions in
           Return tt) with
    | Return _ =>
        (Return tt,
         {| copilot := copilot a;
            screen_monitor := screen_monitor a;
            audio_processor := audio_processor a;
            keyboard_handler := keyboard_handler a;
            ai_engine := ai_engine a;
            overlay_updates := overlay_updates a ++ [suggestions] |})
    | Raise e => (Raise e, a)
    end
  else (Return tt, a).

(** The argument [code_context] of [suggest_fixes] as its prompt reads
    it: [{code_context or 'Not provided'}]. *)
Definition code_context_of (v : pyval) : option string :=
  if truthy v then Some (fmt env v) else None.

(** [RealTimeCopilot._check_for_issues]. [error_suggestions.get] raises
    on a value that is not a dictionary; the exception is logged. *)
Definition _check_for_issues (a : t) : t :=
  let context := Copilot.current_context (copilot a) in
  if negb (truthy (VDict context)) then a
  else
    let error_indicators :=
      dict_get_or context "error_indicators" (VList []) in
    if (truthy error_indicators && Copilot.is_active (copilot a))%bool then
      let '(o, st) :=
        suggest_fixes env (fmt env error_indicators)
          (code_context_of (dict_get_or context "text_content" (VStr "")))
          (ai_engine a) in
      let a := with_engine st a in
      match o with
      | Return (VDict error_suggestions) =>
          if (truthy (VDict error_suggestions)
              && negb (truthy (dict_get error_suggestions "error")))%bool
          then with_copilot (_show_error_suggestions error_suggestions) a
          else a
      | _ => a
      end
    else a.

(** One turn of [RealTimeCopilot._main_loop], before its [time.sleep(1)]. *)
Definition _main_loop_turn (a : t) : t :=
  _check_for_issues
    (with_copilot
       (set_current_context
          (ScreenMonitor.get_current_context (screen_monitor a))) a).

(** [n] turns of [_main_loop], a second of sleep after each. *)
Fixpoint _main_loop (n : nat) (a : t) : t :=
  match n with
  | O => a
  | S n =>
      if Copilot.is_running (copilot a) then
        let a := _main_loop_turn a in
        _main_loop n (with_engine (idle 1000 (ai_engine a)) a)
      else a
  end.

(** One turn of [RealTimeCopilot._suggestion_loop], before its
    [time.sleep(5)]. The [try] of the loop is around the [while]: an
    exception of a turn, which only [update_suggestions] can raise
    ([generate_suggestions] catches its own), is handed on. *)
Definition _suggestion_loop_turn (a : t) : outcome unit * t :=
  let context := Copilot.current_context (copilot a) in
  if (Copilot.is_active (copilot a) && truthy (VDict context))%bool then
    let '(o, st) := generate_suggestions env context None None (ai_engine a) in
    let a := with_engine st a in
    match o with
    | Return suggestions =>
        if (truthy (VDict suggestions)
            && negb (truthy (dict_get suggestions "error")))%bool
        then
          let last := dict_get_or suggestions "suggestions" (VList []) in
          let a := with_copilot (set_last_suggestions last) a in
          if Copilot.is_visible (Copilot.overlay_ui (copilot a))
          then update_suggestions last a
          else (Return tt, a)
        else (Return tt, a)
    | Raise e => (Raise e, a)
    end
  else (Return tt, a).

(** [n] turns of [_suggestion_loop], five seconds of sleep after each; the
    exception of a turn is logged and ends the loop. *)
Fixpoint _suggestion_loop (n : nat) (a : t) : t :=
  match n with
  | O => a
  | S n =>
      if Copilot.is_running (copilot a) then
        match _suggestion_loop_turn a with
        | (Return _, a) =>
            _suggestion_loop n (with_engine (idle 5000 (ai_engine a)) a)
        | (Raise _, a) => a
        end
      else a
  end.

(** [RealTimeCopilot._on_voice_command] *)
Definition _on_voice_command (command text : string) (a : t) : t :=
  let '(o, st) :=
    generate_suggestions env (Copilot.current_context (copilot a))
      (Some command) (Some text) (ai_engine a) in
  let a := with_engine st a in
  match o with
  | Return suggestions =>
      if (truthy (VDict suggestions)
          && negb (truthy (dict_get suggestions "error")))%bool
      then with_copilot (Copilot._show_suggestions suggestions) a
      else a
  | Raise _ => a
  end.

(** The prompt [_check_for_issues] sends to [suggest_fixes] for a
    context: the error indicators as Python prints the list, and the text
    of the screen as code context. *)
Definition issue_prompt (context : pydict) : string :=
  fixes_prompt
    (fmt env (dict_get_or context "error_indicators" (VList [])))
    (code_context_of (dict_get_or context "text_content" (VStr ""))).

(** What a press of a registered hotkey does: [_hotkey_callback] calls the
    callback of the action, a handler of the copilot. *)
Definition press_hotkey (action : string) (a : t) : t :=
  match KeyboardHandler._hotkey_callback action (keyboard_handler a) with
  | Some e => with_copilot (Copilot.handle e) a
  | None => a
  end.

(** What can happen to a copilot, one thing at a time: an event of the
    keyboard or of the microphone, a voice command, a turn of one of its
    two loops, a capture of the screen monitor, the end of a fade of the
    overlay, the auto-hide timer of a window, [start], [stop], and time
    that passes. A turn of [_suggestion_loop] is taken with what it has
    done when it raises. *)
Inductive step :=
| Event (e : Copilot.event)
| VoiceCommand (command text : string)
| MainLoopTurn
| SuggestionLoopTurn
| Capture (cfg : config) (re : ScreenMonitor.Regex) (c : ScreenMonitor.Capture)
| FadeEnds
| AutoHide
| Start
| Stop
| Wait (d : N).

Definition exec (s : step) (a : t) : t :=
  match s with
  | Event e => with_copilot (Copilot.handle e) a
  | VoiceCommand command text => _on_voice_command command text a
  | MainLoopTurn => _main_loop_turn a
  | SuggestionLoopTurn => (_suggestion_loop_turn a).2
  | Capture cfg re c =>
      {| copilot := copilot a;
         screen_monitor :=
           ScreenMonitor._capture_and_analyze cfg re c (screen_monitor a);
         audio_processor := audio_processor a;
         keyboard_handler := keyboard_handler a;
         ai_engine := ai_engine a;
         overlay_updates := overlay_updates a |}
  | FadeEnds => with_copilot Copilot.fade_ends a
  | AutoHide => with_copilot (Copilot.with_overlay Copilot.hide_overlay) a
  | Start => start a
  | Stop => stop a
  | Wait d => with_engine (idle d (ai_engine a)) a
  end.

(** The steps one after the other, each run to its end before the next. *)
Definition play (steps : list step) (a : t) : t :=
  fold_left (fun a s => exec s a) steps a.

End App.

(** A batch as a window shows it: a list of suggestions, not empty. *)
Definition is_shown_batch (v : pyval) : Prop :=
  exists l, v = VList l /\ l <> [] /\ Forall is_suggestion l.

(** A batch as [update_suggestions] gets it: a list of suggestions. *)
Definition is_update (v : pyval) : Prop :=
  exists l, v = VList l /\ Forall is_suggestion l.

(** What holds of a copilot at any time: what it remembers and what it
    shows are well-formed suggestions; a visible overlay has a window; and
    the overlay of a copilot that is not active is hidden or fading out. *)
Definition copilot_well_formed (s : Copilot.RealTimeCopilot) : Prop :=
  Forall is_suggestion (Copilot.last_suggestions s)
  /\ Forall is_shown_batch (Copilot.displayed (Copilot.overlay_ui s))
  /\ (Copilot.is_visible (Copilot.overlay_ui s) = true ->
      Copilot.displayed (Copilot.overlay_ui s) <> [])
  /\ (Copilot.is_active s = false ->
      Copilot.is_visible (Copilot.overlay_ui s) = true ->
      Copilot.fade_alive (Copilot.overlay_ui s) = true
      /\ Copilot.fade_direction (Copilot.overlay_ui s) = -1).

Definition well_formed {L : Type} (a : @t L) : Prop :=
  copilot_well_formed (copilot a) /\ Forall is_update (overlay_updates a).

(** An active copilot that runs, with one remembered suggestion, and an
    answer of [suggest_fixes] with two fixes. *)
Definition active_with_suggestion : Copilot.RealTimeCopilot :=
  set_running true true Copilot.idle_with_suggestion.

Definition two_fixes : list pyval :=
  [ VDict (<[ "description" := VStr "Add the missing colon" ]>
           (<[ "code" := VStr "def f():" ]>
           (<[ "explanation" := VStr "A def line ends with a colon" ]> ∅)));
    VDict {[ "description" := VStr "Indent the body" ]} ].

Definition fixes_answer : pydict :=
  <[ "fixes" := VList two_fixes ]>
  (<[ "prevention" := VStr "Run a linter" ]> ∅).

(** The answer of the provider with these fixes, and a screen with an
    error on it. *)
Definition fixes_json : string :=
  "{" +:+ q "fixes" +:+ ": [{"
      +:+ q "description" +:+ ": " +:+ q "Add the missing colon" +:+ ", "
      +:+ q "code" +:+ ": " +:+ q "def f():" +:+ ", "
      +:+ q "explanation" +:+ ": " +:+ q "A def line ends with a colon"
      +:+ "}, {"
      +:+ q "description" +:+ ": " +:+ q "Indent the body" +:+ "}], "
      +:+ q "prevention" +:+ ": " +:+ q "Run a linter" +:+ "}".

Definition env_fixes : Env :=
  sample_env "sk-test" (always (Return fixes_json)).

Definition capture_syntax_error : ScreenMonitor.Capture :=
  {| ScreenMonitor.grab := Return tt;
     ScreenMonitor.now := t0;
     ScreenMonitor.ocr := Return "SyntaxError: expected ':'" |}.

(** A copilot after [start], and the same once the monitor has captured
    the screen with the error. *)
Definition started (env : Env) : @t unit :=
  start KeyboardHandler.accept_add (init env tt (world_at t0)).

Definition watching_an_error : @t unit :=
  {| copilot := copilot (started env_fixes);
     screen_monitor :=
       ScreenMonitor._capture_and_analyze
         ScreenMonitor.sample_cfg ScreenMonitor.sample_regex
         capture_syntax_error (screen_monitor (started env_fixes));
     audio_processor := audio_processor (started env_fixes);
     keyboard_handler := keyboard_handler (started env_fixes);
     ai_engine := ai_engine (started env_fixes);
     overlay_updates := overlay_updates (started env_fixes) |}.

(** An answer of the provider with a number as priority,
    [{"suggestions": [{"title": "T", "priority": 1}]}]; a copilot that was
    started and has read a C++ source from the screen; and the same after a
    turn of the suggestion loop, deactivated, its fade at its end. *)
Definition priority_1_json : string :=
  "{" +:+ q "suggestions" +:+ ": [{"
      +:+ q "title" +:+ ": " +:+ q "T" +:+ ", "
      +:+ q "priority" +:+ ": 1}]}".

Definition env_priority_1 : Env :=
  sample_env "sk-test" (always (Return priority_1_json)).

Definition watching_a_source : @t unit :=
  play KeyboardHandler.accept_add KeyboardHandler.accept_remove env_priority_1
    [ Capture ScreenMonitor.sample_cfg ScreenMonitor.sample_regex
        ScreenMonitor.capture_cpp;
      MainLoopTurn ]
    (started env_priority_1).


(** The prompt of the voice command ["fix"] with the text ["fix this"],
    on an empty context. *)
Definition fix_this_prompt : string :=
  join "
" [ system_prompt;
    "
User request: Suggest fixes for errors";
    "
User query: fix this";
    format_request ].

(** The audio processor as [_setup_callbacks] leaves it. *)
Definition listening : AudioProcessor.t Copilot.event voice_handler :=
  AudioProcessor.start_listening
    (Some Copilot.HotwordDetected) (Some OnVoiceCommand) AudioProcessor.init.

End Main.
(* ===================================================================== *)
(** * Properties                                                          *)
(* ===================================================================== *)

(** ** The engine: how each method runs                                   *)

Ltac unfold_py :=
  unfold bind, ret, raise, lift, try_except, time_time, time_sleep,
    get_self, set_last_request_time, set_suggestion_cache in *.

Section EngineFacts.

Context (env : Env).

Lemma after_gate_self st : self (after_gate st) = self st.
Proof. unfold after_gate. by destruct (_ <? _). Qed.

Lemma after_gate_calls st :
  calls (world (after_gate st)) = calls (world st).
Proof. unfold after_gate. by destruct (_ <? _). Qed.

(** The gate: the prompt is built, and the provider called, no earlier than
    [rate_limit_delay] after [last_request_time]. *)
Lemma after_gate_clock st :
  last_request_time (self st) + rate_limit_delay (self st)
  ≤ clock (world (after_gate st)).
Proof.
  unfold after_gate.
  destruct (_ <? _) eqn:Hlt; simpl; [lia|].
  apply Z.ltb_ge in Hlt. lia.
Qed.

Lemma after_gate_clock_mono st :
  clock (world st) ≤ clock (world (after_gate st)).
Proof.
  unfold after_gate.
  destruct (_ <? _) eqn:Hlt; simpl; [|lia].
  apply Z.ltb_lt in Hlt. lia.
Qed.

Lemma call_openai_client prompt st :
  client (self st) = true ->
  _call_openai env prompt st = (reply_to env prompt st, after_call env prompt st).
Proof.
  intros Hc. unfold _call_openai, reply_to, after_call. rewrite Hc.
  by destruct (chat_completions_create _ _ _).
Qed.

Lemma call_openai_no_client prompt st :
  client (self st) = false ->
  exists e, _call_openai env prompt st = (Raise e, st).
Proof. intros Hc. unfold _call_openai. rewrite Hc. eauto. Qed.

Lemma format_text_response_eq response context st :
  _format_text_response response context st
  = (Return (text_batch response context (clock (world st))), st).
Proof. reflexivity. Qed.

(** [_format_suggestions] reads the clock and nothing else. *)
Lemma format_suggestions_state parsed context st :
  (_format_suggestions parsed context st).2 = st.
Proof.
  unfold _format_suggestions. unfold_py. simpl.
  destruct parsed; try reflexivity.
  by destruct (iterate _).
Qed.

(** [_parse_response] never raises and leaves the state as it was. *)
Lemma parse_response_total response context st :
  exists d, _parse_response env response context st = (Return d, st).
Proof.
  unfold _parse_response. unfold_py.
  destruct (startswith _ _); [|eauto].
  destruct (json_loads env response) as [parsed|e].
  - pose proof (format_suggestions_state parsed context st) as Hst.
    destruct (_format_suggestions parsed context st) as [[d|e] st'];
      simpl in Hst; subst st'; [eauto|].
    destruct e; eauto.
  - destruct e; eauto.
Qed.

Lemma parse_response_unstructured response context st :
  unstructured env response ->
  _parse_response env response context st
  = (Return (text_batch response context (clock (world st))), st).
Proof.
  intros [Hs|[msg Hj]]; unfold _parse_response; unfold_py.
  - by rewrite Hs.
  - destruct (startswith _ _); [|done]. by rewrite Hj.
Qed.

End EngineFacts.

Section EngineRuns.

Context (env : Env).

Lemma generate_suggestions_uninitialized context command query st :
  is_initialized (self st) = false ->
  generate_suggestions env context command query st
  = (Return (error_dict "AI Engine not initialized"), st).
Proof.
  intros Hi. unfold generate_suggestions. unfold_py. by rewrite Hi.
Qed.

Lemma ask_json_uninitialized prompt st :
  is_initialized (self st) = false ->
  ask_json env prompt st = (not_initialized, st).
Proof. intros Hi. unfold ask_json. unfold_py. by rewrite Hi. Qed.

(** How [generate_suggestions] runs on an initialized engine: the gate,
    the prompt, the provider, the parser, the time stamp; an exception of
    the prompt or of the provider ends the call before the time stamp. *)
Lemma generate_suggestions_run context command query st :
  is_initialized (self st) = true ->
  client (self st) = true ->
  generate_suggestions env context command query st
  = match _build_prompt env context command query with
    | Raise e => (Return (error_dict (exn_str e)), after_gate st)
    | Return prompt =>
        let st1 := after_call env prompt (after_gate st) in
        match reply_to env prompt (after_gate st) with
        | Raise e => (Return (error_dict (exn_str e)), st1)
        | Return response =>
            ((_parse_response env response context st1).1, stamp st1)
        end
    end.
Proof.
  intros Hi Hc. unfold generate_suggestions.
  unfold bind at 1. unfold get_self at 1. rewrite Hi.
  unfold try_except. change (negb true) with false. cbv beta iota.
  assert (Hgate :
    forall (k : Py pydict),
      bind time_time (fun current_time =>
        bind (if current_time - last_request_time (self st)
                 <? rate_limit_delay (self st)
              then time_sleep (rate_limit_delay (self st)
                               - (current_time - last_request_time (self st)))
              else ret tt) (fun _ => k)) st
      = k (after_gate st)).
  { intros k. unfold_py. unfold after_gate.
    destruct (_ <? _); [reflexivity|]. by destruct st. }
  rewrite Hgate. unfold bind at 1. unfold lift.
  destruct (_build_prompt env context command query) as [prompt|e];
    [|reflexivity].
  unfold bind at 1.
  rewrite call_openai_client by (by rewrite after_gate_self).
  cbv zeta.
  destruct (reply_to env prompt (after_gate st)) as [response|e];
    [|reflexivity].
  unfold bind at 1.
  destruct (parse_response_total env response context
              (after_call env prompt (after_gate st))) as [d Hd].
  rewrite Hd. reflexivity.
Qed.

(** A [try] whose handler returns never raises. *)
Lemma try_except_returns {A} (body : Py A) (handler : exn -> Py A) st :
  (forall e st', exists a, (handler e st').1 = Return a) ->
  exists a, (try_except body handler st).1 = Return a.
Proof.
  intros Hh. unfold try_except.
  destruct (body st) as [[a|e] st']; simpl; eauto.
Qed.

Lemma ask_json_returns prompt st :
  exists v, (ask_json env prompt st).1 = Return v.
Proof.
  unfold ask_json. unfold bind at 1. unfold get_self at 1.
  destruct (negb _); [simpl; eauto|].
  apply try_except_returns. intros e st'. simpl. eauto.
Qed.

(** No public operation raises. *)
Lemma call_returns r st : exists v, (call env r st).1 = Return v.
Proof.
  destruct r as [context command query|e c|c l|c l]; simpl;
    try apply ask_json_returns.
  assert (exists d, (generate_suggestions env context command query st).1
                    = Return d) as [d Hd].
  { unfold generate_suggestions. unfold bind at 1. unfold get_self at 1.
    destruct (negb _); [simpl; eauto|].
    apply try_except_returns. intros e st'. simpl. eauto. }
  unfold bind.
  destruct (generate_suggestions env context command query st) as [o st'].
  simpl in Hd. subst o. simpl. eauto.
Qed.

Lemma call_uninitialized r st :
  is_initialized (self st) = false ->
  call env r st = (not_initialized, st).
Proof.
  intros Hi. destruct r; simpl.
  - unfold bind. by rewrite generate_suggestions_uninitialized.
  - by apply ask_json_uninitialized.
  - by apply ask_json_uninitialized.
  - by apply ask_json_uninitialized.
Qed.

Lemma run_uninitialized trace : forall st,
  is_initialized (self st) = false ->
  (run env trace st).1 = replicate (List.length trace) not_initialized
  /\ self (run env trace st).2 = self st
  /\ calls (world (run env trace st).2) = calls (world st)
  /\ clock (world (run env trace st).2) = clock (world st) + total_idle trace.
Proof.
  induction trace as [|[d r] trace IH]; intros st Hi; simpl.
  - repeat split; lia.
  - rewrite call_uninitialized by done.
    destruct (IH (idle d st) Hi) as (H1 & H2 & H3 & H4).
    destruct (run env trace (idle d st)) as [os st2]. simpl in *.
    rewrite H1, H2, H3, H4. repeat split. lia.
Qed.

Lemma init_without_credentials :
  OPENAI_API_KEY (Config env) = ""
  \/ is_raise (openai_OpenAI env (OPENAI_API_KEY (Config env))) = true ->
  is_initialized (AIEngine_init env) = false.
Proof.
  unfold AIEngine_init, _initialize_client.
  intros [Hk|Hr].
  - by rewrite Hk.
  - destruct (truthy _); [|done].
    by destruct (openai_OpenAI env _).
Qed.

End EngineRuns.

(** C5. When the engine could not be initialized (no API key, or the
    client constructor raised), every later call of [generate_suggestions],
    [suggest_fixes], [analyze_code_quality] or [generate_documentation]
    returns [{"error": "AI Engine not initialized"}] at once: the provider
    is never called, the engine is left as it was, and the clock has only
    moved by the time the caller itself let pass. *)
Theorem uninitialized_engine_short_circuits
    (env : Env) (t : Z) (trace : list (N * request)) :
  OPENAI_API_KEY (Config env) = ""
  \/ is_raise (openai_OpenAI env (OPENAI_API_KEY (Config env))) = true ->
  (run env trace (fresh env t)).1
    = replicate (List.length trace) not_initialized
  /\ calls (world (run env trace (fresh env t)).2) = []
  /\ clock (world (run env trace (fresh env t)).2) = t + total_idle trace
  /\ self (run env trace (fresh env t)).2 = AIEngine_init env.
Proof.
  intros Hcred.
  destruct (run_uninitialized env trace (fresh env t)
              (init_without_credentials env Hcred)) as (H1 & H2 & H3 & H4).
  auto.
Qed.

Lemma uninitialized_engine_short_circuits_witness :
  (run env_without_key one_call_each (fresh env_without_key t0)).1
    = replicate 4 not_initialized
  /\ calls (world (run env_without_key one_call_each
                       (fresh env_without_key t0)).2) = []
  /\ clock (world (run env_without_key one_call_each
                       (fresh env_without_key t0)).2)
     = t0 + total_idle one_call_each
  /\ self (run env_without_key one_call_each (fresh env_without_key t0)).2
     = AIEngine_init env_without_key.
Proof.
  apply (uninitialized_engine_short_circuits env_without_key t0 one_call_each).
  left. reflexivity.
Defined.

(** ** The text fallback *)






(** ** Answers that cannot be parsed *)

Section ParseFailures.

Context (env : Env).

(** How [analyze_code_quality], [suggest_fixes] and
    [generate_documentation] run on an initialized engine. *)
Lemma ask_json_run prompt st :
  is_initialized (self st) = true ->
  client (self st) = true ->
  ask_json env prompt st
  = (match reply_to env prompt st with
     | Return response =>
         match json_loads env response with
         | Return v => Return v
         | Raise e => Return (VDict (error_dict (exn_str e)))
         end
     | Raise e => Return (VDict (error_dict (exn_str e)))
     end,
     after_call env prompt st).
Proof.
  intros Hi Hc. unfold ask_json. unfold bind at 1. unfold get_self at 1.
  rewrite Hi. change (negb true) with false. cbv beta iota.
  unfold try_except, bind. rewrite call_openai_client by done.
  destruct (reply_to env prompt st) as [response|e]; [|reflexivity].
  unfold lift. by destruct (json_loads env response).
Qed.

Lemma ask_json_rejected prompt st response e :
  is_initialized (self st) = true ->
  client (self st) = true ->
  reply_to env prompt st = Return response ->
  json_loads env response = Raise e ->
  (ask_json env prompt st).1 = Return (VDict (error_dict (exn_str e))).
Proof.
  intros Hi Hc Hr Hj. rewrite ask_json_run by done. simpl.
  by rewrite Hr, Hj.
Qed.

End ParseFailures.

(** C4, as the code has it. Let the provider answer every call with a text
    that the JSON decoder rejects. [generate_suggestions] does not report
    an error: it returns the text batch, with its single suggestion. Each of
    [suggest_fixes], [analyze_code_quality] and [generate_documentation]
    returns [{"error": str(e)}] for the decoder's exception [e]. *)
Theorem rejected_response_is_text_for_generate_and_error_for_the_others
    (env : Env) (st : State) (context : pydict)
    (command query code_context language : option string)
    (error_message code_snippet prompt response msg : string) :
  is_initialized (self st) = true ->
  client (self st) = true ->
  _build_prompt env context command query = Return prompt ->
  (forall n p, (chat_completions_create env n p).2 = Return response) ->
  json_loads env response = Raise (JSONDecodeError msg) ->
  (exists batch,
      (generate_suggestions env context command query st).1 = Return batch
      /\ batch !! "error" = None
      /\ exists suggestion,
           batch !! "suggestions" = Some (VList [VDict suggestion])
           /\ suggestion !! "description" = Some (VStr response))
  /\ (suggest_fixes env error_message code_context st).1
     = Return (VDict (error_dict msg))
  /\ (analyze_code_quality env code_snippet language st).1
     = Return (VDict (error_dict msg))
  /\ (generate_documentation env code_snippet language st).1
     = Return (VDict (error_dict msg)).
Proof.
  intros Hi Hc Hp Hr Hj. split.
  - rewrite generate_suggestions_run, Hp by done. cbv zeta.
    unfold reply_to. rewrite Hr.
    rewrite parse_response_unstructured by (right; eauto). simpl fst.
    eexists. split; [reflexivity|]. split; [reflexivity|].
    eexists. split; reflexivity.
  - repeat split;
      apply (ask_json_rejected env _ st response (JSONDecodeError msg));
      auto; apply Hr.
Qed.

Lemma rejected_response_witness :
  (exists batch,
      (generate_suggestions env_plain_text ∅ None None
         (fresh env_plain_text t0)).1 = Return batch
      /\ batch !! "error" = None
      /\ exists suggestion,
           batch !! "suggestions" = Some (VList [VDict suggestion])
           /\ suggestion !! "description" = Some (VStr colon_advice))
  /\ (suggest_fixes env_plain_text "NameError" None
        (fresh env_plain_text t0)).1
     = Return (VDict (error_dict "Expecting value: line 1 column 1 (char 0)"))
  /\ (analyze_code_quality env_plain_text "x = 1" None
        (fresh env_plain_text t0)).1
     = Return (VDict (error_dict "Expecting value: line 1 column 1 (char 0)"))
  /\ (generate_documentation env_plain_text "x = 1" None
        (fresh env_plain_text t0)).1
     = Return (VDict (error_dict "Expecting value: line 1 column 1 (char 0)")).
Proof.
  apply (rejected_response_is_text_for_generate_and_error_for_the_others
           env_plain_text (fresh env_plain_text t0) ∅ None None None None
           "NameError" "x = 1" bare_prompt colon_advice
           "Expecting value: line 1 column 1 (char 0)").
  - reflexivity.
  - reflexivity.
  - reflexivity.
  - intros n p. reflexivity.
  - reflexivity.
Defined.

(** C4, as stated, fails: [suggest_fixes] hands the decoder's error to its
    caller when the provider answers in plain text. *)
Lemma suggest_fixes_surfaces_parse_error :
  (suggest_fixes env_plain_text "NameError" None (fresh env_plain_text t0)).1
  = Return (VDict (error_dict "Expecting value: line 1 column 1 (char 0)"))
  /\ error_dict "Expecting value: line 1 column 1 (char 0)" !! "error"
     = Some (VStr "Expecting value: line 1 column 1 (char 0)").
Proof. split; reflexivity. Qed.

(** ** What a failed [generate_suggestions] leaves behind *)

Section FailureEffects.

Context (env : Env).

Lemma after_call_self prompt st : self (after_call env prompt st) = self st.
Proof. reflexivity. Qed.

Lemma stamp_last_request_time st :
  last_request_time (self (stamp st)) = clock (world st).
Proof. reflexivity. Qed.

Lemma stamp_suggestion_cache st :
  suggestion_cache (self (stamp st)) = suggestion_cache (self st).
Proof. reflexivity. Qed.

Lemma stamp_world st : world (stamp st) = world st.
Proof. reflexivity. Qed.

(** [_format_suggestions] raises an [AttributeError] or a [TypeError],
    never the decoder's exception. *)
Lemma format_suggestions_raises parsed context st e :
  (_format_suggestions parsed context st).1 = Raise e ->
  forall msg, e <> JSONDecodeError msg.
Proof.
  unfold _format_suggestions. unfold_py. simpl.
  destruct parsed as [| | | | |l|d]; simpl; try (intros [= <-]; done).
  unfold iterate.
  destruct (dict_get _ _); simpl; intros [= <-]; done.
Qed.

(** An exception of [_format_suggestions] is answered inside
    [_parse_response]. *)
Lemma parse_response_format_failure response context st parsed :
  startswith "{" (strip response) = true ->
  json_loads env response = Return parsed ->
  is_raise (_format_suggestions parsed context st).1 = true ->
  (_parse_response env response context st).1
  = Return (error_dict "Failed to parse AI response").
Proof.
  intros Hs Hj Hraise. unfold _parse_response, try_except, bind, lift.
  rewrite Hs, Hj.
  destruct (_format_suggestions parsed context st) as [[d|e] st'] eqn:Hf;
    simpl in Hraise; [done|].
  pose proof (format_suggestions_raises parsed context st e) as Hne.
  rewrite Hf in Hne. specialize (Hne eq_refl).
  destruct e; try reflexivity. by destruct (Hne msg).
Qed.

End FailureEffects.

(** C10, as the code has it. [generate_suggestions] never touches the
    cache. An exception while the prompt is built, or raised by the
    provider call, ends the call with [{"error": str(e)}] and leaves
    [last_request_time] as it was. An exception while the answer is
    formatted does not reach [generate_suggestions]: [_parse_response]
    answers it with [{"error": "Failed to parse AI response"}], and
    [last_request_time] is then set to the time after the provider call, as
    for every answer of the provider. *)
Theorem generate_suggestions_failure_effects
    (env : Env) (context : pydict) (command query : option string)
    (st : State) :
  is_initialized (self st) = true ->
  client (self st) = true ->
  suggestion_cache
    (self (generate_suggestions env context command query st).2)
  = suggestion_cache (self st)
  /\ match _build_prompt env context command query with
     | Raise e =>
         (generate_suggestions env context command query st).1
         = Return (error_dict (exn_str e))
         /\ last_request_time
              (self (generate_suggestions env context command query st).2)
            = last_request_time (self st)
         /\ calls (world (generate_suggestions env context command query st).2)
            = calls (world st)
     | Return prompt =>
         match reply_to env prompt (after_gate st) with
         | Raise e =>
             (generate_suggestions env context command query st).1
             = Return (error_dict (exn_str e))
             /\ last_request_time
                  (self (generate_suggestions env context command query st).2)
                = last_request_time (self st)
         | Return response =>
             last_request_time
               (self (generate_suggestions env context command query st).2)
             = clock (world (after_call env prompt (after_gate st)))
             /\ forall parsed,
                  startswith "{" (strip response) = true ->
                  json_loads env response = Return parsed ->
                  is_raise (_format_suggestions parsed context
                              (after_call env prompt (after_gate st))).1
                  = true ->
                  (generate_suggestions env context command query st).1
                  = Return (error_dict "Failed to parse AI response")
         end
     end.
Proof.
  intros Hi Hc. rewrite generate_suggestions_run by done.
  destruct (_build_prompt env context command query) as [prompt|e].
  - cbv zeta.
    destruct (reply_to env prompt (after_gate st)) as [response|e]; simpl.
    + split; [by rewrite after_gate_self|]. split; [reflexivity|].
      intros parsed Hs Hj Hraise.
      by apply parse_response_format_failure with parsed.
    + rewrite after_gate_self. auto.
  - simpl. rewrite after_gate_self, after_gate_calls. auto.
Qed.

Lemma generate_suggestions_failure_effects_witness :
  suggestion_cache
    (self (generate_suggestions env_bad_shape ∅ None None
             (fresh env_bad_shape t0)).2)
  = ∅
  /\ last_request_time
       (self (generate_suggestions env_bad_shape ∅ None None
                (fresh env_bad_shape t0)).2)
     = t0 + 40
  /\ (generate_suggestions env_bad_shape ∅ None None
        (fresh env_bad_shape t0)).1
     = Return (error_dict "Failed to parse AI response").
Proof.
  destruct (generate_suggestions_failure_effects
              env_bad_shape ∅ None None (fresh env_bad_shape t0)
              eq_refl eq_refl) as [Hcache Hrest].
  split; [exact Hcache|].
  change (_build_prompt env_bad_shape ∅ None None)
    with (Return (A := string) bare_prompt) in Hrest.
  change (reply_to env_bad_shape bare_prompt
            (after_gate (fresh env_bad_shape t0)))
    with (Return (A := string) five_suggestions) in Hrest.
  cbv beta iota in Hrest. destruct Hrest as [Hstamp Hparse].
  split; [exact Hstamp|].
  apply (Hparse (VDict {[ "suggestions" := VInt 5 ]})); reflexivity.
Defined.

(** C10, as stated, fails at the parsing stage: the provider answers
    [{"suggestions": 5}], formatting raises a [TypeError], the call returns
    an error dictionary, and [last_request_time] has moved from 0 to the
    time after the provider call. *)
Lemma parse_failure_advances_last_request_time :
  (generate_suggestions env_bad_shape ∅ None None (fresh env_bad_shape t0)).1
  = Return (error_dict "Failed to parse AI response")
  /\ error_dict "Failed to parse AI response" !! "error"
     = Some (VStr "Failed to parse AI response")
  /\ last_request_time (self (fresh env_bad_shape t0)) = 0
  /\ last_request_time
       (self (generate_suggestions env_bad_shape ∅ None None
                (fresh env_bad_shape t0)).2)
     = 1700000000040.
Proof. repeat split; reflexivity. Qed.

(** ** The cache *)

Section Cache.

Context (env : Env).

(** [generate_suggestions] changes no attribute of the engine but
    [last_request_time]. *)
Lemma generate_suggestions_engine context command query st :
  is_initialized (self st) = true ->
  client (self st) = true ->
  let e' := self (generate_suggestions env context command query st).2 in
  client e' = true
  /\ is_initialized e' = true
  /\ suggestion_cache e' = suggestion_cache (self st)
  /\ rate_limit_delay e' = rate_limit_delay (self st).
Proof.
  intros Hi Hc. cbv zeta. rewrite generate_suggestions_run by done.
  destruct (_build_prompt env context command query) as [prompt|e].
  - cbv zeta.
    destruct (reply_to env prompt (after_gate st)); simpl;
      rewrite after_gate_self; auto.
  - simpl. rewrite after_gate_self. auto.
Qed.

(** With a prompt, [generate_suggestions] calls the provider once. *)
Lemma generate_suggestions_calls context command query st prompt :
  is_initialized (self st) = true ->
  client (self st) = true ->
  _build_prompt env context command query = Return prompt ->
  calls (world (generate_suggestions env context command query st).2)
  = calls (world st)
    ++ [ {| call_time := clock (world (after_gate st));
            call_prompt := prompt |} ].
Proof.
  intros Hi Hc Hp. rewrite generate_suggestions_run, Hp by done. cbv zeta.
  destruct (reply_to env prompt (after_gate st)); simpl;
    by rewrite after_gate_calls.
Qed.

Lemma cached_suggestion_found context_hash s d st :
  ENABLE_CACHING (Config env) = true ->
  Z.of_N d < seconds (CACHE_TTL (Config env)) ->
  get_cached_suggestion env context_hash
    (idle d (cache_suggestion env context_hash s st).2)
  = (Return (Some s), idle d (cache_suggestion env context_hash s st).2).
Proof.
  intros Hon Httl. unfold get_cached_suggestion, cache_suggestion.
  unfold_py. rewrite Hon. simpl. rewrite lookup_insert_eq. simpl.
  destruct (Z.ltb_spec (clock (world st) + Z.of_N d - clock (world st))
              (seconds (CACHE_TTL (Config env)))); [done|lia].
Qed.

(** A batch of [_parse_response] that carries a time stamp carries the
    time at which it was formatted; an error dictionary carries none. *)
Lemma parse_response_timestamp response context st b v :
  (_parse_response env response context st).1 = Return b ->
  b !! "timestamp" = Some v ->
  v = VTime (clock (world st)).
Proof.
  assert (Htext : forall b' : pydict,
            Return (text_batch response context (clock (world st)))
            = Return b' ->
            b' !! "timestamp" = Some v -> v = VTime (clock (world st))).
  { intros b' [= <-]. unfold text_batch. rewrite lookup_insert_eq.
    by intros [= <-]. }
  assert (Herror : forall (msg : string) (b' : pydict),
            Return (error_dict msg) = Return b' ->
            b' !! "timestamp" = Some v -> v = VTime (clock (world st))).
  { intros msg b' [= <-]. unfold error_dict.
    by rewrite lookup_singleton_ne. }
  unfold _parse_response. unfold_py.
  destruct (startswith _ _); [|apply Htext].
  destruct (json_loads env response) as [parsed|e].
  - unfold _format_suggestions. unfold_py. cbv beta iota zeta.
    destruct parsed as [| | | | | |p];
      try (cbn [fst snd]; apply Herror).
    destruct (iterate _) as [items|e]; cbn [fst snd].
    + intros [= <-]. rewrite lookup_insert_ne by done.
      rewrite lookup_insert_eq. by intros [= <-].
    + destruct e; first [apply Htext | apply Herror].
  - destruct e; first [apply Htext | apply Herror].
Qed.

(** The time stamp of a batch of [generate_suggestions] is the time at
    which the call ends, which becomes [last_request_time]; the call ends
    no earlier than it began, and no earlier than [rate_limit_delay] after
    the [last_request_time] it found. *)
Lemma generate_suggestions_timestamp context command query st b v :
  is_initialized (self st) = true ->
  client (self st) = true ->
  (generate_suggestions env context command query st).1 = Return b ->
  b !! "timestamp" = Some v ->
  v = VTime (clock (world (generate_suggestions env context command query
                             st).2))
  /\ last_request_time
       (self (generate_suggestions env context command query st).2)
     = clock (world (generate_suggestions env context command query st).2)
  /\ clock (world st)
     ≤ clock (world (generate_suggestions env context command query st).2)
  /\ last_request_time (self st) + rate_limit_delay (self st)
     ≤ clock (world (generate_suggestions env context command query st).2).
Proof.
  intros Hi Hc. rewrite generate_suggestions_run by done.
  assert (Herror : forall (msg : string) (b' : pydict),
            Return (error_dict msg) = Return b' ->
            b' !! "timestamp" = Some v -> False).
  { intros msg b' [= <-]. unfold error_dict.
    by rewrite lookup_singleton_ne. }
  destruct (_build_prompt env context command query) as [prompt|e];
    [|intros Hb Hv; destruct (Herror _ _ Hb Hv)].
  cbv zeta.
  destruct (reply_to env prompt (after_gate st)) as [response|e];
    [|intros Hb Hv; destruct (Herror _ _ Hb Hv)].
  cbn [fst snd]. intros Hb Hv.
  pose proof (after_gate_clock st) as Hgate.
  pose proof (after_gate_clock_mono st) as Hmono.
  rewrite stamp_world, stamp_last_request_time.
  assert (Hcall : clock (world (after_gate st))
                  ≤ clock (world (after_call env prompt (after_gate st)))).
  { unfold after_call. cbn [world clock]. lia. }
  split; [exact (parse_response_timestamp _ _ _ _ _ Hb Hv)|].
  split; [reflexivity|]. split; lia.
Qed.

End Cache.

(** C1, as the code has it. [generate_suggestions] neither reads nor
    writes [suggestion_cache]: two calls with the same context, command and
    query, the second one within the cache TTL of the first, call the
    provider twice, with the same prompt, and leave the cache as it was.
    When both answers carry a time stamp, which an error answer does not,
    the second stamp is later than the first by the pause between the
    calls at least, and by [rate_limit_delay] at least: the two batches
    differ as soon as the pause or the delay is positive. The cache answers
    only through its own accessors: with caching enabled,
    [get_cached_suggestion] returns what [cache_suggestion] stored under the
    same key until [CACHE_TTL] has passed, and changes nothing. *)
Theorem generate_suggestions_calls_provider_each_time
    (env : Env) (context : pydict) (command query : option string)
    (st : State) (prompt context_hash : string) (s : pyval) (d : N) :
  is_initialized (self st) = true ->
  client (self st) = true ->
  _build_prompt env context command query = Return prompt ->
  ENABLE_CACHING (Config env) = true ->
  Z.of_N d < seconds (CACHE_TTL (Config env)) ->
  (exists c1 c2,
      calls (world (generate_suggestions env context command query
                      (idle d (generate_suggestions env context command query
                                 st).2)).2)
      = calls (world st) ++ [c1; c2]
      /\ call_prompt c1 = prompt /\ call_prompt c2 = prompt)
  /\ suggestion_cache
       (self (generate_suggestions env context command query
                (idle d (generate_suggestions env context command query
                           st).2)).2)
     = suggestion_cache (self st)
  /\ (forall b1 b2 v1 v2,
        (generate_suggestions env context command query st).1 = Return b1 ->
        (generate_suggestions env context command query
           (idle d (generate_suggestions env context command query st).2)).1
        = Return b2 ->
        b1 !! "timestamp" = Some v1 ->
        b2 !! "timestamp" = Some v2 ->
        exists t1 t2,
          v1 = VTime t1 /\ v2 = VTime t2
          /\ t1 + Z.of_N d ≤ t2
          /\ t1 + rate_limit_delay (self st) ≤ t2
          /\ (0 < Z.of_N d \/ 0 < rate_limit_delay (self st) -> b1 <> b2))
  /\ get_cached_suggestion env context_hash
       (idle d (cache_suggestion env context_hash s st).2)
     = (Return (Some s), idle d (cache_suggestion env context_hash s st).2).
Proof.
  intros Hi Hc Hp Hon Httl.
  destruct (generate_suggestions_engine env context command query st Hi Hc)
    as (Hc1 & Hi1 & Hcache1 & Hdelay1).
  set (st1 := (generate_suggestions env context command query st).2) in *.
  assert (Hi1' : is_initialized (self (idle d st1)) = true) by done.
  assert (Hc1' : client (self (idle d st1)) = true) by done.
  destruct (generate_suggestions_engine env context command query
              (idle d st1) Hi1' Hc1') as (_ & _ & Hcache2 & _).
  split; [|split; [|split]].
  - rewrite (generate_suggestions_calls env context command query
               (idle d st1) prompt) by done.
    change (calls (world (idle d st1))) with (calls (world st1)).
    unfold st1.
    rewrite (generate_suggestions_calls env context command query st prompt)
      by done.
    rewrite <- app_assoc. eexists _, _. split; [reflexivity|].
    split; reflexivity.
  - rewrite Hcache2. exact Hcache1.
  - intros b1 b2 v1 v2 Hb1 Hb2 Hv1 Hv2.
    destruct (generate_suggestions_timestamp env context command query st
                b1 v1 Hi Hc Hb1 Hv1) as (Ht1 & Hlast1 & _ & _).
    destruct (generate_suggestions_timestamp env context command query
                (idle d st1) b2 v2 Hi1' Hc1' Hb2 Hv2)
      as (Ht2 & _ & Hmono2 & Hgate2).
    fold st1 in Ht1, Hlast1.
    change (last_request_time (self (idle d st1)))
      with (last_request_time (self st1)) in Hgate2.
    change (rate_limit_delay (self (idle d st1)))
      with (rate_limit_delay (self st1)) in Hgate2.
    change (clock (world (idle d st1)))
      with (clock (world st1) + Z.of_N d) in Hmono2.
    rewrite Hlast1, Hdelay1 in Hgate2.
    eexists _, _. split; [exact Ht1|]. split; [exact Ht2|].
    split; [exact Hmono2|]. split; [exact Hgate2|].
    intros Hpositive Heq. subst b2.
    rewrite Hv1 in Hv2. injection Hv2 as Hv. rewrite Ht1, Ht2 in Hv.
    unfold VTime in Hv. injection Hv as Hv. lia.
  - by apply cached_suggestion_found.
Qed.

Lemma generate_suggestions_calls_provider_each_time_witness :
  (exists c1 c2,
      calls (world (generate_suggestions env_plain_text ∅ None None
                      (idle 2000
                         (generate_suggestions env_plain_text ∅ None None
                            (fresh env_plain_text t0)).2)).2)
      = [] ++ [c1; c2]
      /\ call_prompt c1 = bare_prompt /\ call_prompt c2 = bare_prompt)
  /\ suggestion_cache
       (self (generate_suggestions env_plain_text ∅ None None
                (idle 2000
                   (generate_suggestions env_plain_text ∅ None None
                      (fresh env_plain_text t0)).2)).2)
     = ∅
  /\ (exists b1 b2,
        (generate_suggestions env_plain_text ∅ None None
           (fresh env_plain_text t0)).1 = Return b1
        /\ (generate_suggestions env_plain_text ∅ None None
              (idle 2000
                 (generate_suggestions env_plain_text ∅ None None
                    (fresh env_plain_text t0)).2)).1 = Return b2
        /\ b1 <> b2)
  /\ get_cached_suggestion env_plain_text "fingerprint"
       (idle 2000 (cache_suggestion env_plain_text "fingerprint"
                     (VStr "cached") (fresh env_plain_text t0)).2)
     = (Return (Some (VStr "cached")),
        idle 2000 (cache_suggestion env_plain_text "fingerprint"
                     (VStr "cached") (fresh env_plain_text t0)).2).
Proof.
  unshelve epose proof
    (generate_suggestions_calls_provider_each_time
       env_plain_text ∅ None None (fresh env_plain_text t0)
       bare_prompt "fingerprint" (VStr "cached") 2000%N _ _ _ _ _)
    as (Hcalls & Hcache & Hstamps & Hget); [reflexivity..|].
  split; [exact Hcalls|]. split; [exact Hcache|]. split; [|exact Hget].
  eexists _, _. split; [reflexivity|]. split; [reflexivity|].
  destruct (Hstamps _ _ (VTime 1700000000040) (VTime 1700000002080)
              eq_refl eq_refl eq_refl eq_refl)
    as (t1 & t2 & _ & _ & _ & _ & Hdiffer).
  apply Hdiffer. left. reflexivity.
Defined.

(** C1, as stated, fails: two identical calls, two seconds apart, call the
    provider twice, and their batches differ by their time stamps. *)
Lemma second_identical_call_reaches_provider :
  let st1 :=
    (generate_suggestions env_plain_text ∅ None None
       (fresh env_plain_text t0)) in
  let st2 :=
    (generate_suggestions env_plain_text ∅ None None (idle 2000 st1.2)) in
  List.length (calls (world st2.2)) = 2%nat
  /\ (exists b1 b2,
        st1.1 = Return b1 /\ st2.1 = Return b2
        /\ b1 !! "timestamp" = Some (VTime 1700000000040)
        /\ b2 !! "timestamp" = Some (VTime 1700000002080)
        /\ b1 <> b2).
Proof.
  cbv zeta. split; [reflexivity|].
  eexists _, _. split; [reflexivity|]. split; [reflexivity|].
  split; [reflexivity|]. split; [reflexivity|].
  intros Heq. apply (f_equal (fun b : pydict => b !! "timestamp")) in Heq.
  vm_compute in Heq. discriminate Heq.
Qed.

(** ** The rate limiter *)

Section RateLimiter.

Context (env : Env).

Lemma spaced_nil delay : spaced delay [].
Proof. intros i j ci cj _ Hi. by rewrite lookup_nil in Hi. Qed.

(** A call that comes [delay] after all the earlier ones keeps the calls
    spaced. *)
Lemma spaced_snoc delay cs c :
  spaced delay cs ->
  (forall c', c' ∈ cs -> call_time c' + delay ≤ call_time c) ->
  spaced delay (cs ++ [c]).
Proof.
  intros Hcs Hc i j ci cj Hij Hi Hj.
  destruct (decide (j < List.length cs)%nat) as [Hlt|Hge].
  - rewrite lookup_app_l in Hi by lia. rewrite lookup_app_l in Hj by lia.
    exact (Hcs i j ci cj Hij Hi Hj).
  - assert (cj = c) as ->.
    { rewrite lookup_app_r in Hj by lia.
      destruct (j - List.length cs)%nat as [|k] eqn:Hk; simpl in Hj.
      - by injection Hj.
      - by rewrite lookup_nil in Hj. }
    assert (j = List.length cs) as ->.
    { apply lookup_lt_Some in Hj. rewrite length_app in Hj. simpl in Hj.
      lia. }
    rewrite lookup_app_l in Hi by lia.
    apply Hc. by eapply list_elem_of_lookup_2.
Qed.

Lemma idle_rate_limited delay d st :
  rate_limited delay st -> rate_limited delay (idle d st).
Proof. done. Qed.

(** One call of [generate_suggestions] keeps the calls spaced when the
    provider answers. *)
Lemma generate_suggestions_rate_limited delay context command query st :
  reliable env ->
  rate_limited delay st ->
  rate_limited delay (generate_suggestions env context command query st).2.
Proof.
  intros Hrel (Hcl & Hdelay & Hd & Hlast & Hsp).
  destruct (is_initialized (self st)) eqn:Hi.
  - rewrite generate_suggestions_run by done.
    destruct (_build_prompt env context command query) as [prompt|e].
    + cbv zeta.
      pose proof (Hrel (List.length (calls (world (after_gate st)))) prompt)
        as Hans.
      pose proof (after_gate_clock st) as Hgate.
      unfold reply_to, rate_limited, stamp, after_call. simpl.
      destruct (chat_completions_create env _ prompt) as [latency reply].
      simpl in Hans. destruct reply as [response|e]; [|done].
      simpl. rewrite !after_gate_self, after_gate_calls.
      split; [congruence|]. split; [done|]. split; [done|]. split.
      * intros c Hc. apply elem_of_app in Hc as [Hc|Hc].
        -- apply Hlast in Hc. lia.
        -- apply list_elem_of_singleton in Hc as ->. simpl. lia.
      * apply spaced_snoc; [done|].
        intros c' Hc'. apply Hlast in Hc'. simpl. lia.
    + simpl. unfold rate_limited.
      rewrite !after_gate_self, after_gate_calls.
      repeat split; try done; congruence.
  - rewrite generate_suggestions_uninitialized by done.
    unfold rate_limited. simpl. repeat split; try done; congruence.
Qed.

Lemma run_generate_rate_limited delay trace : forall st,
  reliable env ->
  Forall (fun dr : N * request => is_generate dr.2 = true) trace ->
  rate_limited delay st ->
  rate_limited delay (run env trace st).2.
Proof.
  induction trace as [|[d r] trace IH]; intros st Hrel Hgen Hst; [done|].
  apply Forall_cons in Hgen as [Hr Hgen]. simpl in Hr.
  destruct r as [context command query| | |]; try done.
  simpl. unfold bind at 1.
  pose proof (generate_suggestions_rate_limited delay context command query
                (idle d st) Hrel (idle_rate_limited delay d st Hst)) as Hst1.
  destruct (generate_suggestions env context command query (idle d st))
    as [[b|e] st1]; simpl in *.
  - specialize (IH st1 Hrel Hgen Hst1).
    by destruct (run env trace st1).
  - specialize (IH st1 Hrel Hgen Hst1).
    by destruct (run env trace st1).
Qed.

Lemma fresh_rate_limited t : rate_limited (seconds 1) (fresh env t).
Proof.
  unfold rate_limited, fresh, AIEngine_init, _initialize_client.
  destruct (truthy (VStr (OPENAI_API_KEY (Config env))));
    [destruct (openai_OpenAI env (OPENAI_API_KEY (Config env)))|]; simpl;
    (split; [done|]; split; [done|]; split; [done|]; split;
       [intros c Hc; by apply elem_of_nil in Hc | apply spaced_nil]).
Qed.

End RateLimiter.

(** C2, as the code has it. The minimum interval is kept between the
    provider calls of [generate_suggestions]: for every sequence of calls of
    [generate_suggestions] on a new engine, issued one after the other with
    any pauses between them, and a provider that answers every call, every
    two provider calls are at least [rate_limit_delay] (one second) apart. *)
Theorem generate_suggestions_calls_are_spaced
    (env : Env) (t : Z) (trace : list (N * request)) :
  reliable env ->
  Forall (fun dr : N * request => is_generate dr.2 = true) trace ->
  rate_limit_delay (self (run env trace (fresh env t)).2) = seconds 1
  /\ spaced (seconds 1) (calls (world (run env trace (fresh env t)).2)).
Proof.
  intros Hrel Hgen.
  destruct (run_generate_rate_limited env (seconds 1) trace (fresh env t)
              Hrel Hgen (fresh_rate_limited env t))
    as (_ & Hdelay & _ & _ & Hsp).
  auto.
Qed.

Lemma generate_suggestions_calls_are_spaced_witness :
  (rate_limit_delay
     (self (run env_plain_text three_generate_calls
              (fresh env_plain_text t0)).2) = seconds 1
   /\ spaced (seconds 1)
        (calls (world (run env_plain_text three_generate_calls
                         (fresh env_plain_text t0)).2)))
  /\ call_time <$> calls (world (run env_plain_text three_generate_calls
                                   (fresh env_plain_text t0)).2)
     = [1700000000000; 1700000001040; 1700000006080].
Proof.
  split; [|reflexivity].
  apply (generate_suggestions_calls_are_spaced
           env_plain_text t0 three_generate_calls).
  - intros n p. reflexivity.
  - repeat constructor.
Defined.

(** C2, as stated, fails. [suggest_fixes] calls the provider 45 ms after
    the provider call of [generate_suggestions], against a minimum interval
    of 1000 ms; and when the provider call of [generate_suggestions] raises,
    the next [generate_suggestions] calls the provider 40 ms after it. *)
Lemma provider_calls_closer_than_rate_limit_delay :
  call_time <$> calls (world (run env_plain_text generate_then_fix
                                (fresh env_plain_text t0)).2)
  = [1700000000000; 1700000000045]
  /\ rate_limit_delay
       (self (run env_plain_text generate_then_fix
                (fresh env_plain_text t0)).2) = 1000
  /\ call_time <$> calls (world (run env_unreachable generate_twice
                                   (fresh env_unreachable t0)).2)
     = [1700000000000; 1700000000040]
  /\ rate_limit_delay
       (self (run env_unreachable generate_twice
                (fresh env_unreachable t0)).2) = 1000.
Proof. repeat split; reflexivity. Qed.

(** ** The validation of structured answers *)

Lemma fold_clean_step (items acc : list pyval) :
  fold_left clean_step items acc = acc ++ omap cleaned items.
Proof.
  revert acc. induction items as [|v items IH]; intros acc; simpl.
  - by rewrite app_nil_r.
  - rewrite IH. unfold clean_step, cleaned.
    destruct v as [| | | | | |s]; try done.
    destruct (dict_has s "title"); [|done].
    by rewrite <- app_assoc.
Qed.

Lemma dict_has_spec (d : pydict) (k : string) :
  dict_has d k = true <-> is_Some (d !! k).
Proof. unfold dict_has. apply bool_decide_eq_true. Qed.

Lemma cleaned_kept (candidate : pyval) :
  is_Some (cleaned candidate)
  <-> exists s, candidate = VDict s /\ is_Some (s !! "title").
Proof.
  unfold cleaned. split.
  - destruct candidate as [| | | | | |s]; try (by intros [? [=]]).
    destruct (dict_has s "title") eqn:Ht; [|by intros [? [=]]].
    intros _. exists s. split; [done|]. by apply dict_has_spec.
  - intros (s & -> & Ht). apply dict_has_spec in Ht. rewrite Ht. eauto.
Qed.

Lemma valid_suggestion_entries (s : pydict) :
  valid_suggestion s !! "title" = Some (default (VStr "") (s !! "title"))
  /\ valid_suggestion s !! "type"
     = Some (default (VStr "general") (s !! "type"))
  /\ valid_suggestion s !! "priority"
     = Some (default (VStr "medium") (s !! "priority"))
  /\ valid_suggestion s !! "description"
     = Some (default (VStr "") (s !! "description"))
  /\ valid_suggestion s !! "code" = Some (default (VStr "") (s !! "code"))
  /\ dom (valid_suggestion s)
     = {[ "type"; "title"; "description"; "code"; "priority" ]}.
Proof.
  unfold valid_suggestion, dict_get_or.
  repeat split; reflexivity.
Qed.

(** C6, as the code has it. When the decoded answer holds a list under
    "suggestions" (or nothing), [_format_suggestions] returns a batch whose
    suggestions are made of the candidates, in their order, that are
    dictionaries with a "title" key, whatever the title is, even empty;
    the other candidates are dropped. A kept candidate gives an entry with
    the five keys type, title, description, code and priority: its own
    values, and "general" for a missing type, "medium" for a missing
    priority, the empty text for a missing description or code. *)
Theorem format_suggestions_keeps_candidates_with_a_title_key
    (p context : pydict) (st : State) (items : list pyval) :
  dict_get_or p "suggestions" (VList []) = VList items ->
  (exists batch,
      _format_suggestions (VDict p) context st = (Return batch, st)
      /\ batch !! "suggestions" = Some (VList (omap cleaned items)))
  /\ (forall candidate,
        is_Some (cleaned candidate)
        <-> exists s, candidate = VDict s /\ is_Some (s !! "title"))
  /\ (forall s title,
        s !! "title" = Some title ->
        exists entry,
          cleaned (VDict s) = Some (VDict entry)
          /\ entry !! "title" = Some title
          /\ entry !! "type" = Some (default (VStr "general") (s !! "type"))
          /\ entry !! "priority"
             = Some (default (VStr "medium") (s !! "priority"))
          /\ entry !! "description"
             = Some (default (VStr "") (s !! "description"))
          /\ entry !! "code" = Some (default (VStr "") (s !! "code"))
          /\ dom entry
             = {[ "type"; "title"; "description"; "code"; "priority" ]}).
Proof.
  intros Hitems. split; [|split].
  - unfold _format_suggestions. unfold_py. simpl.
    unfold dict_get at 1. rewrite lookup_insert_ne by done.
    rewrite lookup_insert_ne by done. rewrite lookup_insert_eq. simpl.
    rewrite Hitems. simpl. rewrite fold_clean_step. simpl.
    eexists. split; [reflexivity|].
    by rewrite lookup_insert_eq.
  - apply cleaned_kept.
  - intros s title Ht. exists (valid_suggestion s).
    destruct (valid_suggestion_entries s) as (H1 & H2 & H3 & H4 & H5 & H6).
    rewrite Ht in H1. simpl in H1.
    assert (dict_has s "title" = true) as Hhas
      by (apply dict_has_spec; eauto).
    unfold cleaned. rewrite Hhas. auto 10.
Qed.

Lemma format_suggestions_keeps_candidates_witness :
  (exists batch,
      _format_suggestions (VDict decoded_answer) ∅ (fresh env_plain_text t0)
      = (Return batch, fresh env_plain_text t0)
      /\ batch !! "suggestions" = Some (VList (omap cleaned four_candidates)))
  /\ List.length (omap cleaned four_candidates) = 2%nat.
Proof.
  split; [|reflexivity].
  apply (format_suggestions_keeps_candidates_with_a_title_key
           decoded_answer ∅ (fresh env_plain_text t0) four_candidates).
  reflexivity.
Defined.

(** C6, as stated, fails: a candidate whose title is the empty text is not
    dropped. *)
Lemma candidate_with_empty_title_is_kept :
  exists batch entry,
    _format_suggestions
      (VDict {[ "suggestions" := VList [VDict {[ "title" := VStr "" ]}] ]})
      ∅ (fresh env_plain_text t0)
    = (Return batch, fresh env_plain_text t0)
    /\ batch !! "suggestions" = Some (VList [VDict entry])
    /\ entry !! "title" = Some (VStr "").
Proof. eexists _, _. repeat split; reflexivity. Qed.

(** ** The screen context *)

Lemma dict_update_lookup (d other : pydict) (k : string) :
  dict_update d other !! k
  = match other !! k with
    | Some v => Some v
    | None => d !! k
    end.
Proof.
  unfold dict_update. rewrite lookup_union.
  destruct (other !! k), (d !! k); reflexivity.
Qed.

(** An update with a dictionary that has every key of the old one leaves
    nothing of the old one. *)
Lemma dict_update_covered (d other : pydict) :
  dom d ⊆ dom other -> dict_update d other = other.
Proof.
  intros Hdom. apply map_eq. intros k. rewrite dict_update_lookup.
  destruct (other !! k) eqn:Hk; [done|].
  apply not_elem_of_dom in Hk. apply not_elem_of_dom. set_solver.
Qed.

(** The keys of an analysis: eight when the text was read, six when it was
    not. *)
Lemma analysis_keys (cfg : config) (re : ScreenMonitor.Regex)
    (c : ScreenMonitor.Capture) :
  dom (ScreenMonitor._analyze_screen_content cfg re c)
  = if (OCR_ENABLED cfg && negb (is_raise (ScreenMonitor.ocr c)))%bool
    then {[ "timestamp"; "text_content"; "code_detected"; "file_type";
            "error_indicators"; "suggestions_context";
            "language"; "code_snippets" ]}
    else {[ "timestamp"; "text_content"; "code_detected"; "file_type";
            "error_indicators"; "suggestions_context" ]}.
Proof.
  unfold ScreenMonitor._analyze_screen_content.
  destruct (OCR_ENABLED cfg); simpl.
  - destruct (ScreenMonitor.ocr c) as [text|e]; simpl.
    + unfold dict_update, ScreenMonitor.code_analysis_dict.
      rewrite !dom_insert_L, dom_union_L, !dom_insert_L, dom_empty_L.
      set_solver.
    + rewrite !dom_insert_L, dom_empty_L. set_solver.
  - rewrite !dom_insert_L, dom_empty_L. set_solver.
Qed.

(** C3, as the code has it. A capture writes its analysis into the stored
    context with [dict.update]: after the captures [c1] then [c2], a read
    gives, for every key of the analysis of [c2], the value of that
    analysis, and for every other key what the context held before [c2].
    The read is exactly the analysis of [c2] when that analysis has every
    key the context held, which is so, from a new monitor, whenever the
    text of [c2] was read. *)
Theorem capture_updates_the_context_key_by_key
    (cfg : config) (re : ScreenMonitor.Regex)
    (c1 c2 : ScreenMonitor.Capture) (m : ScreenMonitor.t) :
  is_raise (ScreenMonitor.grab c1) = false ->
  is_raise (ScreenMonitor.grab c2) = false ->
  (forall k,
      ScreenMonitor.get_current_context
        (ScreenMonitor._capture_and_analyze cfg re c2
           (ScreenMonitor._capture_and_analyze cfg re c1 m)) !! k
      = match ScreenMonitor._analyze_screen_content cfg re c2 !! k with
        | Some v => Some v
        | None =>
            ScreenMonitor.get_current_context
              (ScreenMonitor._capture_and_analyze cfg re c1 m) !! k
        end)
  /\ (dom (ScreenMonitor.get_current_context
             (ScreenMonitor._capture_and_analyze cfg re c1 m))
      ⊆ dom (ScreenMonitor._analyze_screen_content cfg re c2) ->
      ScreenMonitor.get_current_context
        (ScreenMonitor._capture_and_analyze cfg re c2
           (ScreenMonitor._capture_and_analyze cfg re c1 m))
      = ScreenMonitor._analyze_screen_content cfg re c2)
  /\ (m = ScreenMonitor.init ->
      OCR_ENABLED cfg = true ->
      is_raise (ScreenMonitor.ocr c2) = false ->
      ScreenMonitor.get_current_context
        (ScreenMonitor._capture_and_analyze cfg re c2
           (ScreenMonitor._capture_and_analyze cfg re c1 m))
      = ScreenMonitor._analyze_screen_content cfg re c2).
Proof.
  intros Hg1 Hg2.
  unfold ScreenMonitor._capture_and_analyze, ScreenMonitor.get_current_context.
  destruct (ScreenMonitor.grab c1) as [[]|]; [|done].
  destruct (ScreenMonitor.grab c2) as [[]|]; [|done].
  simpl. split; [|split].
  - intros k. apply dict_update_lookup.
  - apply dict_update_covered.
  - intros -> Hocr Hread. apply dict_update_covered. simpl.
    unfold dict_update at 1. rewrite dom_union_L, dom_empty_L, union_empty_r_L.
    rewrite !analysis_keys, Hocr, Hread. simpl.
    destruct (negb (is_raise (ScreenMonitor.ocr c1))); set_solver.
Qed.

Lemma capture_updates_the_context_witness :
  ScreenMonitor.get_current_context
    (ScreenMonitor._capture_and_analyze
       ScreenMonitor.sample_cfg ScreenMonitor.sample_regex
       ScreenMonitor.capture_ocr_failure
       (ScreenMonitor._capture_and_analyze
          ScreenMonitor.sample_cfg ScreenMonitor.sample_regex
          ScreenMonitor.capture_cpp ScreenMonitor.init)) !! "file_type"
  = Some VNone
  /\ ScreenMonitor.get_current_context
       (ScreenMonitor._capture_and_analyze
          ScreenMonitor.sample_cfg ScreenMonitor.sample_regex
          ScreenMonitor.capture_ocr_failure
          (ScreenMonitor._capture_and_analyze
             ScreenMonitor.sample_cfg ScreenMonitor.sample_regex
             ScreenMonitor.capture_cpp ScreenMonitor.init)) !! "code_snippets"
     = Some (VList []).
Proof.
  destruct (capture_updates_the_context_key_by_key
              ScreenMonitor.sample_cfg ScreenMonitor.sample_regex
              ScreenMonitor.capture_cpp ScreenMonitor.capture_ocr_failure
              ScreenMonitor.init eq_refl eq_refl) as [Hkeys _].
  split.
  - rewrite (Hkeys "file_type"). reflexivity.
  - rewrite (Hkeys "code_snippets"). reflexivity.
Defined.

(** C3, as stated, fails. The first capture reads a C++ source, the second
    one cannot read the text: its analysis has no "language" entry, and the
    context read after it still says "cpp", next to the new
    ["code_detected": False]. *)
Lemma language_is_carried_over_from_the_previous_capture :
  ScreenMonitor._analyze_screen_content
    ScreenMonitor.sample_cfg ScreenMonitor.sample_regex
    ScreenMonitor.capture_ocr_failure !! "language" = None
  /\ ScreenMonitor.get_current_context
       (ScreenMonitor._capture_and_analyze
          ScreenMonitor.sample_cfg ScreenMonitor.sample_regex
          ScreenMonitor.capture_ocr_failure
          (ScreenMonitor._capture_and_analyze
             ScreenMonitor.sample_cfg ScreenMonitor.sample_regex
             ScreenMonitor.capture_cpp ScreenMonitor.init)) !! "language"
     = Some (VStr "cpp")
  /\ ScreenMonitor.get_current_context
       (ScreenMonitor._capture_and_analyze
          ScreenMonitor.sample_cfg ScreenMonitor.sample_regex
          ScreenMonitor.capture_ocr_failure
          (ScreenMonitor._capture_and_analyze
             ScreenMonitor.sample_cfg ScreenMonitor.sample_regex
             ScreenMonitor.capture_cpp ScreenMonitor.init)) !! "code_detected"
     = Some (VBool false).
Proof. repeat split; reflexivity. Qed.

(** ** Activation *)

(** The widgets of a batch are built exactly when each suggestion is
    ready for its widget. *)
Lemma create_suggestion_widget_ready (suggestion : pyval) :
  is_raise (Copilot._create_suggestion_widget suggestion)
  = negb (Copilot.widget_ready suggestion).
Proof.
  destruct suggestion as [| | | | | |s]; try reflexivity.
  unfold Copilot._create_suggestion_widget, Copilot.widget_ready,
    Copilot._get_type_icon, Copilot._get_priority_color.
  destruct (dict_get_or s "type" (VStr "general")); simpl; try reflexivity;
    destruct (dict_get_or s "priority" (VStr "medium")); reflexivity.
Qed.

Lemma create_suggestion_widgets_ready (items : list pyval) :
  is_raise (Copilot.create_suggestion_widgets items)
  = negb (forallb Copilot.widget_ready items).
Proof.
  induction items as [|suggestion items IH]; [reflexivity|].
  cbn [Copilot.create_suggestion_widgets forallb].
  pose proof (create_suggestion_widget_ready suggestion) as Hready.
  destruct (Copilot._create_suggestion_widget suggestion) as [[]|e];
    simpl in Hready; apply (f_equal negb) in Hready;
    rewrite negb_involutive in Hready; rewrite <- Hready; simpl; done.
Qed.

Lemma create_ui_elements_list (l : list pyval) :
  is_raise (Copilot._create_ui_elements (VList l))
  = negb (forallb Copilot.widget_ready l).
Proof.
  unfold Copilot._create_ui_elements, Copilot._add_suggestions.
  destruct l as [|suggestion l]; [reflexivity|].
  change (truthy (VList (suggestion :: l))) with true.
  cbn [negb iterate obind Copilot.len].
  rewrite <- (create_suggestion_widgets_ready (suggestion :: l)).
  by destruct (Copilot.create_suggestion_widgets (suggestion :: l)).
Qed.

(** [create_overlay] on a list: the window is shown when every suggestion
    is ready for its widget; otherwise nothing changes but
    [suggestions_frame]. *)
Lemma create_overlay_list (l : list pyval) (ui : Copilot.OverlayUI) :
  Copilot.create_overlay (VList l) ui
  = if forallb Copilot.widget_ready l
    then {| Copilot.is_visible := true;
            Copilot.fade_direction := 1;
            Copilot.fade_alive := true;
            Copilot.displayed := Copilot.displayed ui ++ [VList l];
            Copilot.suggestions_frame := true |}
    else {| Copilot.is_visible := Copilot.is_visible ui;
            Copilot.fade_direction := Copilot.fade_direction ui;
            Copilot.fade_alive := Copilot.fade_alive ui;
            Copilot.displayed := Copilot.displayed ui;
            Copilot.suggestions_frame := true |}.
Proof.
  unfold Copilot.create_overlay.
  pose proof (create_ui_elements_list l) as Hready.
  destruct (Copilot._create_ui_elements (VList l)) as [[]|e];
    simpl in Hready; apply (f_equal negb) in Hready;
    rewrite negb_involutive in Hready; rewrite <- Hready; reflexivity.
Qed.









(* ===================================================================== *)
(** * Further properties                                                  *)
(* ===================================================================== *)

(** ** The engine: what its callers can rely on *)

Section EngineGuarantees.

Context (env : Env).

Lemma valid_suggestion_is_suggestion (s : pydict) :
  is_suggestion (VDict (valid_suggestion s)).
Proof. exists (valid_suggestion s). split; reflexivity. Qed.

Lemma cleaned_are_suggestions (items : list pyval) :
  Forall is_suggestion (omap cleaned items).
Proof.
  induction items as [|v items IH]; simpl; [constructor|].
  unfold cleaned at 1.
  destruct v as [| | | | | |s]; try done.
  destruct (dict_has s "title"); [|done].
  constructor; [apply valid_suggestion_is_suggestion|done].
Qed.

Lemma text_batch_is_batch response context now :
  is_batch context (text_batch response context now).
Proof.
  unfold is_batch, text_batch. split; [reflexivity|]. split.
  - eexists. split; [reflexivity|]. constructor; [|constructor].
    eexists. split; reflexivity.
  - repeat split; try reflexivity. by eexists.
Qed.

(** What [_format_suggestions] returns is a batch. *)
Lemma format_suggestions_is_batch parsed context st d :
  (_format_suggestions parsed context st).1 = Return d ->
  is_batch context d.
Proof.
  unfold _format_suggestions. unfold_py. simpl.
  destruct parsed as [| | | | | |p]; try done.
  unfold dict_get at 1. rewrite lookup_insert_ne by done.
  rewrite lookup_insert_ne by done. rewrite lookup_insert_eq. simpl.
  destruct (iterate _) as [items|e]; simpl; [|done].
  intros [= <-]. rewrite fold_clean_step. simpl.
  unfold is_batch. split; [reflexivity|]. split.
  - eexists. split; [reflexivity|]. apply cleaned_are_suggestions.
  - repeat split; try reflexivity. by eexists.
Qed.

Lemma parse_response_is_result response context st :
  exists d, _parse_response env response context st = (Return d, st)
            /\ is_result context d.
Proof.
  unfold _parse_response, try_except, bind, lift.
  destruct (startswith _ _).
  - destruct (json_loads env response) as [parsed|e].
    + pose proof (format_suggestions_state parsed context st) as Hst.
      pose proof (format_suggestions_is_batch parsed context st) as Hb.
      destruct (_format_suggestions parsed context st) as [[d|e] st'];
        simpl in Hst; subst st'.
      * eexists. split; [reflexivity|]. right. by apply Hb.
      * destruct e; eexists; (split; [reflexivity|]);
          first [ right; apply text_batch_is_batch | left; by eexists ].
    + destruct e; eexists; (split; [reflexivity|]);
        first [ right; apply text_batch_is_batch | left; by eexists ].
  - eexists. split; [reflexivity|]. right. apply text_batch_is_batch.
Qed.


(** The result of the body of [generate_suggestions], when it does not
    raise. *)
Lemma generate_suggestions_body_result
    (context : pydict) (command query : option string) (st st' : State)
    (d : pydict) :
  (let* current_time := time_time in
   (if current_time - last_request_time (self st) <? rate_limit_delay (self st)
    then time_sleep
           (rate_limit_delay (self st)
            - (current_time - last_request_time (self st)))
    else ret tt) ;;
   let* prompt := lift (_build_prompt env context command query) in
   let* response := _call_openai env prompt in
   let* suggestions := _parse_response env response context in
   let* t := time_time in
   set_last_request_time t ;;
   ret suggestions) st = (Return d, st') ->
  is_result context d.
Proof.
  unfold bind. unfold_py. simpl.
  destruct (_ <? _); simpl;
    (destruct (_build_prompt env context command query) as [prompt|e];
       simpl; [|done]);
    (destruct (_call_openai env prompt _) as [[response|e] st1]; simpl;
       [|done]);
    (destruct (parse_response_is_result response context st1)
       as (d0 & Hd & Hres); unfold try_except in Hd; rewrite Hd; simpl;
     by intros [= <- _]).
Qed.

(** What [generate_suggestions] returns is a result. *)
Lemma generate_suggestions_is_result
    (context : pydict) (command query : option string) (st st' : State)
    (d : pydict) :
  generate_suggestions env context command query st = (Return d, st') ->
  is_result context d.
Proof.
  unfold generate_suggestions. unfold bind at 1. unfold get_self at 1.
  destruct (negb (is_initialized (self st))).
  { intros [= <- _]. left. by eexists. }
  unfold try_except.
  match goal with
  | |- context [let (o, st') := ?body st in _] =>
      destruct (body st) as [[d'|e] st1] eqn:Hrun
  end.
  - intros [= <- _]. by eapply generate_suggestions_body_result.
  - intros [= <- _]. left. by eexists.
Qed.

End EngineGuarantees.

(** X1. Whatever the provider, the decoder and the context are, and
    whether or not the engine is initialized, [generate_suggestions]
    returns, never raises, and what it returns has one of two shapes: an
    error dictionary [{"error": msg}], or a batch without an "error" entry
    whose "suggestions" is a list of dictionaries that each have exactly
    the keys type, title, description, code and priority, and which echoes
    the context it was asked about. *)
Theorem generate_suggestions_result_shape
    (env : Env) (context : pydict) (command query : option string)
    (st : State) :
  exists d,
    (generate_suggestions env context command query st).1 = Return d
    /\ is_result context d.
Proof.
  unfold generate_suggestions. unfold bind at 1. unfold get_self at 1.
  destruct (negb (is_initialized (self st))).
  { eexists. split; [reflexivity|]. left. by eexists. }
  unfold try_except.
  match goal with
  | |- context [let (o, st') := ?body st in _] =>
      destruct (body st) as [[d'|e] st'] eqn:Hrun
  end.
  - eexists. split; [reflexivity|].
    by eapply generate_suggestions_body_result.
  - eexists. split; [reflexivity|]. left. by eexists.
Qed.

(** How [_format_suggestions] runs on a decoded object whose
    "suggestions" is a list. *)
Lemma format_suggestions_run (p context : pydict) (st : State)
    (items : list pyval) :
  dict_get_or p "suggestions" (VList []) = VList items ->
  _format_suggestions (VDict p) context st
  = (Return
       (<[ "suggestions" := VList (omap cleaned items) ]>
        (<[ "timestamp" := VTime (clock (world st)) ]>
        (<[ "context" := VDict context ]>
        (<[ "suggestions" := VList items ]>
        (<[ "summary" := dict_get_or p "summary" (VStr "") ]>
        (<[ "confidence" :=
              dict_get_or p "confidence" (VFloat (FDec 5 (-1))) ]>
        (<[ "source" := VStr "ai_engine" ]> ∅))))))),
     st).
Proof.
  intros Hitems. unfold _format_suggestions. unfold_py. simpl.
  unfold dict_get at 1. rewrite lookup_insert_ne by done.
  rewrite lookup_insert_ne by done. rewrite lookup_insert_eq. simpl.
  rewrite Hitems. simpl. by rewrite fold_clean_step.
Qed.

(** X2. A structured answer goes through: when the provider's answer
    starts with an opening brace and decodes to an object whose
    "suggestions" is a list, [generate_suggestions] returns a batch without
    error whose suggestions are the candidates with a title, in the
    provider's order; its summary and confidence are the object's (the empty
    text and 0.5 when missing), its time stamp is the time at which the
    provider answered, and that time becomes [last_request_time]. *)
Theorem structured_response_gives_provider_suggestions
    (env : Env) (context p : pydict) (command query : option string)
    (st : State) (prompt response : string) (items : list pyval) :
  is_initialized (self st) = true ->
  client (self st) = true ->
  _build_prompt env context command query = Return prompt ->
  reply_to env prompt (after_gate st) = Return response ->
  startswith "{" (strip response) = true ->
  json_loads env response = Return (VDict p) ->
  dict_get_or p "suggestions" (VList []) = VList items ->
  exists batch,
    (generate_suggestions env context command query st).1 = Return batch
    /\ batch !! "error" = None
    /\ batch !! "suggestions" = Some (VList (omap cleaned items))
    /\ batch !! "summary" = Some (dict_get_or p "summary" (VStr ""))
    /\ batch !! "confidence"
       = Some (dict_get_or p "confidence" (VFloat (FDec 5 (-1))))
    /\ batch !! "timestamp"
       = Some (VTime (clock (world (after_call env prompt (after_gate st)))))
    /\ last_request_time
         (self (generate_suggestions env context command query st).2)
       = clock (world (after_call env prompt (after_gate st))).
Proof.
  intros Hi Hc Hp Hr Hs Hj Hitems.
  rewrite generate_suggestions_run, Hp by done. cbv zeta. rewrite Hr.
  unfold _parse_response, try_except, bind, lift. rewrite Hs, Hj.
  rewrite (format_suggestions_run p context _ items Hitems). simpl.
  eexists. split; [reflexivity|]. repeat split.
Qed.

Lemma structured_response_gives_provider_suggestions_witness :
  exists batch,
    (generate_suggestions env_structured ∅ None None
       (fresh env_structured t0)).1 = Return batch
    /\ batch !! "error" = None
    /\ batch !! "suggestions" = Some (VList (omap cleaned two_candidates))
    /\ batch !! "summary"
       = Some (dict_get_or two_suggestions_decoded "summary" (VStr ""))
    /\ batch !! "confidence"
       = Some (dict_get_or two_suggestions_decoded "confidence"
                 (VFloat (FDec 5 (-1))))
    /\ batch !! "timestamp"
       = Some (VTime (clock (world (after_call env_structured bare_prompt
                                      (after_gate (fresh env_structured t0))))))
    /\ last_request_time
         (self (generate_suggestions env_structured ∅ None None
                  (fresh env_structured t0)).2)
       = clock (world (after_call env_structured bare_prompt
                         (after_gate (fresh env_structured t0)))).
Proof.
  apply (structured_response_gives_provider_suggestions
           env_structured ∅ two_suggestions_decoded None None
           (fresh env_structured t0) bare_prompt two_suggestions_json
           two_candidates);
    reflexivity.
Defined.

(** ** The operations without rate limiter *)

Section DirectOperations.

Context (env : Env).

Lemma run_app (pre post : list (N * request)) : forall st,
  run env (pre ++ post) st
  = ((run env pre st).1 ++ (run env post (run env pre st).2).1,
     (run env post (run env pre st).2).2).
Proof.
  induction pre as [|[d r] pre IH]; intros st; simpl.
  - by destruct (run env post st).
  - destruct (call env r (idle d st)) as [o st1].
    rewrite IH. by destruct (run env pre st1).
Qed.

(** One call of [suggest_fixes], [analyze_code_quality] or
    [generate_documentation] on an initialized engine. *)
Lemma direct_call_run r st :
  is_generate r = false ->
  is_initialized (self st) = true ->
  client (self st) = true ->
  (call env r st).2 = after_call env (direct_prompt r) st.
Proof.
  intros Hr Hi Hc. destruct r; try done; simpl;
    unfold suggest_fixes, analyze_code_quality, generate_documentation;
    by rewrite ask_json_run.
Qed.

Lemma run_direct_calls trace : forall st,
  Forall (fun dr : N * request => is_generate dr.2 = false) trace ->
  is_initialized (self st) = true ->
  client (self st) = true ->
  self (run env trace st).2 = self st
  /\ List.length (calls (world (run env trace st).2))
     = (List.length (calls (world st)) + List.length trace)%nat.
Proof.
  induction trace as [|[d r] trace IH]; intros st Hgen Hi Hc; simpl.
  - split; [done|lia].
  - apply Forall_cons in Hgen as [Hr Hgen]. simpl in Hr.
    pose proof (direct_call_run r (idle d st) Hr Hi Hc) as Hcall.
    destruct (call env r (idle d st)) as [o st1]. simpl in Hcall. subst st1.
    destruct (IH (after_call env (direct_prompt r) (idle d st)) Hgen Hi Hc)
      as [Hself Hlen].
    destruct (run env trace _) as [os st2]. simpl in *.
    split; [done|]. rewrite Hlen, length_app. simpl. lia.
Qed.

End DirectOperations.

(** X3. [suggest_fixes], [analyze_code_quality] and
    [generate_documentation] do not take part in rate limiting. In any
    sequence of such calls on an initialized engine, every call reaches the
    provider, once, with its own prompt, at the very time it is made, and
    the engine is left as it was: neither [last_request_time] nor the cache
    changes. *)
Theorem direct_operations_call_provider_at_once
    (env : Env) (pre : list (N * request)) (d : N) (r : request)
    (st : State) :
  is_initialized (self st) = true ->
  client (self st) = true ->
  Forall (fun dr : N * request => is_generate dr.2 = false) pre ->
  is_generate r = false ->
  self (run env (pre ++ [(d, r)]) st).2 = self st
  /\ List.length (calls (world (run env pre st).2))
     = (List.length (calls (world st)) + List.length pre)%nat
  /\ calls (world (run env (pre ++ [(d, r)]) st).2)
     = calls (world (run env pre st).2)
       ++ [ {| call_time := clock (world (run env pre st).2) + Z.of_N d;
               call_prompt := direct_prompt r |} ].
Proof.
  intros Hi Hc Hpre Hr.
  destruct (run_direct_calls env pre st Hpre Hi Hc) as [Hself Hlen].
  rewrite run_app. simpl.
  assert (Hi1 : is_initialized (self (idle d (run env pre st).2)) = true)
    by (simpl; congruence).
  assert (Hc1 : client (self (idle d (run env pre st).2)) = true)
    by (simpl; congruence).
  pose proof (direct_call_run env r (idle d (run env pre st).2) Hr Hi1 Hc1)
    as Hcall.
  destruct (call env r (idle d (run env pre st).2)) as [o st1].
  simpl in Hcall. subst st1. simpl. auto.
Qed.

Lemma direct_operations_call_provider_at_once_witness :
  self (run env_plain_text
          ([ (0%N, SuggestFixes "NameError" None);
             (0%N, AnalyzeCodeQuality "x = 1" (Some "python")) ]
           ++ [(7%N, GenerateDocumentation "def f(): pass" None)])
          (fresh env_plain_text t0)).2
  = self (fresh env_plain_text t0)
  /\ List.length
       (calls (world (run env_plain_text
                        [ (0%N, SuggestFixes "NameError" None);
                          (0%N, AnalyzeCodeQuality "x = 1" (Some "python")) ]
                        (fresh env_plain_text t0)).2))
     = (List.length (calls (world (fresh env_plain_text t0))) + 2)%nat
  /\ calls (world (run env_plain_text
                     ([ (0%N, SuggestFixes "NameError" None);
                        (0%N, AnalyzeCodeQuality "x = 1" (Some "python")) ]
                      ++ [(7%N, GenerateDocumentation "def f(): pass" None)])
                     (fresh env_plain_text t0)).2)
     = calls (world (run env_plain_text
                       [ (0%N, SuggestFixes "NameError" None);
                         (0%N, AnalyzeCodeQuality "x = 1" (Some "python")) ]
                       (fresh env_plain_text t0)).2)
       ++ [ {| call_time :=
                 clock (world (run env_plain_text
                                 [ (0%N, SuggestFixes "NameError" None);
                                   (0%N, AnalyzeCodeQuality "x = 1"
                                           (Some "python")) ]
                                 (fresh env_plain_text t0)).2) + Z.of_N 7;
               call_prompt :=
                 direct_prompt (GenerateDocumentation "def f(): pass" None) |} ].
Proof.
  apply (direct_operations_call_provider_at_once
           env_plain_text
           [ (0%N, SuggestFixes "NameError" None);
             (0%N, AnalyzeCodeQuality "x = 1" (Some "python")) ]
           7%N (GenerateDocumentation "def f(): pass" None)
           (fresh env_plain_text t0)).
  - reflexivity.
  - reflexivity.
  - repeat constructor.
  - reflexivity.
Defined.

(** ** The rate limiter, exactly *)

Lemma after_gate_clock_max (st : State) :
  clock (world (after_gate st))
  = Z.max (clock (world st))
          (last_request_time (self st) + rate_limit_delay (self st)).
Proof.
  unfold after_gate.
  destruct (Z.ltb_spec (clock (world st) - last_request_time (self st))
              (rate_limit_delay (self st))); simpl; lia.
Qed.

(** X4. The rate limiter delays a call of [generate_suggestions] by
    exactly what is missing, and not at all once the interval has passed:
    the provider call is issued at the later of the time of the call and
    [last_request_time + rate_limit_delay]. *)
Theorem generate_suggestions_waits_exactly_the_remainder
    (env : Env) (context : pydict) (command query : option string)
    (st : State) (prompt : string) :
  is_initialized (self st) = true ->
  client (self st) = true ->
  _build_prompt env context command query = Return prompt ->
  calls (world (generate_suggestions env context command query st).2)
  = calls (world st)
    ++ [ {| call_time :=
              Z.max (clock (world st))
                    (last_request_time (self st)
                     + rate_limit_delay (self st));
            call_prompt := prompt |} ]
  /\ (last_request_time (self st) + rate_limit_delay (self st)
      ≤ clock (world st) ->
      clock (world (generate_suggestions env context command query st).2)
      = clock (world st)
        + Z.of_N (chat_completions_create env
                    (List.length (calls (world st))) prompt).1).
Proof.
  intros Hi Hc Hp. split.
  - rewrite (generate_suggestions_calls env context command query st prompt)
      by done.
    by rewrite after_gate_clock_max.
  - intros Hpassed.
    rewrite generate_suggestions_run, Hp by done. cbv zeta.
    assert (after_gate st = st) as ->.
    { unfold after_gate.
      destruct (Z.ltb_spec (clock (world st) - last_request_time (self st))
                  (rate_limit_delay (self st))); [lia|done]. }
    by destruct (reply_to env prompt st).
Qed.

Lemma generate_suggestions_waits_exactly_the_remainder_witness :
  calls (world (generate_suggestions env_plain_text ∅ None None
                  (idle 300 (generate_suggestions env_plain_text ∅ None None
                               (fresh env_plain_text t0)).2)).2)
  = calls (world (idle 300 (generate_suggestions env_plain_text ∅ None None
                              (fresh env_plain_text t0)).2))
    ++ [ {| call_time := Z.max 1700000000340 (1700000000040 + 1000);
            call_prompt := bare_prompt |} ].
Proof.
  refine (proj1 (generate_suggestions_waits_exactly_the_remainder
                   env_plain_text ∅ None None
                   (idle 300 (generate_suggestions env_plain_text ∅ None None
                                (fresh env_plain_text t0)).2)
                   bare_prompt _ _ _)); reflexivity.
Defined.

(** ** The prompt *)

(** X5. The prompt depends on the context only through the seven entries
    [_build_prompt] reads: two contexts that agree on code_detected,
    language, file_type, error_indicators, suggestions_context,
    code_snippets and text_content give the same prompt, or the same
    exception. In particular the time stamp of a capture never changes the
    prompt. *)
Theorem build_prompt_reads_seven_entries
    (env : Env) (context context' : pydict) (command query : option string) :
  (forall k, k ∈ prompt_keys -> context !! k = context' !! k) ->
  _build_prompt env context command query
  = _build_prompt env context' command query.
Proof.
  intros Hk. unfold _build_prompt, dict_get, dict_get_or.
  rewrite !(Hk "code_detected"), !(Hk "language"), !(Hk "file_type"),
    !(Hk "error_indicators"), !(Hk "suggestions_context"),
    !(Hk "code_snippets"), !(Hk "text_content");
    try reflexivity; unfold prompt_keys; set_solver.
Qed.

Lemma build_prompt_reads_seven_entries_witness :
  _build_prompt env_plain_text context_cpp (Some "explain") None
  = _build_prompt env_plain_text context_cpp_later (Some "explain") None.
Proof.
  apply (build_prompt_reads_seven_entries
           env_plain_text context_cpp context_cpp_later (Some "explain") None).
  intros k Hk. unfold context_cpp_later.
  rewrite lookup_insert_ne; [reflexivity|].
  intros <-. unfold prompt_keys in Hk. set_solver.
Defined.

Section TypedContexts.

Context (env : Env).

Lemma obind_returns {A B} (o : outcome A) (k : A -> outcome B) :
  (exists a, o = Return a) ->
  (forall a, exists b, k a = Return b) ->
  exists b, obind o k = Return b.
Proof. intros [a ->] Hk. apply Hk. Qed.

Lemma join_items_strings (l : list string) (i : nat) :
  join_items i (VStr <$> l) = Return l.
Proof.
  revert i. induction l as [|s l IH]; intros i; simpl; [done|].
  by rewrite IH.
Qed.

Lemma iterate_strings (l : list string) :
  iterate (VList (VStr <$> l)) = Return (VStr <$> l).
Proof. reflexivity. Qed.

(** [_build_prompt] returns on a context whose joined and sliced entries
    have the types the monitor gives them. *)
Lemma build_prompt_typed (context : pydict) (command query : option string) :
  monitor_typed context ->
  exists prompt, _build_prompt env context command query = Return prompt.
Proof.
  intros (Herr & Hsnip & Htext). unfold _build_prompt.
  assert (Hjoin : forall parts,
    exists parts',
      (if truthy (dict_get context "error_indicators")
       then obind (str_join ", " (dict_get context "error_indicators"))
              (fun joined => Return (parts ++ [ "Error indicators detected: "
                                                 +:+ joined ]))
       else Return parts) = Return parts').
  { intros parts. unfold dict_get.
    destruct (context !! "error_indicators") as [v|] eqn:Hv; simpl; [|eauto].
    destruct (Herr v eq_refl) as [l ->].
    destruct (truthy (VList (VStr <$> l))); [|eauto].
    unfold str_join. rewrite iterate_strings. simpl.
    rewrite join_items_strings. simpl. eauto. }
  assert (Hsnippets : forall parts,
    exists parts',
      (if truthy (dict_get context "code_snippets")
       then obind (slice_head 3 (dict_get context "code_snippets"))
              (fun first3 =>
                 obind (iterate first3)
                   (fun snippets =>
                      Return (parts ++ [ "
Code snippets detected:" ] ++ snippet_lines env snippets)))
       else Return parts) = Return parts').
  { intros parts. unfold dict_get.
    destruct (context !! "code_snippets") as [v|] eqn:Hv; simpl; [|eauto].
    destruct (Hsnip v eq_refl) as [l ->].
    destruct (truthy (VList (VStr <$> l))); [|eauto]. simpl. eauto. }
  assert (Hrecent : forall parts,
    exists parts',
      (if truthy (dict_get context "text_content")
       then obind (slice_tail 1000 (dict_get context "text_content"))
              (fun recent_text =>
                 Return (parts ++ [ "
Recent screen content: " +:+ fmt env recent_text ]))
       else Return parts) = Return parts').
  { intros parts. unfold dict_get.
    destruct (context !! "text_content") as [v|] eqn:Hv; simpl; [|eauto].
    destruct (Htext v eq_refl) as [s ->].
    destruct (truthy (VStr s)); [|eauto]. simpl. eauto. }
  cbv zeta.
  apply obind_returns; [apply Hjoin|]. intros parts1.
  apply obind_returns; [apply Hsnippets|]. intros parts2.
  apply obind_returns; [apply Hrecent|]. intros parts3.
  eauto.
Qed.

End TypedContexts.

Section MonitorContexts.

Context (cfg : config) (re : ScreenMonitor.Regex).

Lemma analysis_typed (c : ScreenMonitor.Capture) :
  monitor_typed (ScreenMonitor._analyze_screen_content cfg re c).
Proof.
  unfold ScreenMonitor._analyze_screen_content.
  assert (Hdefault :
    monitor_typed
      (<[ "timestamp" := VTime (ScreenMonitor.now c) ]>
       (<[ "text_content" := VStr "" ]>
       (<[ "code_detected" := VBool false ]>
       (<[ "file_type" := VNone ]>
       (<[ "error_indicators" := VList [] ]>
       (<[ "suggestions_context" := VStr "" ]> ∅))))))).
  { repeat split; intros v [= <-]; first [by exists [] | by eexists]. }
  destruct (OCR_ENABLED cfg); [|done].
  destruct (ScreenMonitor.ocr c) as [text|e]; [|done].
  unfold dict_update, ScreenMonitor.code_analysis_dict.
  repeat split; intros v Hv.
  - rewrite lookup_insert_ne in Hv by done.
    rewrite lookup_insert_eq in Hv. injection Hv as <-. by eexists.
  - rewrite lookup_insert_ne in Hv by done.
    rewrite lookup_insert_ne in Hv by done.
    rewrite lookup_union_l' in Hv by (by eexists).
    revert Hv. intros [= <-]. by eexists.
  - rewrite lookup_insert_ne in Hv by done.
    rewrite lookup_insert_ne in Hv by done.
    rewrite lookup_union_r in Hv by done.
    rewrite lookup_insert_eq in Hv. injection Hv as <-. by eexists.
Qed.

Lemma dict_update_typed (d other : pydict) :
  monitor_typed d -> monitor_typed other -> monitor_typed (dict_update d other).
Proof.
  intros (H1 & H2 & H3) (H1' & H2' & H3').
  repeat split; intros v; rewrite dict_update_lookup;
    match goal with
    | |- context [other !! ?k] => destruct (other !! k) eqn:Hk
    end; intros Hv; first [ injection Hv as <-; eauto | eauto ].
Qed.

Lemma capture_typed (c : ScreenMonitor.Capture) (m : ScreenMonitor.t) :
  monitor_typed (ScreenMonitor.current_context m) ->
  monitor_typed
    (ScreenMonitor.current_context
       (ScreenMonitor._capture_and_analyze cfg re c m)).
Proof.
  intros Hm. unfold ScreenMonitor._capture_and_analyze.
  destruct (ScreenMonitor.grab c); [|done]. simpl.
  apply dict_update_typed; [done|apply analysis_typed].
Qed.

Lemma capture_all_typed (cs : list ScreenMonitor.Capture) :
  forall m,
    monitor_typed (ScreenMonitor.current_context m) ->
    monitor_typed
      (ScreenMonitor.current_context (MonitorLoop.capture_all cfg re cs m)).
Proof.
  induction cs as [|c cs IH]; intros m Hm; simpl; [done|].
  apply IH. by apply capture_typed.
Qed.

End MonitorContexts.

(** X6. The contexts of the screen monitor never make the prompt fail:
    after any captures, whether the screenshots and the text recognition
    succeeded or not, [_build_prompt] returns a prompt for the context the
    monitor hands out, with any command and query. *)
Theorem build_prompt_succeeds_on_monitor_contexts
    (env : Env) (cfg : config) (re : ScreenMonitor.Regex)
    (cs : list ScreenMonitor.Capture) (command query : option string) :
  exists prompt,
    _build_prompt env
      (ScreenMonitor.get_current_context
         (MonitorLoop.capture_all cfg re cs ScreenMonitor.init))
      command query
    = Return prompt.
Proof.
  apply build_prompt_typed.
  apply capture_all_typed. simpl.
  repeat split; intros v Hv; by rewrite lookup_empty in Hv.
Qed.

(** ** The cache accessors *)

(** X7. A cached suggestion is served exactly while it is younger than
    [CACHE_TTL]: with caching enabled, [get_cached_suggestion], called [d]
    milliseconds after [cache_suggestion] stored [s] under the same key,
    returns [s] when [d] is below the TTL and [None] from the TTL on. The
    lookup changes nothing: an expired entry stays in the cache. *)
Theorem cached_suggestion_expires_at_ttl
    (env : Env) (context_hash : string) (s : pyval) (d : N) (st : State) :
  ENABLE_CACHING (Config env) = true ->
  get_cached_suggestion env context_hash
    (idle d (cache_suggestion env context_hash s st).2)
  = (Return (if Z.of_N d <? seconds (CACHE_TTL (Config env))
             then Some s else None),
     idle d (cache_suggestion env context_hash s st).2)
  /\ suggestion_cache (self (cache_suggestion env context_hash s st).2)
       !! context_hash
     = Some {| timestamp := clock (world st); suggestion := s |}.
Proof.
  intros Hon. unfold get_cached_suggestion, cache_suggestion.
  unfold_py. rewrite Hon. simpl. rewrite lookup_insert_eq. simpl.
  split; [|done].
  replace (clock (world st) + Z.of_N d - clock (world st)) with (Z.of_N d)
    by lia.
  by destruct (Z.of_N d <? seconds (CACHE_TTL (Config env))).
Qed.

Lemma cached_suggestion_expires_at_ttl_witness :
  get_cached_suggestion env_plain_text "fingerprint"
    (idle 300000 (cache_suggestion env_plain_text "fingerprint"
                    (VStr "cached") (fresh env_plain_text t0)).2)
  = (Return (if Z.of_N 300000 <? seconds (CACHE_TTL (Config env_plain_text))
             then Some (VStr "cached") else None),
     idle 300000 (cache_suggestion env_plain_text "fingerprint"
                    (VStr "cached") (fresh env_plain_text t0)).2)
  /\ suggestion_cache
       (self (cache_suggestion env_plain_text "fingerprint" (VStr "cached")
                (fresh env_plain_text t0)).2) !! "fingerprint"
     = Some {| timestamp := clock (world (fresh env_plain_text t0));
               suggestion := VStr "cached" |}.
Proof.
  apply (cached_suggestion_expires_at_ttl
           env_plain_text "fingerprint" (VStr "cached") 300000%N
           (fresh env_plain_text t0)).
  reflexivity.
Defined.

(** X8. Entries of the cache do not interfere: storing under one key
    leaves what [get_cached_suggestion] answers for any other key as it
    was; storing again under the same key replaces the suggestion and
    starts its TTL anew; and after [clear_cache] every lookup returns
    [None]. *)
Theorem cache_entries_are_independent
    (env : Env) (h h' : string) (s s' : pyval) (d d' : N) (st : State) :
  ENABLE_CACHING (Config env) = true ->
  h <> h' ->
  Z.of_N d' < seconds (CACHE_TTL (Config env)) ->
  (get_cached_suggestion env h' (cache_suggestion env h s st).2).1
  = (get_cached_suggestion env h' st).1
  /\ (get_cached_suggestion env h
        (idle d' (cache_suggestion env h s'
                    (idle d (cache_suggestion env h s st).2)).2)).1
     = Return (Some s')
  /\ (get_cached_suggestion env h (clear_cache (cache_suggestion env h s st).2).2).1
     = Return None.
Proof.
  intros Hon Hne Httl. unfold get_cached_suggestion, cache_suggestion,
    clear_cache. unfold_py. rewrite Hon. simpl.
  rewrite lookup_insert_ne by done. rewrite lookup_insert_eq. simpl.
  rewrite lookup_empty. split; [|split; [|done]].
  - destruct (suggestion_cache (self st) !! h') as [cached|]; [|done].
    simpl. by destruct (_ <? _).
  - destruct (Z.ltb_spec
                (clock (world st) + Z.of_N d + Z.of_N d'
                 - (clock (world st) + Z.of_N d))
                (seconds (CACHE_TTL (Config env)))); [done|lia].
Qed.

Lemma cache_entries_are_independent_witness :
  (get_cached_suggestion env_plain_text "other"
     (cache_suggestion env_plain_text "fingerprint" (VStr "first")
        (fresh env_plain_text t0)).2).1
  = (get_cached_suggestion env_plain_text "other" (fresh env_plain_text t0)).1
  /\ (get_cached_suggestion env_plain_text "fingerprint"
        (idle 299999
           (cache_suggestion env_plain_text "fingerprint" (VStr "second")
              (idle 400000
                 (cache_suggestion env_plain_text "fingerprint" (VStr "first")
                    (fresh env_plain_text t0)).2)).2)).1
     = Return (Some (VStr "second"))
  /\ (get_cached_suggestion env_plain_text "fingerprint"
        (clear_cache
           (cache_suggestion env_plain_text "fingerprint" (VStr "first")
              (fresh env_plain_text t0)).2).2).1
     = Return None.
Proof.
  apply (cache_entries_are_independent
           env_plain_text "fingerprint" "other" (VStr "first") (VStr "second")
           400000%N 299999%N (fresh env_plain_text t0)).
  - reflexivity.
  - discriminate.
  - reflexivity.
Defined.

(** ** screen_monitor.py: detection *)

Section Detection.

Import ScreenMonitor MonitorLoop.

Context (cfg : config) (re : Regex).

Lemma find_first {A} (f : A -> bool) (l : list A) (x : A) :
  List.find f l = Some x ->
  exists before after,
    l = before ++ x :: after /\ f x = true
    /\ forall y, y ∈ before -> f y = false.
Proof.
  induction l as [|a l IH]; simpl; [done|].
  destruct (f a) eqn:Hfa.
  - intros [= ->]. exists [], l. repeat split; [done|]. intros y Hy.
    by apply elem_of_nil in Hy.
  - intros Hfind. destruct (IH Hfind) as (before & after & -> & Hx & Hb).
    exists (a :: before), after. repeat split; [done|].
    intros y [->|Hy]%elem_of_cons; [done|by apply Hb].
Qed.

Lemma find_none_iff {A} (f : A -> bool) (l : list A) :
  List.find f l = None <-> forall y, y ∈ l -> f y = false.
Proof.
  induction l as [|a l IH]; simpl.
  - split; [|done]. intros _ y Hy. by apply elem_of_nil in Hy.
  - destruct (f a) eqn:Hfa.
    + split; [done|]. intros H. specialize (H a (list_elem_of_here _ _)).
      congruence.
    + rewrite IH. split.
      * intros H y [->|Hy]%elem_of_cons; [done|by apply H].
      * intros H y Hy. apply H. by apply list_elem_of_further.
Qed.

Lemma existsb_elem_of {A} (f : A -> bool) (l : list A) :
  existsb f l = true <-> exists x, x ∈ l /\ f x = true.
Proof.
  rewrite existsb_exists. split; intros (x & Hx & Hf); exists x;
    (split; [by apply list_elem_of_In|done]).
Qed.

Lemma existsb_false_elem_of {A} (f : A -> bool) (l : list A) (x : A) :
  existsb f l = false -> x ∈ l -> f x = false.
Proof.
  intros Hex Hx. destruct (f x) eqn:Hfx; [|done].
  assert (existsb f l = true) by (apply existsb_elem_of; eauto).
  congruence.
Qed.

(** X9. [_detect_code_patterns] reports the first language of its table
    one of whose patterns is found in the text: code is detected exactly
    when some pattern of the table is found; the language reported has a
    pattern that is found and no language before it in the table has one;
    the file type, if any, is a monitored extension that fits the
    language; the snippets are the first matches of the snippet pattern, at
    most five. As Python comes before C++ in the table and both list the
    pattern for a class, a text reported as C++ has no match for it. *)
Theorem detect_code_patterns_reports_the_first_language (text : string) :
  (code_detected (_detect_code_patterns cfg re text) = true
   <-> exists lang pats p,
         (lang, pats) ∈ code_patterns /\ p ∈ pats
         /\ re_search re p text = true)
  /\ (forall lang,
        language (_detect_code_patterns cfg re text) = Some lang ->
        code_detected (_detect_code_patterns cfg re text) = true
        /\ exists before pats after,
             code_patterns = before ++ (lang, pats) :: after
             /\ (exists p, p ∈ pats /\ re_search re p text = true)
             /\ forall lp p, lp ∈ before -> p ∈ lp.2 ->
                             re_search re p text = false)
  /\ (code_detected (_detect_code_patterns cfg re text) = false ->
      language (_detect_code_patterns cfg re text) = None
      /\ file_type (_detect_code_patterns cfg re text) = None
      /\ code_snippets (_detect_code_patterns cfg re text) = [])
  /\ (forall ext,
        file_type (_detect_code_patterns cfg re text) = Some ext ->
        ext ∈ MONITORED_EXTENSIONS cfg
        /\ exists lang,
             language (_detect_code_patterns cfg re text) = Some lang
             /\ ext_matches lang ext = true)
  /\ code_snippets (_detect_code_patterns cfg re text)
     = (if code_detected (_detect_code_patterns cfg re text)
        then take 5 (re_findall re snippet_pattern text) else [])
  /\ (List.length (code_snippets (_detect_code_patterns cfg re text)) <= 5)%nat
  /\ (language (_detect_code_patterns cfg re text) = Some "cpp" ->
      re_search re "class\s+\w+" text = false).
Proof.
  unfold _detect_code_patterns.
  destruct (List.find _ code_patterns) as [[lang pats]|] eqn:Hfind; simpl.
  - destruct (find_first _ _ _ Hfind) as (before & after & Htable & Hm & Hb).
    simpl in Hm. apply existsb_elem_of in Hm as (p & Hp & Hfound).
    split; [|split; [|split; [|split; [|split; [|split]]]]].
    + split; [|done]. intros _. exists lang, pats, p. split; [|done].
      rewrite Htable. set_solver.
    + intros ? [= <-]. split; [done|]. exists before, pats, after.
      split; [done|]. split; [by exists p|].
      intros lp p' Hlp Hp'. specialize (Hb lp Hlp).
      exact (existsb_false_elem_of _ _ _ Hb Hp').
    + done.
    + intros ext Hext. apply find_some in Hext as [Hin Hext].
      split; [by apply list_elem_of_In|]. by exists lang.
    + done.
    + rewrite length_take. lia.
    + intros [= ->].
      assert (Hpy : ("python", ["def\s+\w+"; "import\s+\w+"; "class\s+\w+";
                                "if\s+__name__"]) ∈ before).
      { unfold code_patterns in Htable.
        destruct before as [|b0 before]; [by inversion Htable|].
        inversion Htable; subst. apply list_elem_of_here. }
      apply (existsb_false_elem_of _ _ _ (Hb _ Hpy)). simpl. set_solver.
  - pose proof (proj1 (find_none_iff _ _) Hfind) as Hnone.
    split; [|split; [|split; [|split; [|split; [|split]]]]]; try done.
    + split; [done|]. intros (lang & pats & p & Hlp & Hp & Hfound).
      specialize (Hnone _ Hlp). simpl in Hnone.
      pose proof (existsb_false_elem_of _ _ _ Hnone Hp). congruence.
    + simpl. lia.
Qed.

Lemma indicator_names :
  indicator_name <$> error_patterns
  = [ "Error"; "Exception"; "Traceback"; "Failed"; "Failure"; "Undefined";
      "Null"; "Nan"; "Infinity"; "Stack Trace"; "Syntax Error"; "Type Error";
      "Reference Error"; "Runtime Error"; "Import Error"; "Module Not Found";
      "File Not Found"; "Permission Denied"; "Access Denied"; "Timeout";
      "Connection Refused" ].
Proof. reflexivity. Qed.

Lemma indicator_names_NoDup : NoDup (indicator_name <$> error_patterns).
Proof.
  rewrite indicator_names.
  refine (bool_decide_unpack (NoDup _) _). by vm_compute.
Qed.

Lemma fmap_filter_NoDup {A B} (f : A -> B) (P : A -> bool) (l : list A) :
  NoDup (f <$> l) -> NoDup (f <$> List.filter P l).
Proof.
  induction l as [|a l IH]; simpl; [done|].
  intros [Ha Hl]%NoDup_cons. destruct (P a); simpl; [|by apply IH].
  apply NoDup_cons. split; [|by apply IH].
  intros (x & Hx & Hin)%list_elem_of_fmap. apply Ha.
  apply list_elem_of_fmap. exists x. split; [done|].
  apply list_elem_of_In. apply list_elem_of_In in Hin.
  by apply filter_In in Hin as [Hin _].
Qed.

(** X10. [_detect_error_indicators] names each pattern of its table that
    is found in the text, once: the names it returns are distinct, so
    that the [list(set(...))] of the source drops nothing; a name is
    returned exactly when its pattern is found; and the names are the
    patterns without their colon, in title case. *)
Theorem error_indicators_name_the_patterns_found (text : string) :
  NoDup (_detect_error_indicators re text)
  /\ (forall name,
        name ∈ _detect_error_indicators re text
        <-> exists pattern,
              pattern ∈ error_patterns
              /\ re_search re pattern text = true
              /\ name = indicator_name pattern)
  /\ (_detect_error_indicators re text = []
      <-> forall pattern,
            pattern ∈ error_patterns -> re_search re pattern text = false)
  /\ indicator_name <$> error_patterns
     = [ "Error"; "Exception"; "Traceback"; "Failed"; "Failure"; "Undefined";
         "Null"; "Nan"; "Infinity"; "Stack Trace"; "Syntax Error";
         "Type Error"; "Reference Error"; "Runtime Error"; "Import Error";
         "Module Not Found"; "File Not Found"; "Permission Denied";
         "Access Denied"; "Timeout"; "Connection Refused" ].
Proof.
  change (_detect_error_indicators re text)
    with (indicator_name
            <$> List.filter (fun pattern => re_search re pattern text)
                            error_patterns).
  split; [|split; [|split]].
  - apply fmap_filter_NoDup, indicator_names_NoDup.
  - intros name. rewrite list_elem_of_fmap. split.
    + intros (pattern & -> & Hin). exists pattern.
      apply list_elem_of_In, filter_In in Hin as [Hin Hfound].
      by rewrite list_elem_of_In.
    + intros (pattern & Hin & Hfound & ->). exists pattern. split; [done|].
      apply list_elem_of_In, filter_In. by rewrite <- list_elem_of_In.
  - split.
    + intros Hnil%fmap_nil_inv pattern Hin.
      destruct (re_search re pattern text) eqn:Hfound; [|done].
      assert (In pattern
                (List.filter (fun pattern => re_search re pattern text)
                             error_patterns)) as Hf
        by (apply filter_In; by rewrite <- list_elem_of_In).
      rewrite Hnil in Hf. destruct Hf.
    + intros Hnone.
      destruct (List.filter _ error_patterns) as [|pattern l] eqn:Hf;
        [done|exfalso].
      assert (In pattern (pattern :: l)) as Hin by (by left).
      rewrite <- Hf in Hin. apply filter_In in Hin as [Hin Hfound].
      rewrite Hnone in Hfound; [done|by apply list_elem_of_In].
  - apply indicator_names.
Qed.

End Detection.

(** X11. With the extensions of config.py, Python is the one language
    that is detected without a file type: no extension starts with
    [".python"], while each of the six other languages gets the first
    monitored extension that fits it. *)
Theorem python_is_detected_without_a_file_type
    (api_key : string) (re : ScreenMonitor.Regex) (text : string) :
  (ScreenMonitor.file_type
     (ScreenMonitor._detect_code_patterns (default_Config api_key) re text)
   = None
   <-> ScreenMonitor.language
         (ScreenMonitor._detect_code_patterns (default_Config api_key) re text)
       = None
       \/ ScreenMonitor.language
            (ScreenMonitor._detect_code_patterns
               (default_Config api_key) re text)
          = Some "python")
  /\ (forall lang ext,
        (lang, ext) ∈ [ ("javascript", ".js"); ("typescript", ".ts");
                        ("java", ".java"); ("cpp", ".cpp");
                        ("html", ".html"); ("css", ".css") ] ->
        ScreenMonitor.language
          (ScreenMonitor._detect_code_patterns (default_Config api_key) re text)
        = Some lang ->
        ScreenMonitor.file_type
          (ScreenMonitor._detect_code_patterns (default_Config api_key) re text)
        = Some ext).
Proof.
  unfold ScreenMonitor._detect_code_patterns.
  destruct (List.find _ ScreenMonitor.code_patterns) as [[lang pats]|]
    eqn:Hfind; simpl.
  - apply find_some in Hfind as [Hin _]. simpl in Hin.
    destruct Hin as [Hin|[Hin|[Hin|[Hin|[Hin|[Hin|[Hin|[]]]]]]]];
      injection Hin as <- <-;
      (split; [split; [try discriminate; by right
                      |intros [?|?]; try discriminate; reflexivity]
              |intros lang ext Hin%list_elem_of_In [= <-]; simpl in Hin;
               destruct Hin as [Hin|[Hin|[Hin|[Hin|[Hin|[Hin|[]]]]]]];
               by inversion Hin]).
  - split; [split; [by left|done]|done].
Qed.

(** ** screen_monitor.py: what a capture leaves in the context *)

Section CaptureFacts.

Import ScreenMonitor MonitorLoop.

Context (cfg : config) (re : Regex).

(** The analysis of a capture whose text was not read is the six initial
    entries. *)
Lemma unread_analysis (c : Capture) :
  unread cfg c = true ->
  _analyze_screen_content cfg re c
  = <[ "timestamp" := VTime (now c) ]>
    (<[ "text_content" := VStr "" ]>
    (<[ "code_detected" := VBool false ]>
    (<[ "file_type" := VNone ]>
    (<[ "error_indicators" := VList [] ]>
    (<[ "suggestions_context" := VStr "" ]> ∅))))).
Proof.
  unfold unread, _analyze_screen_content.
  destruct (OCR_ENABLED cfg); [|done].
  by destruct (ocr c).
Qed.

(** X12. A capture whose text cannot be read (text recognition is switched
    off, or it raises) blanks the context: the text, the error indicators
    and the suggestions context are emptied, [code_detected] becomes
    [False] and [file_type] [None], the time stamp is the capture's; every
    other entry, such as a language detected before, stays as it was. *)
Theorem unread_capture_blanks_the_base_entries (c : Capture) (m : t) :
  is_raise (grab c) = false ->
  unread cfg c = true ->
  (forall k v,
      (k, v) ∈ [ ("timestamp", VTime (now c)); ("text_content", VStr "");
                 ("code_detected", VBool false); ("file_type", VNone);
                 ("error_indicators", VList []);
                 ("suggestions_context", VStr "") ] ->
      get_current_context (_capture_and_analyze cfg re c m) !! k = Some v)
  /\ (forall k,
        k ∉ base_keys ->
        get_current_context (_capture_and_analyze cfg re c m) !! k
        = get_current_context m !! k).
Proof.
  intros Hgrab Hunread.
  unfold get_current_context, _capture_and_analyze.
  destruct (grab c) as [[]|e]; [|done]. simpl.
  rewrite (unread_analysis c Hunread). split.
  - intros k v Hin. rewrite dict_update_lookup.
    apply list_elem_of_In in Hin. simpl in Hin.
    destruct Hin as [Hin|[Hin|[Hin|[Hin|[Hin|[Hin|[]]]]]]];
      injection Hin as <- <-; reflexivity.
  - intros k Hk. rewrite dict_update_lookup.
    unfold base_keys in Hk.
    rewrite !lookup_insert_ne by set_solver. by rewrite lookup_empty.
Qed.

(** What an analysis says of the code it detected. *)
Lemma analysis_detection (c : Capture) :
  exists b ft,
    _analyze_screen_content cfg re c !! "code_detected" = Some (VBool b)
    /\ _analyze_screen_content cfg re c !! "file_type" = Some ft
    /\ (b = true ->
        exists lang,
          _analyze_screen_content cfg re c !! "language" = Some (VStr lang)
          /\ lang ∈ languages)
    /\ (forall ext,
          ft = VStr ext -> b = true /\ ext ∈ MONITORED_EXTENSIONS cfg).
Proof.
  destruct (unread cfg c) eqn:Hunread.
  - rewrite (unread_analysis c Hunread). exists false, VNone.
    repeat split; done.
  - unfold unread in Hunread. unfold _analyze_screen_content.
    destruct (OCR_ENABLED cfg); [|done].
    destruct (ocr c) as [text|e]; [|done].
    unfold dict_update, code_analysis_dict.
    exists (code_detected (_detect_code_patterns cfg re text)),
           (opt_str (file_type (_detect_code_patterns cfg re text))).
    split; [|split; [|split]].
    + rewrite !lookup_insert_ne by done.
      rewrite lookup_union_l' by (by eexists). done.
    + rewrite !lookup_insert_ne by done.
      rewrite lookup_union_l' by (by eexists). done.
    + intros Hdetected. rewrite !lookup_insert_ne by done.
      rewrite lookup_union_l' by (by eexists).
      rewrite !lookup_insert_ne by done. rewrite lookup_insert_eq.
      revert Hdetected. unfold _detect_code_patterns.
      destruct (List.find _ code_patterns) as [[lang pats]|] eqn:Hfind;
        [|done].
      intros _. exists lang. split; [done|].
      apply find_some in Hfind as [Hin _]. unfold languages.
      apply list_elem_of_fmap. exists (lang, pats).
      split; [done|by apply list_elem_of_In].
    + intros ext. unfold _detect_code_patterns.
      destruct (List.find _ code_patterns) as [[lang pats]|]; [|done].
      simpl. destruct (List.find _ (MONITORED_EXTENSIONS cfg)) as [ext'|]
        eqn:Hext; [|done].
      intros [= ->]. split; [done|].
      apply find_some in Hext as [Hin _]. by apply list_elem_of_In.
Qed.

Lemma analysis_base_keys (c : Capture) (k : string) :
  k ∈ base_keys -> is_Some (_analyze_screen_content cfg re c !! k).
Proof.
  intros Hk. apply elem_of_dom. rewrite analysis_keys.
  unfold base_keys in Hk.
  destruct (_ && _)%bool; set_solver.
Qed.

Lemma capture_detection_agrees (c : Capture) (m : t) :
  detection_agrees cfg (current_context m) ->
  detection_agrees cfg (current_context (_capture_and_analyze cfg re c m)).
Proof.
  intros Hm. unfold _capture_and_analyze.
  destruct (grab c); [|done]. simpl.
  destruct (analysis_detection c) as (b & ft & Hb & Hft & Hlang & Hext).
  split; [|split].
  - rewrite !dict_update_lookup, Hb. intros [= ->].
    destruct (Hlang eq_refl) as (lang & -> & Hin). by exists lang.
  - intros ext. rewrite !dict_update_lookup, Hb, Hft. intros [= ->].
    destruct (Hext ext eq_refl) as [-> Hin]. done.
  - right. intros k Hk. rewrite dict_update_lookup.
    destruct (analysis_base_keys c k Hk) as [v ->]. by eexists.
Qed.

Lemma capture_all_detection_agrees (cs : list Capture) :
  forall m,
    detection_agrees cfg (current_context m) ->
    detection_agrees cfg (current_context (capture_all cfg re cs m)).
Proof.
  induction cs as [|c cs IH]; intros m Hm; simpl; [done|].
  apply IH. by apply capture_detection_agrees.
Qed.

(** X13. Whatever the captures were, the context the monitor hands out
    agrees with itself on what was detected: when it says that code was
    detected, it names the language, one of the table; when it gives a file
    type, code was detected and the file type is a monitored extension; and
    after the first screenshot it has the six entries of an analysis. (The
    converse fails: a language can be left over while [code_detected] is
    [False].) *)
Theorem monitor_context_agrees_on_detection (cs : list Capture) :
  (get_current_context (capture_all cfg re cs init) !! "code_detected"
   = Some (VBool true) ->
   exists lang,
     get_current_context (capture_all cfg re cs init) !! "language"
     = Some (VStr lang)
     /\ lang ∈ languages)
  /\ (forall ext,
        get_current_context (capture_all cfg re cs init) !! "file_type"
        = Some (VStr ext) ->
        get_current_context (capture_all cfg re cs init) !! "code_detected"
        = Some (VBool true)
        /\ ext ∈ MONITORED_EXTENSIONS cfg)
  /\ (get_current_context (capture_all cfg re cs init) = ∅
      \/ forall k,
           k ∈ base_keys ->
           is_Some (get_current_context (capture_all cfg re cs init) !! k)).
Proof.
  apply (capture_all_detection_agrees cs init).
  split; [done|]. split; [done|]. by left.
Qed.

End CaptureFacts.

(** ** screen_monitor.py: the monitoring loop *)

Section LoopFacts.

Import ScreenMonitor MonitorLoop.

Context (cfg : config) (re : Regex) (SCREEN_CAPTURE_INTERVAL : Z).

Lemma capture_all_context (cs : list Capture) :
  forall m1 m2,
    current_context m1 = current_context m2 ->
    current_context (capture_all cfg re cs m1)
    = current_context (capture_all cfg re cs m2).
Proof.
  induction cs as [|c cs IH]; intros m1 m2 Hctx; simpl; [done|].
  apply IH. unfold _capture_and_analyze.
  destruct (grab c); simpl; [by rewrite Hctx|done].
Qed.

Lemma capture_is_monitoring (c : Capture) (m : t) :
  is_monitoring (_capture_and_analyze cfg re c m) = is_monitoring m.
Proof. unfold _capture_and_analyze. by destruct (grab c). Qed.

Lemma last_cons {A} (x d : A) (l : list A) :
  List.last (x :: l) d = List.last l x.
Proof.
  revert x d. induction l as [|y l IH]; intros x d; [done|].
  change (List.last (x :: y :: l) d) with (List.last (y :: l) d).
  by rewrite (IH y d), (IH y x).
Qed.

Lemma monitor_loop_turns (turns : list (Z * Capture)) :
  forall m,
    fold_left
      (fun m tc => _monitor_loop_turn cfg re SCREEN_CAPTURE_INTERVAL
                     tc.1 tc.2 m) turns m
    = {| is_monitoring := is_monitoring m;
         current_context :=
           current_context
             (capture_all cfg re
                (due SCREEN_CAPTURE_INTERVAL turns (last_capture_time m)).*2
                m);
         last_capture_time :=
           List.last
             (due SCREEN_CAPTURE_INTERVAL turns (last_capture_time m)).*1
             (last_capture_time m) |}.
Proof.
  induction turns as [|[time c] turns IH]; intros m; simpl.
  - by destruct m.
  - rewrite IH. unfold _monitor_loop_turn. simpl.
    destruct (seconds SCREEN_CAPTURE_INTERVAL <=? time - last_capture_time m);
      [|done].
    cbn [is_monitoring last_capture_time]. rewrite capture_is_monitoring.
    rewrite !fmap_cons, last_cons. f_equal.
    change (capture_all cfg re ((time, c).2 :: ?cs) m)
      with (capture_all cfg re cs (_capture_and_analyze cfg re c m)).
    by apply capture_all_context.
Qed.

Lemma due_spaced (turns : list (Z * Capture)) :
  forall last i time time',
    (last :: (due SCREEN_CAPTURE_INTERVAL turns last).*1) !! i = Some time ->
    (last :: (due SCREEN_CAPTURE_INTERVAL turns last).*1) !! S i
    = Some time' ->
    seconds SCREEN_CAPTURE_INTERVAL <= time' - time.
Proof.
  induction turns as [|[time1 c] turns IH]; intros last i time time'; simpl.
  - by destruct i.
  - destruct (Z.leb_spec (seconds SCREEN_CAPTURE_INTERVAL) (time1 - last));
      [|by apply IH].
    destruct i as [|i]; simpl.
    + by intros [= <-] [= <-].
    + apply (IH time1 i).
Qed.

(** X14. The monitoring loop makes a capture at the turns at which
    [SCREEN_CAPTURE_INTERVAL] has passed since the capture before, and at
    no other: its context is that of these captures made one after the
    other, [last_capture_time] is the time of the last of them, and two
    captures in a row, the one before the loop included, are at least the
    interval apart. *)
Theorem monitor_loop_captures_are_an_interval_apart
    (turns : list (Z * Capture)) (m : t) :
  is_monitoring m = true ->
  get_current_context
    (_monitor_loop cfg re SCREEN_CAPTURE_INTERVAL turns m)
  = get_current_context
      (capture_all cfg re
         (due SCREEN_CAPTURE_INTERVAL turns (last_capture_time m)).*2 m)
  /\ last_capture_time
       (_monitor_loop cfg re SCREEN_CAPTURE_INTERVAL turns m)
     = List.last (due SCREEN_CAPTURE_INTERVAL turns (last_capture_time m)).*1
                 (last_capture_time m)
  /\ forall i time time',
       (last_capture_time m
        :: (due SCREEN_CAPTURE_INTERVAL turns (last_capture_time m)).*1) !! i
       = Some time ->
       (last_capture_time m
        :: (due SCREEN_CAPTURE_INTERVAL turns (last_capture_time m)).*1)
         !! S i
       = Some time' ->
       seconds SCREEN_CAPTURE_INTERVAL <= time' - time.
Proof.
  intros Hon. unfold _monitor_loop, get_current_context. rewrite Hon.
  rewrite monitor_loop_turns. simpl. split; [done|]. split; [done|].
  apply due_spaced.
Qed.

(** X15. A screenshot that fails uses up its turn: the loop sets
    [last_capture_time] although nothing was captured, so that a turn
    that comes before the interval has passed again captures nothing,
    even when the screen can be read by then. *)
Theorem failed_screenshot_is_not_retried_within_the_interval
    (time time' : Z) (c c' : Capture) (m : t) :
  is_monitoring m = true ->
  seconds SCREEN_CAPTURE_INTERVAL <= time - last_capture_time m ->
  is_raise (grab c) = true ->
  time' - time < seconds SCREEN_CAPTURE_INTERVAL ->
  _monitor_loop cfg re SCREEN_CAPTURE_INTERVAL [(time, c); (time', c')] m
  = {| is_monitoring := true;
       current_context := current_context m;
       last_capture_time := time |}.
Proof.
  intros Hon Hdue Hgrab Hearly. unfold _monitor_loop. rewrite Hon. simpl.
  unfold _monitor_loop_turn at 2. simpl.
  destruct (Z.leb_spec (seconds SCREEN_CAPTURE_INTERVAL)
              (time - last_capture_time m)); [|lia].
  unfold _monitor_loop_turn. simpl.
  destruct (Z.leb_spec (seconds SCREEN_CAPTURE_INTERVAL) (time' - time));
    [lia|].
  unfold _capture_and_analyze. destruct (grab c); [done|].
  simpl. by rewrite Hon.
Qed.

End LoopFacts.

Section CaptureExamples.

Import ScreenMonitor MonitorLoop.

Lemma unread_capture_blanks_the_base_entries_witness :
  (forall k v,
      (k, v) ∈ [ ("timestamp", VTime (now capture_ocr_failure));
                 ("text_content", VStr "");
                 ("code_detected", VBool false); ("file_type", VNone);
                 ("error_indicators", VList []);
                 ("suggestions_context", VStr "") ] ->
      get_current_context
        (_capture_and_analyze sample_cfg sample_regex capture_ocr_failure
           (_capture_and_analyze sample_cfg sample_regex capture_cpp init))
        !! k = Some v)
  /\ (forall k,
        k ∉ base_keys ->
        get_current_context
          (_capture_and_analyze sample_cfg sample_regex capture_ocr_failure
             (_capture_and_analyze sample_cfg sample_regex capture_cpp init))
          !! k
        = get_current_context
            (_capture_and_analyze sample_cfg sample_regex capture_cpp init)
            !! k).
Proof.
  apply (unread_capture_blanks_the_base_entries
           sample_cfg sample_regex capture_ocr_failure
           (_capture_and_analyze sample_cfg sample_regex capture_cpp init));
    reflexivity.
Defined.

Lemma monitor_loop_captures_are_an_interval_apart_witness :
  get_current_context
    (_monitor_loop sample_cfg sample_regex 2 four_turns
       (start_monitoring init))
  = get_current_context
      (capture_all sample_cfg sample_regex
         (due 2 four_turns (last_capture_time (start_monitoring init))).*2
         (start_monitoring init))
  /\ last_capture_time
       (_monitor_loop sample_cfg sample_regex 2 four_turns
          (start_monitoring init))
     = List.last
         (due 2 four_turns (last_capture_time (start_monitoring init))).*1
         (last_capture_time (start_monitoring init))
  /\ forall i time time',
       (last_capture_time (start_monitoring init)
        :: (due 2 four_turns
              (last_capture_time (start_monitoring init))).*1) !! i
       = Some time ->
       (last_capture_time (start_monitoring init)
        :: (due 2 four_turns
              (last_capture_time (start_monitoring init))).*1) !! S i
       = Some time' ->
       seconds 2 <= time' - time.
Proof.
  apply (monitor_loop_captures_are_an_interval_apart
           sample_cfg sample_regex 2 four_turns (start_monitoring init)).
  reflexivity.
Defined.

Lemma failed_screenshot_is_not_retried_within_the_interval_witness :
  _monitor_loop sample_cfg sample_regex 2
    [(1700000004000, capture_no_screen); (1700000005900, capture_cpp)]
    (start_monitoring init)
  = {| is_monitoring := true;
       current_context := current_context (start_monitoring init);
       last_capture_time := 1700000004000 |}.
Proof.
  apply (failed_screenshot_is_not_retried_within_the_interval
           sample_cfg sample_regex 2 1700000004000 1700000005900
           capture_no_screen capture_cpp (start_monitoring init));
    first [reflexivity | vm_compute; congruence].
Defined.

End CaptureExamples.

(** ** keyboard_handler.py *)

Section OrderedDictFacts.

Import KeyboardHandler.

Context {V : Type}.

Lemma od_get_set_eq (k : string) (v : V) (d : list (string * V)) :
  od_get k (od_set k v d) = Some v.
Proof.
  unfold od_get. induction d as [|[k' v'] d IH]; simpl.
  - by rewrite String.eqb_refl.
  - destruct (String.eqb k' k) eqn:Hk; simpl.
    + by rewrite String.eqb_refl.
    + by rewrite Hk.
Qed.

Lemma od_get_set_ne (k k' : string) (v : V) (d : list (string * V)) :
  k <> k' -> od_get k' (od_set k v d) = od_get k' d.
Proof.
  intros Hne. unfold od_get. induction d as [|[k0 v0] d IH]; simpl.
  - by apply String.eqb_neq in Hne as ->.
  - destruct (String.eqb k0 k) eqn:Hk; simpl.
    + apply String.eqb_eq in Hk as ->.
      by apply String.eqb_neq in Hne as ->.
    + by destruct (String.eqb k0 k').
Qed.

Lemma od_get_del_eq (k : string) (d : list (string * V)) :
  od_get k (od_del k d) = None.
Proof.
  unfold od_get, od_del. induction d as [|[k0 v0] d IH]; simpl; [done|].
  destruct (String.eqb k0 k) eqn:Hk; simpl; [done|]. by rewrite Hk.
Qed.

Lemma od_get_del_ne (k k' : string) (d : list (string * V)) :
  k <> k' -> od_get k' (od_del k d) = od_get k' d.
Proof.
  intros Hne. unfold od_get, od_del.
  induction d as [|[k0 v0] d IH]; simpl; [done|].
  destruct (String.eqb k0 k) eqn:Hk; simpl.
  - apply String.eqb_eq in Hk as ->.
    by apply String.eqb_neq in Hne as ->.
  - by destruct (String.eqb k0 k').
Qed.

Lemma od_set_set (k : string) (v v' : V) (d : list (string * V)) :
  od_set k v' (od_set k v d) = od_set k v' d.
Proof.
  induction d as [|[k0 v0] d IH]; simpl.
  - by rewrite String.eqb_refl.
  - destruct (String.eqb k0 k) eqn:Hk; simpl.
    + by rewrite String.eqb_refl.
    + by rewrite Hk, IH.
Qed.

End OrderedDictFacts.

Section HandlerFacts.

Import KeyboardHandler.

Context {L C : Type}.
Context (add_hotkey : string -> string -> L -> outcome unit * L).
Context (remove_hotkey : string -> L -> outcome unit * L).

#[local] Abbreviation handler := (@KeyboardHandler.t L C).

Lemma register_hotkey_callbacks (hotkey action : string) (kh : handler) :
  callbacks (register_hotkey add_hotkey hotkey action None kh) = callbacks kh
  /\ is_active (register_hotkey add_hotkey hotkey action None kh)
     = is_active kh
  /\ (forall h a,
        od_get h (registered_hotkeys
                    (register_hotkey add_hotkey hotkey action None kh))
        = Some a ->
        (h, a) = (hotkey, action)
        \/ od_get h (registered_hotkeys kh) = Some a).
Proof.
  unfold register_hotkey.
  destruct (add_hotkey hotkey action (keyboard kh)) as [[[]|e] l]; simpl;
    (split; [done|split; [done|]]); intros h a Hget; [|by right].
  destruct (decide (hotkey = h)) as [<-|Hne].
  - rewrite od_get_set_eq in Hget. injection Hget as <-. by left.
  - rewrite od_get_set_ne in Hget by done. by right.
Qed.

Lemma register_hotkeys_callbacks (hotkeys : list (string * string)) :
  forall kh : handler,
    callbacks
      (fold_left (fun kh ha => register_hotkey add_hotkey ha.1 ha.2 None kh)
                 hotkeys kh)
    = callbacks kh
    /\ is_active
         (fold_left (fun kh ha => register_hotkey add_hotkey ha.1 ha.2 None kh)
                    hotkeys kh)
       = is_active kh
    /\ (forall h a,
          od_get h
            (registered_hotkeys
               (fold_left
                  (fun kh ha => register_hotkey add_hotkey ha.1 ha.2 None kh)
                  hotkeys kh))
          = Some a ->
          (h, a) ∈ hotkeys \/ od_get h (registered_hotkeys kh) = Some a).
Proof.
  induction hotkeys as [|[hotkey action] hotkeys IH]; intros kh; simpl.
  - split; [done|]. split; [done|]. intros h a Hget. by right.
  - destruct (IH (register_hotkey add_hotkey hotkey action None kh))
      as (Hc & Ha & Hr).
    destruct (register_hotkey_callbacks hotkey action kh) as (Hc1 & Ha1 & Hr1).
    split; [by rewrite Hc|]. split; [by rewrite Ha|].
    intros h a Hget. destruct (Hr _ _ Hget) as [Hin|Hget1].
    + left. by apply list_elem_of_further.
    + destruct (Hr1 _ _ Hget1) as [->|Hget0]; [|by right].
      left. apply list_elem_of_here.
Qed.

(** A handler that was stopped and started again has no callback. *)
Lemma restarted_handler_callbacks (kh : handler) :
  callbacks (start_monitoring add_hotkey (stop_monitoring remove_hotkey kh))
  = ∅.
Proof.
  unfold start_monitoring, stop_monitoring at 1. simpl.
  unfold _register_default_hotkeys.
  match goal with
  | |- context [fold_left _ default_hotkeys ?kh0] =>
      by destruct (register_hotkeys_callbacks default_hotkeys kh0) as (-> & _)
  end.
Qed.

(** X16. Stopping the handler forgets the callbacks: [stop_monitoring]
    clears them with the hotkeys, and [start_monitoring] registers the
    three default hotkeys again without any. After a stop and a start the
    handler is active, its hotkeys are among the default ones, and
    [_hotkey_callback] calls nothing, whatever callbacks had been set.
    A pause and a resume, on the contrary, keep every callback. *)
Theorem restarted_handler_calls_nothing (kh : handler) :
  is_active (start_monitoring add_hotkey (stop_monitoring remove_hotkey kh))
  = true
  /\ (forall action,
        _hotkey_callback action
          (start_monitoring add_hotkey (stop_monitoring remove_hotkey kh))
        = None)
  /\ (forall hotkey action,
        od_get hotkey
          (get_registered_hotkeys
             (start_monitoring add_hotkey (stop_monitoring remove_hotkey kh)))
        = Some action ->
        (hotkey, action) ∈ default_hotkeys)
  /\ (forall action,
        _hotkey_callback action
          (resume_monitoring add_hotkey (pause_monitoring kh))
        = _hotkey_callback action kh)
  /\ is_active (resume_monitoring add_hotkey (pause_monitoring kh)) = true.
Proof.
  split; [|split; [|split; [|split]]].
  - unfold start_monitoring, stop_monitoring at 1. simpl.
    unfold _register_default_hotkeys.
    match goal with
    | |- context [fold_left _ default_hotkeys ?kh0] =>
        by destruct (register_hotkeys_callbacks default_hotkeys kh0)
          as (_ & -> & _)
    end.
  - intros action. unfold _hotkey_callback.
    by rewrite restarted_handler_callbacks, lookup_empty.
  - unfold start_monitoring, stop_monitoring at 1. simpl.
    unfold _register_default_hotkeys, get_registered_hotkeys.
    match goal with
    | |- context [fold_left _ default_hotkeys ?kh0] =>
        destruct (register_hotkeys_callbacks default_hotkeys kh0)
          as (_ & _ & Hr)
    end.
    intros hotkey action Hget. by destruct (Hr _ _ Hget).
  - intros action.
    unfold resume_monitoring, pause_monitoring, start_monitoring. simpl.
    unfold _hotkey_callback, _register_default_hotkeys.
    match goal with
    | |- context [fold_left _ default_hotkeys ?kh0] =>
        by destruct (register_hotkeys_callbacks default_hotkeys kh0)
          as (-> & _)
    end.
  - unfold resume_monitoring, pause_monitoring, start_monitoring. simpl.
    unfold _register_default_hotkeys.
    match goal with
    | |- context [fold_left _ default_hotkeys ?kh0] =>
        by destruct (register_hotkeys_callbacks default_hotkeys kh0)
          as (_ & -> & _)
    end.
Qed.

(** X17. [unregister_hotkey] deletes the callback of the action of the
    hotkey, not only the hotkey: afterwards [_hotkey_callback] calls
    nothing for this action, although every other hotkey, one bound to the
    same action included, is registered as before. The callbacks of the
    other actions are kept. *)
Theorem unregister_hotkey_deletes_the_callback_of_its_action
    (hotkey action : string) (kh : handler) :
  od_get hotkey (registered_hotkeys kh) = Some action ->
  is_raise (remove_hotkey hotkey (keyboard kh)).1 = false ->
  _hotkey_callback action (unregister_hotkey remove_hotkey hotkey kh) = None
  /\ od_get hotkey
       (get_registered_hotkeys (unregister_hotkey remove_hotkey hotkey kh))
     = None
  /\ (forall other,
        other <> hotkey ->
        od_get other
          (get_registered_hotkeys (unregister_hotkey remove_hotkey hotkey kh))
        = od_get other (get_registered_hotkeys kh))
  /\ (forall other,
        other <> action ->
        _hotkey_callback other (unregister_hotkey remove_hotkey hotkey kh)
        = _hotkey_callback other kh).
Proof.
  intros Hget Hok. unfold unregister_hotkey, _hotkey_callback,
    get_registered_hotkeys. rewrite Hget.
  destruct (remove_hotkey hotkey (keyboard kh)) as [[[]|e] l]; [|done].
  simpl. split; [by rewrite lookup_delete_eq|].
  split; [by apply od_get_del_eq|]. split.
  - intros other Hne. by apply od_get_del_ne.
  - intros other Hne. by rewrite lookup_delete_ne.
Qed.

End HandlerFacts.

Section HandlerExamples.

Import KeyboardHandler.

Lemma unregister_hotkey_deletes_the_callback_of_its_action_witness :
  _hotkey_callback "toggle_overlay"
    (unregister_hotkey accept_remove TOGGLE_OVERLAY_SHORTCUT
       two_hotkeys_one_action) = None
  /\ od_get TOGGLE_OVERLAY_SHORTCUT
       (get_registered_hotkeys
          (unregister_hotkey accept_remove TOGGLE_OVERLAY_SHORTCUT
             two_hotkeys_one_action))
     = None
  /\ (forall other,
        other <> TOGGLE_OVERLAY_SHORTCUT ->
        od_get other
          (get_registered_hotkeys
             (unregister_hotkey accept_remove TOGGLE_OVERLAY_SHORTCUT
                two_hotkeys_one_action))
        = od_get other (get_registered_hotkeys two_hotkeys_one_action))
  /\ (forall other,
        other <> "toggle_overlay" ->
        _hotkey_callback other
          (unregister_hotkey accept_remove TOGGLE_OVERLAY_SHORTCUT
             two_hotkeys_one_action)
        = _hotkey_callback other two_hotkeys_one_action).
Proof.
  apply (unregister_hotkey_deletes_the_callback_of_its_action
           accept_remove TOGGLE_OVERLAY_SHORTCUT "toggle_overlay"
           two_hotkeys_one_action); reflexivity.
Defined.

End HandlerExamples.

(** *** Key combinations *)

Section CombinationFacts.

Import KeyboardHandler.

#[local] Instance str_le_total : Total str_le.
Proof. intros a b. apply String.leb_total. Qed.

#[local] Instance str_le_antisymm : AntiSymm eq str_le.
Proof. intros a b. apply String.leb_antisym. Qed.

#[local] Instance str_le_trans : Transitive str_le.
Proof.
  unfold str_le, String.leb. intros s1.
  induction s1 as [|c1 s1 IH]; intros [|c2 s2] [|c3 s3]; simpl; try done.
  unfold Ascii.compare.
  destruct (N.compare_spec (N_of_ascii c1) (N_of_ascii c2)) as [H12|H12|H12],
           (N.compare_spec (N_of_ascii c2) (N_of_ascii c3)) as [H23|H23|H23],
           (N.compare_spec (N_of_ascii c1) (N_of_ascii c3)) as [H13|H13|H13];
    try done; try lia.
  apply IH.
Qed.

Lemma sorted_Permutation (keys keys' : list string) :
  keys ≡ₚ keys' -> sorted keys = sorted keys'.
Proof.
  intros Hperm. unfold sorted.
  apply (Sorted_unique str_le); try apply Sorted_merge_sort; try apply _.
  by rewrite !merge_sort_Permutation.
Qed.

Context {L C : Type}.

#[local] Abbreviation handler := (@KeyboardHandler.t L C).

(** X18. A key combination is filed under its keys in sorted order, so
    the order in which the keys are listed does not count: registering
    the same keys in another order replaces the earlier registration,
    with its action and its callback, and leaves the handler as if the
    later registration had been the only one. *)
Theorem key_combination_is_replaced_whatever_the_order_of_its_keys
    (keys keys' : list string) (action action' : string)
    (callback callback' : option C) (kh : handler) :
  keys ≡ₚ keys' ->
  register_key_combination keys' action' callback'
    (register_key_combination keys action callback kh)
  = register_key_combination keys' action' callback' kh.
Proof.
  intros Hperm. unfold register_key_combination. simpl.
  rewrite (sorted_Permutation keys keys' Hperm). by rewrite od_set_set.
Qed.

End CombinationFacts.

Section CombinationExamples.

Import KeyboardHandler.

Lemma key_combination_is_replaced_whatever_the_order_of_its_keys_witness :
  register_key_combination ["c"; "ctrl"; "shift"] "copy_suggestion" None
    (register_key_combination ["ctrl"; "shift"; "c"] "activate_copilot"
       (Some Copilot.HotkeyActivate) two_hotkeys_one_action)
  = register_key_combination ["c"; "ctrl"; "shift"] "copy_suggestion" None
      two_hotkeys_one_action.
Proof.
  apply (key_combination_is_replaced_whatever_the_order_of_its_keys
           ["ctrl"; "shift"; "c"] ["c"; "ctrl"; "shift"]).
  symmetry. apply (Permutation_cons_append ["ctrl"; "shift"] "c").
Defined.

End CombinationExamples.

Section PollFacts.

Import KeyboardHandler.

Context {C : Type}.

(** With a library that answers for every key, the keys of a combination
    replace what [current_pressed] said of them. *)
Lemma scan_keys_down (down : string -> bool) (keys : list string) :
  forall current_pressed,
    scan_keys (fun key => Return (down key)) keys current_pressed
    = Return (held_down down (list_to_set keys)
              ∪ current_pressed ∖ list_to_set keys).
Proof.
  unfold scan_keys, held_down.
  induction keys as [|key keys IH]; intros current; simpl.
  - f_equal. set_solver.
  - rewrite IH. f_equal. apply set_eq. intros x.
    destruct (decide (x = key)) as [Heq|Hx], (decide (x ∈ keys)) as [Hin|Hin],
             (down key) eqn:Hkey;
      set_unfold; intuition congruence.
Qed.

Lemma scan_keys_raises (is_pressed : string -> outcome bool)
    (keys : list string) (key : string) (current_pressed : gset string) :
  key ∈ keys ->
  is_raise (is_pressed key) = true ->
  is_raise (scan_keys is_pressed keys current_pressed) = true.
Proof.
  intros Hin Hraise. unfold scan_keys.
  generalize (Return current_pressed : outcome (gset string)).
  assert (Hstuck : forall (keys : list string) e,
    is_raise
      (fold_left
         (fun (acc : outcome (gset string)) key =>
            let+ current := acc in
            let+ down := is_pressed key in
            Return (if down : bool then {[ key ]} ∪ current
                    else current ∖ {[ key ]}))
         keys (Raise e)) = true).
  { intros keys0. induction keys0 as [|k keys0 IH]; intros e; simpl; [done|].
    apply IH. }
  induction keys as [|k keys IH]; intros acc; [by apply elem_of_nil in Hin|].
  simpl. apply elem_of_cons in Hin as [<-|Hin]; [|by apply IH].
  destruct acc as [current|e]; simpl; [|apply Hstuck].
  destruct (is_pressed key) as [down|e]; [done|]. simpl. apply Hstuck.
Qed.

Lemma scan_combo_keys (down : string -> bool) (keys seen : gset string) :
  scan_keys (fun key => Return (down key)) (elements keys)
            (held_down down seen)
  = Return (held_down down (seen ∪ keys)).
Proof.
  rewrite scan_keys_down, list_to_set_elements_L. f_equal.
  unfold held_down. apply set_eq. intros x. set_unfold.
  destruct (decide (x ∈ keys)); intuition.
Qed.

Lemma held_down_empty (down : string -> bool) : held_down down ∅ = ∅.
Proof. unfold held_down. set_solver. Qed.

(** One step of the poll, with a library that answers for every key. *)
Lemma check_from_cons (down : string -> bool) (key_combo : string)
    (combo_data : Combo C) (rest : list (string * Combo C))
    (seen : gset string) :
  check_from (fun key => Return (down key)) ((key_combo, combo_data) :: rest)
             (held_down down seen)
  = ((key_combo,
      if (bool_decide (held_down down (seen ∪ combo_keys combo_data)
                       = combo_keys combo_data)
          && bool_decide (combo_pressed combo_data = ∅))%bool
      then {| combo_keys := combo_keys combo_data;
              combo_action := combo_action combo_data;
              combo_callback := combo_callback combo_data;
              combo_pressed :=
                held_down down (seen ∪ combo_keys combo_data) |}
      else if (negb (bool_decide
                       (held_down down (seen ∪ combo_keys combo_data)
                        = combo_keys combo_data))
               && negb (bool_decide (combo_pressed combo_data = ∅)))%bool
      then {| combo_keys := combo_keys combo_data;
              combo_action := combo_action combo_data;
              combo_callback := combo_callback combo_data;
              combo_pressed := ∅ |}
      else combo_data)
       :: (check_from (fun key => Return (down key)) rest
             (held_down down (seen ∪ combo_keys combo_data))).1,
     (if (bool_decide (held_down down (seen ∪ combo_keys combo_data)
                       = combo_keys combo_data)
          && bool_decide (combo_pressed combo_data = ∅))%bool
      then [(combo_action combo_data, combo_callback combo_data)] else [])
     ++ (check_from (fun key => Return (down key)) rest
           (held_down down (seen ∪ combo_keys combo_data))).2).
Proof.
  cbn [check_from]. rewrite scan_combo_keys.
  destruct (check_from _ rest _) as [rest' executed].
  destruct (bool_decide (held_down down (seen ∪ combo_keys combo_data)
                         = combo_keys combo_data)),
           (bool_decide (combo_pressed combo_data = ∅)); reflexivity.
Qed.

(** X19. A key combination runs once for each time it is pressed. Of one
    combination with at least one key, left by the polls before either as
    released or as held, a poll executes the action exactly when all its
    keys are down and it was released; it leaves it held when all the keys
    are down, and released when they are not. *)
Theorem key_combination_runs_once_per_press
    (down : string -> bool) (key_combo : string) (combo_data : Combo C) :
  combo_keys combo_data <> ∅ ->
  combo_pressed combo_data = ∅
  \/ combo_pressed combo_data = combo_keys combo_data ->
  _check_key_combinations (fun key => Return (down key))
    [(key_combo, combo_data)]
  = ([(key_combo,
       {| combo_keys := combo_keys combo_data;
          combo_action := combo_action combo_data;
          combo_callback := combo_callback combo_data;
          combo_pressed :=
            if bool_decide (held_down down (combo_keys combo_data)
                            = combo_keys combo_data)
            then combo_keys combo_data else ∅ |})],
     if (bool_decide (held_down down (combo_keys combo_data)
                      = combo_keys combo_data)
         && bool_decide (combo_pressed combo_data = ∅))%bool
     then [(combo_action combo_data, combo_callback combo_data)]
     else []).
Proof.
  intros Hkeys Hstate. unfold _check_key_combinations. simpl.
  rewrite <- (held_down_empty down) at 1.
  rewrite scan_combo_keys, (left_id_L ∅ (∪)).
  destruct combo_data as [keys action callback pressed]. simpl in *.
  destruct (bool_decide_reflect (held_down down keys = keys)) as [Hall|Hall];
    destruct Hstate as [->| ->]; simpl.
  - rewrite bool_decide_eq_true_2 by done. simpl. by rewrite Hall.
  - rewrite bool_decide_eq_false_2 by done. done.
  - rewrite bool_decide_eq_true_2 by done. done.
  - rewrite bool_decide_eq_false_2 by done. done.
Qed.

(** X20. The set [current_pressed] is one for the whole poll, so a later
    combination is compared with the keys that are down among its own and
    those of the combinations before it. Of two released combinations,
    the second is executed exactly when all its keys are down and every
    key of the first that is down is one of its own: a key of the first
    that is held blocks the second. *)
Theorem held_key_of_an_earlier_combination_blocks_a_later_one
    (down : string -> bool) (name1 name2 : string)
    (combo1 combo2 : Combo C) :
  combo_pressed combo1 = ∅ ->
  combo_pressed combo2 = ∅ ->
  (_check_key_combinations (fun key => Return (down key))
     [(name1, combo1); (name2, combo2)]).2
  = (if bool_decide (held_down down (combo_keys combo1) = combo_keys combo1)
     then [(combo_action combo1, combo_callback combo1)] else [])
    ++ (if bool_decide
             (held_down down (combo_keys combo1 ∪ combo_keys combo2)
              = combo_keys combo2)
        then [(combo_action combo2, combo_callback combo2)] else [])
  /\ (held_down down (combo_keys combo1 ∪ combo_keys combo2)
      = combo_keys combo2
      <-> (forall key, key ∈ combo_keys combo2 -> down key = true)
          /\ (forall key,
                key ∈ combo_keys combo1 -> down key = true ->
                key ∈ combo_keys combo2)).
Proof.
  intros Hreleased1 Hreleased2. split.
  - unfold _check_key_combinations.
    rewrite <- (held_down_empty down) at 1.
    rewrite !check_from_cons, (left_id_L ∅ (∪)).
    rewrite Hreleased1, Hreleased2.
    rewrite (bool_decide_eq_true_2 (∅ = ∅)) by done.
    cbn [snd check_from]. by rewrite !andb_true_r, app_nil_r.
  - unfold held_down. split.
    + intros Heq. split.
      * intros key Hkey. rewrite <- Heq in Hkey. set_solver.
      * intros key Hkey Hdown. rewrite <- Heq. set_solver.
    + intros [Hall Hfirst]. apply set_eq. intros key. set_unfold.
      split; [|by auto]. intros [Hdown [Hkey|Hkey]]; auto.
Qed.

(** X21. An exception of [keyboard.is_pressed] ends the poll where it is
    raised: when the library rejects a key of a combination, this
    combination and every one registered after it are left as they are
    and none of them is executed, whatever keys are down. *)
Theorem rejected_key_switches_off_the_later_combinations
    (is_pressed : string -> outcome bool) (key : string)
    (key_combo : string) (combo_data : Combo C)
    (before after : list (string * Combo C)) :
  key ∈ combo_keys combo_data ->
  is_raise (is_pressed key) = true ->
  forall current_pressed,
    check_from is_pressed (before ++ (key_combo, combo_data) :: after)
               current_pressed
    = ((check_from is_pressed before current_pressed).1
         ++ (key_combo, combo_data) :: after,
       (check_from is_pressed before current_pressed).2).
Proof.
  intros Hkey Hraise.
  induction before as [|[name cd] before IH]; intros current.
  - cbn [app check_from fst snd].
    pose proof (scan_keys_raises is_pressed (elements (combo_keys combo_data))
                  key current) as Hscan.
    destruct (scan_keys _ _ _) as [cur|e]; [|done].
    discriminate Hscan; [by apply elem_of_elements|done].
  - cbn [app check_from].
    destruct (scan_keys is_pressed (elements (combo_keys cd)) current)
      as [cur|e]; [|done].
    rewrite IH. destruct (check_from is_pressed before cur) as [rest' ex].
    simpl.
    destruct (bool_decide (cur = combo_keys cd)),
             (bool_decide (combo_pressed cd = ∅)); reflexivity.
Qed.

End PollFacts.

Section PollExamples.

Import KeyboardHandler.

Lemma key_combination_runs_once_per_press_witness :
  _check_key_combinations (fun key => Return (alt_ctrl_o key))
    [("ctrl+o", combo_toggle)]
  = ([("ctrl+o",
       {| combo_keys := combo_keys combo_toggle;
          combo_action := combo_action combo_toggle;
          combo_callback := combo_callback combo_toggle;
          combo_pressed :=
            if bool_decide (held_down alt_ctrl_o (combo_keys combo_toggle)
                            = combo_keys combo_toggle)
            then combo_keys combo_toggle else ∅ |})],
     if (bool_decide (held_down alt_ctrl_o (combo_keys combo_toggle)
                      = combo_keys combo_toggle)
         && bool_decide (combo_pressed combo_toggle = ∅))%bool
     then [(combo_action combo_toggle, combo_callback combo_toggle)]
     else []).
Proof.
  apply (key_combination_runs_once_per_press alt_ctrl_o "ctrl+o" combo_toggle).
  - simpl. set_solver.
  - left. reflexivity.
Defined.

Lemma held_key_of_an_earlier_combination_blocks_a_later_one_witness :
  (_check_key_combinations (fun key => Return (alt_ctrl_o key))
     [("alt+s", combo_save); ("ctrl+o", combo_toggle)]).2
  = (if bool_decide (held_down alt_ctrl_o (combo_keys combo_save)
                     = combo_keys combo_save)
     then [(combo_action combo_save, combo_callback combo_save)] else [])
    ++ (if bool_decide
             (held_down alt_ctrl_o
                (combo_keys combo_save ∪ combo_keys combo_toggle)
              = combo_keys combo_toggle)
        then [(combo_action combo_toggle, combo_callback combo_toggle)]
        else [])
  /\ (held_down alt_ctrl_o (combo_keys combo_save ∪ combo_keys combo_toggle)
      = combo_keys combo_toggle
      <-> (forall key, key ∈ combo_keys combo_toggle -> alt_ctrl_o key = true)
          /\ (forall key,
                key ∈ combo_keys combo_save -> alt_ctrl_o key = true ->
                key ∈ combo_keys combo_toggle)).
Proof.
  apply (held_key_of_an_earlier_combination_blocks_a_later_one
           alt_ctrl_o "alt+s" "ctrl+o" combo_save combo_toggle);
    reflexivity.
Defined.

Lemma rejected_key_switches_off_the_later_combinations_witness :
  check_from no_hyper
    ([("ctrl+o", combo_toggle)] ++ ("h+hyper", combo_hyper)
       :: [("alt+s", combo_save)]) ∅
  = ((check_from no_hyper [("ctrl+o", combo_toggle)] ∅).1
       ++ ("h+hyper", combo_hyper) :: [("alt+s", combo_save)],
     (check_from no_hyper [("ctrl+o", combo_toggle)] ∅).2).
Proof.
  apply (rejected_key_switches_off_the_later_combinations
           no_hyper "hyper" "h+hyper" combo_hyper
           [("ctrl+o", combo_toggle)] [("alt+s", combo_save)]).
  - simpl. set_solver.
  - reflexivity.
Defined.

End PollExamples.

(** ** audio_processor.py: voice commands *)

Section VoiceCommands.

Import AudioProcessor.

Lemma prefix_app (p s : string) :
  String.prefix p s = true <-> exists post, s = p +:+ post.
Proof.
  revert s. induction p as [|c p IH]; intros s.
  - split; [|by destruct s]. intros _. by exists s.
  - destruct s as [|c' s]; simpl.
    + split; [done|]. by intros [post Hpost].
    + destruct (Ascii.ascii_dec c c') as [<-|Hne].
      * rewrite IH. split; intros [post Hpost]; exists post.
        -- by rewrite Hpost.
        -- by injection Hpost.
      * split; [done|]. intros [post Hpost]. by injection Hpost.
Qed.

(** [command in text] holds exactly when [command] is a part of [text]. *)
Lemma is_in_spec (command text : string) :
  is_in command text = true
  <-> exists pre post, text = pre +:+ command +:+ post.
Proof.
  unfold is_in. induction text as [|c text IH].
  - change (ScreenMonitor.contains command "")
      with (String.prefix command "" || false)%bool.
    rewrite orb_false_r, prefix_app. split.
    + intros [post Hpost]. by exists "", post.
    + intros (pre & post & Htext). destruct pre; [by exists post|done].
  - change (ScreenMonitor.contains command (String c text))
      with (String.prefix command (String c text)
            || ScreenMonitor.contains command text)%bool.
    rewrite orb_true_iff, IH, prefix_app. split.
    + intros [[post Hpost]|(pre & post & Htext)].
      * by exists "", post.
      * exists (String c pre), post. simpl. by rewrite Htext.
    + intros (pre & post & Htext). destruct pre as [|c' pre]; simpl in Htext.
      * left. by exists post.
      * right. exists pre, post. by injection Htext.
Qed.

Context {H V : Type}.

(** X22. A recognized text is filed under the first keyword of the table
    that is a part of it, wherever in the text and whether as a word or
    inside one; under ["query"] when it has none. The callback is called
    once, with this command and the whole text. *)
Theorem voice_command_is_the_first_keyword_found_in_the_text
    (commands : list (string * string)) (text : string) (ap : t H V)
    (callback : V) :
  voice_command_callback ap = Some callback ->
  exists command,
    _process_voice_command commands text ap = Some (callback, command, text)
    /\ ((exists description before after pre post,
           commands = before ++ (command, description) :: after
           /\ text = pre +:+ command +:+ post
           /\ forall keyword pre' post',
                keyword ∈ before.*1 ->
                text <> pre' +:+ keyword +:+ post')
        \/ (command = "query"
            /\ forall keyword pre' post',
                 keyword ∈ commands.*1 ->
                 text <> pre' +:+ keyword +:+ post')).
Proof.
  intros Hcallback. unfold _process_voice_command. rewrite Hcallback.
  destruct (List.find _ commands) as [[command description]|] eqn:Hfind.
  - exists command. split; [done|]. left.
    destruct (find_first _ _ _ Hfind) as (before & after & Htable & Hin & Hb).
    simpl in Hin. apply is_in_spec in Hin as (pre & post & Htext).
    exists description, before, after, pre, post.
    split; [done|]. split; [done|].
    intros keyword pre' post' [[k d] [-> Hk]]%list_elem_of_fmap Htext'.
    specialize (Hb _ Hk). simpl in Hb.
    assert (is_in k text = true) by (apply is_in_spec; eauto). congruence.
  - exists "query". split; [done|]. right. split; [done|].
    intros keyword pre' post' [[k d] [-> Hk]]%list_elem_of_fmap Htext'.
    pose proof (proj1 (find_none_iff _ _) Hfind _ Hk) as Hnone.
    simpl in Hnone.
    assert (is_in k text = true) by (apply is_in_spec; eauto). congruence.
Qed.

End VoiceCommands.

Lemma voice_command_is_the_first_keyword_found_in_the_text_witness :
  exists command,
    AudioProcessor._process_voice_command AudioProcessor.voice_commands
      "show the latest prefix" Main.listening
    = Some (Main.OnVoiceCommand, command, "show the latest prefix")
    /\ ((exists description before after pre post,
           AudioProcessor.voice_commands
           = before ++ (command, description) :: after
           /\ "show the latest prefix" = pre +:+ command +:+ post
           /\ forall keyword pre' post',
                keyword ∈ before.*1 ->
                "show the latest prefix" <> pre' +:+ keyword +:+ post')
        \/ (command = "query"
            /\ forall keyword pre' post',
                 keyword ∈ AudioProcessor.voice_commands.*1 ->
                 "show the latest prefix" <> pre' +:+ keyword +:+ post')).
Proof.
  apply (voice_command_is_the_first_keyword_found_in_the_text
           AudioProcessor.voice_commands "show the latest prefix"
           Main.listening Main.OnVoiceCommand).
  reflexivity.
Defined.

(** ** main.py: what the copilot does with the answers of the engine *)

Section ErrorSuggestions.

Import Copilot.

Lemma show_suggestions_frame (suggestions : pydict) (s : RealTimeCopilot) :
  is_running (_show_suggestions suggestions s) = is_running s
  /\ is_active (_show_suggestions suggestions s) = is_active s
  /\ current_context (_show_suggestions suggestions s) = current_context s
  /\ last_suggestions (_show_suggestions suggestions s) = last_suggestions s.
Proof.
  unfold _show_suggestions.
  destruct (negb (is_active s)); [done|].
  by destruct (truthy _).
Qed.

Lemma error_fixes_dicts (items : list pyval) :
  forallb Main.is_dict items = true ->
  exists suggestions,
    Main.error_fixes items = Return suggestions
    /\ List.length suggestions = List.length items
    /\ forall i f,
         items !! i = Some (VDict f) ->
         suggestions !! i
         = Some (VDict
                   (<[ "type" := VStr "code_fix" ]>
                    (<[ "title" := VStr "Error Fix" ]>
                    (<[ "description" :=
                          dict_get_or f "description" (VStr "") ]>
                    (<[ "code" := dict_get_or f "code" (VStr "") ]>
                    (<[ "priority" := VStr "high" ]> ∅)))))).
Proof.
  induction items as [|v items IH]; simpl.
  - intros _. exists []. by repeat split.
  - intros [Hv Hitems]%andb_true_iff.
    destruct (IH Hitems) as (suggestions & -> & Hlen & Hentries).
    destruct v as [| | | | | |f0]; try done. simpl.
    eexists. split; [reflexivity|]. split; [simpl; by rewrite Hlen|].
    intros [|i] f; simpl; [by intros [= <-]|apply Hentries].
Qed.

Lemma error_fixes_other (items : list pyval) :
  forallb Main.is_dict items = false ->
  is_raise (Main.error_fixes items) = true.
Proof.
  induction items as [|v items IH]; simpl; [done|].
  destruct v as [| | | | | |f0]; try done. simpl. intros Hitems.
  specialize (IH Hitems). by destruct (Main.error_fixes items).
Qed.

(** X23. The fixes that [suggest_fixes] returned are shown as suggestions
    of high priority. When the copilot is active and the "fixes" of the
    answer is a list: if the list is not empty and all its items are
    objects, a window is opened on one entry for each fix, in their
    order, of type ["code_fix"], title ["Error Fix"] and priority
    ["high"], with the description and the code of the fix (empty when
    missing); if one item is not an object, nothing is shown. The fixes are
    never written to [last_suggestions]. *)
Theorem error_fixes_are_shown_as_high_priority_suggestions
    (error_suggestions : pydict) (items : list pyval) (s : RealTimeCopilot) :
  is_active s = true ->
  dict_get_or error_suggestions "fixes" (VList []) = VList items ->
  (items <> [] ->
   forallb Main.is_dict items = true ->
   exists suggestions,
     Main._show_error_suggestions error_suggestions s
     = with_overlay (create_overlay (VList suggestions)) s
     /\ List.length suggestions = List.length items
     /\ forall i f,
          items !! i = Some (VDict f) ->
          suggestions !! i
          = Some (VDict
                    (<[ "type" := VStr "code_fix" ]>
                     (<[ "title" := VStr "Error Fix" ]>
                     (<[ "description" :=
                           dict_get_or f "description" (VStr "") ]>
                     (<[ "code" := dict_get_or f "code" (VStr "") ]>
                     (<[ "priority" := VStr "high" ]> ∅)))))))
  /\ (forallb Main.is_dict items = false ->
      Main._show_error_suggestions error_suggestions s = s)
  /\ last_suggestions (Main._show_error_suggestions error_suggestions s)
     = last_suggestions s.
Proof.
  intros Hactive Hfixes. unfold Main._show_error_suggestions.
  rewrite Hfixes. simpl. split; [|split].
  - intros Hne Hdicts. destruct items as [|v items]; [done|].
    destruct (error_fixes_dicts _ Hdicts) as (suggestions & -> & Hlen & He).
    exists suggestions. split; [|done].
    unfold _show_suggestions. rewrite Hactive. simpl.
    unfold dict_get_or. rewrite lookup_singleton_eq. simpl.
    destruct suggestions; [done|reflexivity].
  - intros Hother. destruct items as [|v items]; [done|].
    pose proof (error_fixes_other _ Hother) as Hraise.
    by destruct (Main.error_fixes (v :: items)).
  - destruct items as [|v items]; [done|].
    destruct (Main.error_fixes (v :: items)); [|done].
    apply show_suggestions_frame.
Qed.

End ErrorSuggestions.


Section ErrorSuggestionsExamples.

Import Copilot.

Lemma error_fixes_are_shown_as_high_priority_suggestions_witness :
  (Main.two_fixes <> [] ->
   forallb Main.is_dict Main.two_fixes = true ->
   exists suggestions,
     Main._show_error_suggestions Main.fixes_answer Main.active_with_suggestion
     = with_overlay (create_overlay (VList suggestions))
         Main.active_with_suggestion
     /\ List.length suggestions = List.length Main.two_fixes
     /\ forall i f,
          Main.two_fixes !! i = Some (VDict f) ->
          suggestions !! i
          = Some (VDict
                    (<[ "type" := VStr "code_fix" ]>
                     (<[ "title" := VStr "Error Fix" ]>
                     (<[ "description" :=
                           dict_get_or f "description" (VStr "") ]>
                     (<[ "code" := dict_get_or f "code" (VStr "") ]>
                     (<[ "priority" := VStr "high" ]> ∅)))))))
  /\ (forallb Main.is_dict Main.two_fixes = false ->
      Main._show_error_suggestions Main.fixes_answer
        Main.active_with_suggestion
      = Main.active_with_suggestion)
  /\ last_suggestions
       (Main._show_error_suggestions Main.fixes_answer
          Main.active_with_suggestion)
     = last_suggestions Main.active_with_suggestion.
Proof.
  apply (error_fixes_are_shown_as_high_priority_suggestions
           Main.fixes_answer Main.two_fixes Main.active_with_suggestion);
    reflexivity.
Defined.

End ErrorSuggestionsExamples.

Section AppFacts.

Context {L : Type}.
Context (add_hotkey : string -> string -> L -> outcome unit * L).
Context (remove_hotkey : string -> L -> outcome unit * L).
Context (env : Env).

#[local] Abbreviation app := (@Main.t L).

Lemma show_error_suggestions_frame (d : pydict) (s : Copilot.RealTimeCopilot) :
  Copilot.is_running (Main._show_error_suggestions d s) = Copilot.is_running s
  /\ Copilot.is_active (Main._show_error_suggestions d s)
     = Copilot.is_active s
  /\ Copilot.current_context (Main._show_error_suggestions d s)
     = Copilot.current_context s
  /\ Copilot.last_suggestions (Main._show_error_suggestions d s)
     = Copilot.last_suggestions s.
Proof.
  unfold Main._show_error_suggestions.
  destruct (truthy _); [|done].
  destruct (obind _ _); [|done]. apply show_suggestions_frame.
Qed.

Lemma truthy_entry (context : pydict) (k : string) :
  truthy (dict_get_or context k (VList [])) = true ->
  truthy (VDict context) = true.
Proof.
  unfold dict_get_or. simpl. intros Htruthy.
  rewrite bool_decide_eq_false_2; [done|]. intros ->.
  by rewrite lookup_empty in Htruthy.
Qed.

(** The prompt that [_check_for_issues] sends for a context. *)
Lemma check_for_issues_asks (a : app) :
  Copilot.is_active (Main.copilot a) = true ->
  is_initialized (self (Main.ai_engine a)) = true ->
  client (self (Main.ai_engine a)) = true ->
  truthy (dict_get_or (Copilot.current_context (Main.copilot a))
            "error_indicators" (VList [])) = true ->
  Main.ai_engine (Main._check_for_issues env a)
  = after_call env
      (fixes_prompt
         (fmt env (dict_get_or (Copilot.current_context (Main.copilot a))
                     "error_indicators" (VList [])))
         (Main.code_context_of env
            (dict_get_or (Copilot.current_context (Main.copilot a))
               "text_content" (VStr ""))))
      (Main.ai_engine a)
  /\ Main.screen_monitor (Main._check_for_issues env a) = Main.screen_monitor a
  /\ Copilot.is_running (Main.copilot (Main._check_for_issues env a))
     = Copilot.is_running (Main.copilot a)
  /\ Copilot.is_active (Main.copilot (Main._check_for_issues env a))
     = Copilot.is_active (Main.copilot a)
  /\ Copilot.current_context (Main.copilot (Main._check_for_issues env a))
     = Copilot.current_context (Main.copilot a)
  /\ Copilot.last_suggestions (Main.copilot (Main._check_for_issues env a))
     = Copilot.last_suggestions (Main.copilot a).
Proof.
  intros Hactive Hi Hc Hind. unfold Main._check_for_issues.
  rewrite (truthy_entry _ _ Hind), Hind, Hactive. simpl.
  unfold suggest_fixes. rewrite ask_json_run by done.
  match goal with
  | |- context [match ?o with Return _ => _ | Raise _ => _ end] =>
      destruct o as [v|e]
  end; simpl.
  - destruct v as [| | | | | |d]; try done.
    destruct (_ && _)%bool; [|done]. simpl.
    split; [done|]. split; [done|].
    destruct (show_error_suggestions_frame d (Main.copilot a))
      as (Hr & Ha & Hx & Hl).
    repeat split; congruence.
  - done.
Qed.

Lemma main_loop_turn_asks (a : app) :
  Copilot.is_active (Main.copilot a) = true ->
  is_initialized (self (Main.ai_engine a)) = true ->
  client (self (Main.ai_engine a)) = true ->
  truthy (dict_get_or (ScreenMonitor.get_current_context
                         (Main.screen_monitor a))
            "error_indicators" (VList [])) = true ->
  Main.ai_engine (Main._main_loop_turn env a)
  = after_call env
      (Main.issue_prompt env
         (ScreenMonitor.get_current_context (Main.screen_monitor a)))
      (Main.ai_engine a)
  /\ Main.screen_monitor (Main._main_loop_turn env a) = Main.screen_monitor a
  /\ Copilot.is_running (Main.copilot (Main._main_loop_turn env a))
     = Copilot.is_running (Main.copilot a)
  /\ Copilot.is_active (Main.copilot (Main._main_loop_turn env a))
     = Copilot.is_active (Main.copilot a)
  /\ Copilot.last_suggestions (Main.copilot (Main._main_loop_turn env a))
     = Copilot.last_suggestions (Main.copilot a).
Proof.
  intros Hactive Hi Hc Hind. unfold Main._main_loop_turn.
  destruct (check_for_issues_asks
              (Main.with_copilot
                 (Main.set_current_context
                    (ScreenMonitor.get_current_context (Main.screen_monitor a)))
                 a))
    as (He & Hm & Hr & Ha & Hx & Hl); try done.
Qed.

(** X24. While an error indicator is on the screen, an active copilot asks
    the provider for fixes at every turn of its main loop, that is once a
    second: [n] turns over the same screen context make [n] calls of the
    provider, all with the same prompt, which gives the indicators as
    Python prints their list and the text of the screen as code context.
    Nothing holds a call back, and what comes back is never written to
    [last_suggestions]. *)
Theorem main_loop_asks_for_fixes_at_every_turn (n : nat) (a : app) :
  Copilot.is_running (Main.copilot a) = true ->
  Copilot.is_active (Main.copilot a) = true ->
  is_initialized (self (Main.ai_engine a)) = true ->
  client (self (Main.ai_engine a)) = true ->
  truthy (dict_get_or (ScreenMonitor.get_current_context
                         (Main.screen_monitor a))
            "error_indicators" (VList [])) = true ->
  call_prompt <$> calls (world (Main.ai_engine (Main._main_loop env n a)))
  = (call_prompt <$> calls (world (Main.ai_engine a)))
    ++ replicate n
         (Main.issue_prompt env
            (ScreenMonitor.get_current_context (Main.screen_monitor a)))
  /\ Copilot.last_suggestions (Main.copilot (Main._main_loop env n a))
     = Copilot.last_suggestions (Main.copilot a).
Proof.
  revert a. induction n as [|n IH]; intros a Hrun Hactive Hi Hc Hind; simpl.
  - by rewrite app_nil_r.
  - rewrite Hrun.
    destruct (main_loop_turn_asks a Hactive Hi Hc Hind)
      as (He & Hm & Hr & Ha & Hl).
    destruct (IH (Main.with_engine
                    (idle 1000 (Main.ai_engine (Main._main_loop_turn env a)))
                    (Main._main_loop_turn env a)))
      as [Hcalls Hlast]; simpl; try congruence.
    + by rewrite He.
    + by rewrite He.
    + rewrite Hcalls, Hlast. simpl. rewrite He, Hm, Hl. simpl.
      rewrite fmap_app, <- app_assoc. done.
Qed.






(** A turn on an answer with the number 1 as priority, while the welcome
    window is visible: the suggestion is remembered, the update raises on
    [.upper()], nothing is put into the window, and the loop, however many
    turns it is given, has called the provider once. *)
Lemma suggestion_loop_ends_on_a_numeric_priority :
  (Main._suggestion_loop_turn Main.env_priority_1 Main.watching_a_source).1
  = Raise (AttributeError "'int' object has no attribute 'upper'")
  /\ Copilot.is_visible
       (Copilot.overlay_ui (Main.copilot Main.watching_a_source)) = true
  /\ Copilot.last_suggestions
       (Main.copilot
          (Main._suggestion_loop_turn Main.env_priority_1
             Main.watching_a_source).2)
     = [Copilot.suggestion_with_priority_1]
  /\ Main.overlay_updates
       (Main._suggestion_loop_turn Main.env_priority_1
          Main.watching_a_source).2
     = []
  /\ List.length
       (calls (world (Main.ai_engine
                        (Main._suggestion_loop Main.env_priority_1 3
                           Main.watching_a_source))))
     = 1%nat.
Proof. vm_compute. repeat split; reflexivity. Qed.

(** X26. A voice command is sent to the provider whether the copilot is
    active or not, and its answer is shown at most, never remembered. On an
    initialized engine, [_on_voice_command] makes one call of the provider
    with the prompt of the context, the command and the text; it leaves
    [last_suggestions] as it was, and puts nothing into an open window;
    when the copilot is not active it shows nothing, so that the call was
    made for nothing. *)
Theorem voice_command_asks_the_provider_even_when_idle
    (command text prompt : string) (a : app) :
  is_initialized (self (Main.ai_engine a)) = true ->
  client (self (Main.ai_engine a)) = true ->
  _build_prompt env (Copilot.current_context (Main.copilot a))
    (Some command) (Some text) = Return prompt ->
  calls (world (Main.ai_engine (Main._on_voice_command env command text a)))
  = calls (world (Main.ai_engine a))
    ++ [ {| call_time := clock (world (after_gate (Main.ai_engine a)));
            call_prompt := prompt |} ]
  /\ Copilot.last_suggestions
       (Main.copilot (Main._on_voice_command env command text a))
     = Copilot.last_suggestions (Main.copilot a)
  /\ Main.overlay_updates (Main._on_voice_command env command text a)
     = Main.overlay_updates a
  /\ (Copilot.is_active (Main.copilot a) = false ->
      Main.copilot (Main._on_voice_command env command text a)
      = Main.copilot a).
Proof.
  intros Hi Hc Hprompt.
  pose proof (generate_suggestions_calls env
                (Copilot.current_context (Main.copilot a))
                (Some command) (Some text) (Main.ai_engine a) prompt
                Hi Hc Hprompt) as Hcalls.
  unfold Main._on_voice_command.
  destruct (generate_suggestions env _ (Some command) (Some text)
              (Main.ai_engine a)) as [[d|e] st]; simpl in Hcalls;
    [|done].
  destruct (_ && _)%bool; [|done]. simpl.
  split; [done|]. split; [apply show_suggestions_frame|]. split; [done|].
  intros Hidle. unfold Copilot._show_suggestions. by rewrite Hidle.
Qed.

(** X27. A copilot that was stopped and started again runs and is active,
    with its welcome window and its screen monitor, but nothing reaches
    it any more: [stop] has cleared the callbacks of the keyboard handler
    and ended the audio loop, and [start] restores neither, so that a
    press of a hotkey changes nothing and no hotword is heard. *)
Theorem restarted_copilot_hears_no_hotword_and_no_hotkey (a : app) :
  Copilot.is_running (Main.copilot a) = true ->
  Copilot.is_running
    (Main.copilot
       (Main.start add_hotkey (Main.stop remove_hotkey a))) = true
  /\ Copilot.is_active
       (Main.copilot
          (Main.start add_hotkey (Main.stop remove_hotkey a))) = true
  /\ Copilot.is_visible
       (Copilot.overlay_ui
          (Main.copilot
             (Main.start add_hotkey (Main.stop remove_hotkey a)))) = true
  /\ ScreenMonitor.is_monitoring
       (Main.screen_monitor
          (Main.start add_hotkey (Main.stop remove_hotkey a))) = true
  /\ AudioProcessor.is_listening
       (Main.audio_processor
          (Main.start add_hotkey (Main.stop remove_hotkey a))) = false
  /\ forall action,
       Main.press_hotkey action
         (Main.start add_hotkey (Main.stop remove_hotkey a))
       = Main.start add_hotkey (Main.stop remove_hotkey a).
Proof.
  intros Hrun.
  assert (Hstate :
    Main.start add_hotkey (Main.stop remove_hotkey a)
    = {| Main.copilot :=
           Copilot._show_welcome_overlay
             (Main.set_running true true
                (Copilot.with_overlay Main.destroy
                   (Main.set_running false false (Main.copilot a))));
         Main.screen_monitor :=
           MonitorLoop.start_monitoring
             (MonitorLoop.stop_monitoring (Main.screen_monitor a));
         Main.audio_processor :=
           AudioProcessor.stop_listening (Main.audio_processor a);
         Main.keyboard_handler :=
           KeyboardHandler.start_monitoring add_hotkey
             (KeyboardHandler.stop_monitoring remove_hotkey
                (Main.keyboard_handler a));
         Main.ai_engine := Main.ai_engine a;
         Main.overlay_updates := Main.overlay_updates a |}).
  { unfold Main.stop. rewrite Hrun. reflexivity. }
  rewrite Hstate. repeat split.
  intros action. unfold Main.press_hotkey.
  cbn [Main.keyboard_handler].
  unfold KeyboardHandler._hotkey_callback.
  by rewrite restarted_handler_callbacks, lookup_empty.
Qed.

End AppFacts.

Lemma main_loop_asks_for_fixes_at_every_turn_witness :
  call_prompt
    <$> calls (world (Main.ai_engine
                        (Main._main_loop Main.env_fixes 3 Main.watching_an_error)))
  = (call_prompt <$> calls (world (Main.ai_engine Main.watching_an_error)))
    ++ replicate 3
         (Main.issue_prompt Main.env_fixes
            (ScreenMonitor.get_current_context
               (Main.screen_monitor Main.watching_an_error)))
  /\ Copilot.last_suggestions
       (Main.copilot (Main._main_loop Main.env_fixes 3 Main.watching_an_error))
     = Copilot.last_suggestions (Main.copilot Main.watching_an_error).
Proof.
  apply (main_loop_asks_for_fixes_at_every_turn
           Main.env_fixes 3 Main.watching_an_error);
    reflexivity.
Defined.

Lemma voice_command_asks_the_provider_even_when_idle_witness :
  calls (world (Main.ai_engine
                  (Main._on_voice_command env_plain_text "fix" "fix this"
                     (Main.init env_plain_text tt (world_at t0)))))
  = calls (world (Main.ai_engine (Main.init env_plain_text tt (world_at t0))))
    ++ [ {| call_time :=
              clock (world (after_gate
                              (Main.ai_engine
                                 (Main.init env_plain_text tt (world_at t0)))));
            call_prompt := Main.fix_this_prompt |} ]
  /\ Copilot.last_suggestions
       (Main.copilot
          (Main._on_voice_command env_plain_text "fix" "fix this"
             (Main.init env_plain_text tt (world_at t0))))
     = Copilot.last_suggestions
         (Main.copilot (Main.init env_plain_text tt (world_at t0)))
  /\ Main.overlay_updates
       (Main._on_voice_command env_plain_text "fix" "fix this"
          (Main.init env_plain_text tt (world_at t0)))
     = Main.overlay_updates (Main.init env_plain_text tt (world_at t0))
  /\ (Copilot.is_active
        (Main.copilot (Main.init env_plain_text tt (world_at t0))) = false ->
      Main.copilot
        (Main._on_voice_command env_plain_text "fix" "fix this"
           (Main.init env_plain_text tt (world_at t0)))
      = Main.copilot (Main.init env_plain_text tt (world_at t0))).
Proof.
  apply (voice_command_asks_the_provider_even_when_idle
           env_plain_text "fix" "fix this" Main.fix_this_prompt
           (Main.init env_plain_text tt (world_at t0)));
    reflexivity.
Defined.

Lemma restarted_copilot_hears_no_hotword_and_no_hotkey_witness :
  Copilot.is_running
    (Main.copilot
       (Main.start KeyboardHandler.accept_add
          (Main.stop KeyboardHandler.accept_remove
             (Main.started env_plain_text)))) = true
  /\ Copilot.is_active
       (Main.copilot
          (Main.start KeyboardHandler.accept_add
             (Main.stop KeyboardHandler.accept_remove
                (Main.started env_plain_text)))) = true
  /\ Copilot.is_visible
       (Copilot.overlay_ui
          (Main.copilot
             (Main.start KeyboardHandler.accept_add
                (Main.stop KeyboardHandler.accept_remove
                   (Main.started env_plain_text))))) = true
  /\ ScreenMonitor.is_monitoring
       (Main.screen_monitor
          (Main.start KeyboardHandler.accept_add
             (Main.stop KeyboardHandler.accept_remove
                (Main.started env_plain_text)))) = true
  /\ AudioProcessor.is_listening
       (Main.audio_processor
          (Main.start KeyboardHandler.accept_add
             (Main.stop KeyboardHandler.accept_remove
                (Main.started env_plain_text)))) = false
  /\ forall action,
       Main.press_hotkey action
         (Main.start KeyboardHandler.accept_add
            (Main.stop KeyboardHandler.accept_remove
               (Main.started env_plain_text)))
       = Main.start KeyboardHandler.accept_add
           (Main.stop KeyboardHandler.accept_remove
              (Main.started env_plain_text)).
Proof.
  apply (restarted_copilot_hears_no_hotword_and_no_hotkey
           KeyboardHandler.accept_add KeyboardHandler.accept_remove
           (Main.started env_plain_text)).
  reflexivity.
Defined.


(** ** main.py: what holds of a copilot at any time *)

Section WellFormed.

Import Copilot.

Lemma create_overlay_well_formed (v : pyval) (s : RealTimeCopilot) :
  Main.copilot_well_formed s ->
  Main.is_shown_batch v ->
  is_active s = true ->
  Main.copilot_well_formed (with_overlay (create_overlay v) s).
Proof.
  intros (Hlast & Hshown & Hwindow & Hidle) Hv Hactive.
  pose proof Hv as (l & -> & _).
  unfold Main.copilot_well_formed.
  cbn [with_overlay overlay_ui last_suggestions is_active].
  rewrite create_overlay_list.
  destruct (forallb widget_ready l); simpl.
  - split; [done|]. split; [|split].
    + apply Forall_app. split; [done|]. by constructor.
    + intros _. by destruct (displayed (overlay_ui s)).
    + intros Hinactive. congruence.
  - split; [done|]. split; [done|]. split; [exact Hwindow|exact Hidle].
Qed.

Lemma hide_overlay_well_formed (s : RealTimeCopilot) :
  Main.copilot_well_formed s ->
  Main.copilot_well_formed (with_overlay hide_overlay s).
Proof.
  intros (Hlast & Hshown & Hwindow & Hidle).
  unfold Main.copilot_well_formed, hide_overlay. simpl.
  destruct (is_visible (overlay_ui s)) eqn:Hvisible; simpl.
  - repeat split; auto.
  - rewrite Hvisible. by repeat split.
Qed.

Lemma show_suggestions_well_formed (d : pydict) (s : RealTimeCopilot) :
  Main.copilot_well_formed s ->
  (forall v, d !! "suggestions" = Some v -> Main.is_update v) ->
  Main.copilot_well_formed (_show_suggestions d s).
Proof.
  intros Hs Hd. unfold _show_suggestions.
  destruct (is_active s) eqn:Hactive; simpl; [|done].
  unfold dict_get_or.
  destruct (d !! "suggestions") as [v|] eqn:Hv; simpl; [|done].
  destruct (truthy v) eqn:Htruthy; [|done].
  apply create_overlay_well_formed; [done| |done].
  destruct (Hd v eq_refl) as (l & -> & Hl). exists l.
  split; [done|]. split; [|done]. by destruct l.
Qed.

Lemma last_batch_update (s : RealTimeCopilot) :
  Main.copilot_well_formed s ->
  forall v, last_batch s !! "suggestions" = Some v -> Main.is_update v.
Proof.
  intros (Hlast & _) v. unfold last_batch. rewrite lookup_singleton_eq.
  intros [= <-]. by eexists.
Qed.

Lemma welcome_is_shown_batch : Main.is_shown_batch welcome_suggestions.
Proof.
  eexists. split; [reflexivity|]. split; [done|].
  repeat constructor; eexists; (split; [reflexivity|]);
    unfold suggestion_keys; rewrite !dom_insert_L, dom_empty_L; set_solver.
Qed.

Lemma set_active_well_formed (running : bool) (s : RealTimeCopilot) :
  Main.copilot_well_formed s ->
  Main.copilot_well_formed (Main.set_running running true s)
  /\ Main.copilot_well_formed (set_is_active true s).
Proof.
  intros (Hlast & Hshown & Hwindow & Hidle).
  by split; (split; [done|]; split; [done|]; split; [done|]).
Qed.

Lemma activate_well_formed (s : RealTimeCopilot) :
  Main.copilot_well_formed s ->
  Main.copilot_well_formed (_activate_copilot s).
Proof.
  intros Hs. unfold _activate_copilot.
  destruct (is_active s) eqn:Hactive; simpl; [done|].
  destruct (set_active_well_formed true s Hs) as [_ Hset].
  destruct (last_suggestions s) as [|x last] eqn:Hlast.
  - apply create_overlay_well_formed; [done| |done].
    apply welcome_is_shown_batch.
  - apply show_suggestions_well_formed; [done|].
    by apply last_batch_update.
Qed.

Lemma deactivate_well_formed (s : RealTimeCopilot) :
  Main.copilot_well_formed s ->
  Main.copilot_well_formed (_deactivate_copilot s).
Proof.
  intros Hs. unfold _deactivate_copilot.
  destruct (is_active s) eqn:Hactive; [|done].
  destruct Hs as (Hlast & Hshown & Hwindow & Hidle).
  unfold Main.copilot_well_formed, hide_overlay. simpl.
  destruct (is_visible (overlay_ui s)) eqn:Hvisible; simpl.
  - repeat split; auto.
  - rewrite Hvisible. by repeat split.
Qed.

Lemma toggle_well_formed (s : RealTimeCopilot) :
  Main.copilot_well_formed s ->
  Main.copilot_well_formed (_toggle_overlay s).
Proof.
  intros Hs. unfold _toggle_overlay.
  destruct (is_visible (overlay_ui s)).
  - by apply hide_overlay_well_formed.
  - apply show_suggestions_well_formed; [done|]. by apply last_batch_update.
Qed.

Lemma handle_well_formed (e : event) (s : RealTimeCopilot) :
  Main.copilot_well_formed s ->
  Main.copilot_well_formed (handle e s).
Proof.
  destruct e; simpl.
  - apply activate_well_formed.
  - apply activate_well_formed.
  - apply deactivate_well_formed.
  - apply toggle_well_formed.
Qed.

Lemma fade_ends_well_formed (s : RealTimeCopilot) :
  Main.copilot_well_formed s ->
  Main.copilot_well_formed (fade_ends s).
Proof.
  intros (Hlast & Hshown & Hwindow & Hidle).
  unfold Main.copilot_well_formed, fade_ends, _fade_animation_end. simpl.
  destruct (fade_alive (overlay_ui s)) eqn:Halive; simpl; [|by rewrite Halive].
  split; [done|]. split; [done|].
  destruct (Z.eqb_spec (fade_direction (overlay_ui s)) (-1)) as [Hout|Hin].
  - by split.
  - split; [done|]. intros Hinactive Hvisible.
    by destruct (Hidle Hinactive Hvisible).
Qed.

Lemma error_fixes_suggestions (items suggestions : list pyval) :
  Main.error_fixes items = Return suggestions ->
  Forall is_suggestion suggestions.
Proof.
  revert suggestions. induction items as [|v items IH]; simpl.
  - by intros ? [= <-].
  - intros suggestions. destruct v as [| | | | | |f]; try done. simpl.
    destruct (Main.error_fixes items) as [rest|e]; [|done]. simpl.
    intros [= <-]. constructor; [|by apply IH].
    eexists. split; [reflexivity|].
    unfold suggestion_keys. rewrite !dom_insert_L, dom_empty_L. set_solver.
Qed.

Lemma show_error_suggestions_well_formed (d : pydict) (s : RealTimeCopilot) :
  Main.copilot_well_formed s ->
  Main.copilot_well_formed (Main._show_error_suggestions d s).
Proof.
  intros Hs. unfold Main._show_error_suggestions.
  destruct (truthy _); [|done].
  destruct (iterate _) as [items|e]; simpl; [|done].
  destruct (Main.error_fixes items) as [suggestions|e] eqn:Hfixes; [|done].
  apply show_suggestions_well_formed; [done|].
  intros v. rewrite lookup_singleton_eq. intros [= <-].
  eexists. split; [reflexivity|]. by eapply error_fixes_suggestions.
Qed.

End WellFormed.

Section WellFormedApp.

Context {L : Type}.
Context (add_hotkey : string -> string -> L -> outcome unit * L).
Context (remove_hotkey : string -> L -> outcome unit * L).
Context (env : Env).

#[local] Abbreviation app := (@Main.t L).

Lemma result_update (context d : pydict) :
  is_result context d ->
  forall v, d !! "suggestions" = Some v -> Main.is_update v.
Proof.
  intros [[msg ->]|(_ & (l & Hl & Hsugg) & _)] v.
  - unfold error_dict. by rewrite lookup_singleton_ne.
  - rewrite Hl. intros [= <-]. by exists l.
Qed.

Lemma on_voice_command_well_formed (command text : string) (a : app) :
  Main.well_formed a ->
  Main.well_formed (Main._on_voice_command env command text a).
Proof.
  intros [Hs Hu]. unfold Main._on_voice_command.
  pose proof (generate_suggestions_is_result env
                (Copilot.current_context (Main.copilot a))
                (Some command) (Some text) (Main.ai_engine a)) as Hres.
  destruct (generate_suggestions env _ _ _ (Main.ai_engine a)) as [[d|e] st];
    [|done].
  specialize (Hres st d eq_refl).
  destruct (_ && _)%bool; [|done].
  split; [|done]. simpl.
  apply show_suggestions_well_formed; [done|]. by eapply result_update.
Qed.

Lemma check_for_issues_well_formed (a : app) :
  Main.well_formed a -> Main.well_formed (Main._check_for_issues env a).
Proof.
  intros [Hs Hu]. unfold Main._check_for_issues.
  destruct (negb _); [done|].
  destruct (_ && _)%bool; [|done].
  destruct (suggest_fixes env _ _ (Main.ai_engine a)) as [[v|e] st]; [|done].
  destruct v as [| | | | | |d]; try done.
  destruct (_ && _)%bool; [|done].
  split; [|done]. simpl. by apply show_error_suggestions_well_formed.
Qed.

Lemma suggestion_loop_turn_well_formed (a : app) :
  Main.well_formed a ->
  Main.well_formed (Main._suggestion_loop_turn env a).2.
Proof.
  intros [Hs Hu]. unfold Main._suggestion_loop_turn.
  destruct (_ && _)%bool; [|done].
  pose proof (generate_suggestions_is_result env
                (Copilot.current_context (Main.copilot a))
                None None (Main.ai_engine a)) as Hres.
  destruct (generate_suggestions env _ _ _ (Main.ai_engine a)) as [[d|e] st];
    [|done].
  specialize (Hres st d eq_refl).
  destruct (_ && _)%bool; [|done].
  assert (Hlist : Main.is_update (dict_get_or d "suggestions" (VList []))).
  { unfold dict_get_or.
    destruct (d !! "suggestions") as [v|] eqn:Hv; simpl.
    - by eapply result_update.
    - by exists []. }
  destruct Hlist as (l & Hl & Hsugg). rewrite Hl.
  assert (Hset :
    Main.copilot_well_formed
      (Main.set_last_suggestions (VList l) (Main.copilot a))).
  { destruct Hs as (Hlast & Hshown & Hwindow & Hidle).
    split; [done|]. split; [done|]. split; [exact Hwindow|exact Hidle]. }
  cbn [Main.copilot Main.with_copilot Main.with_engine
       Main.set_last_suggestions Copilot.overlay_ui].
  destruct (Copilot.is_visible (Copilot.overlay_ui (Main.copilot a)));
    [|done].
  unfold Main.update_suggestions.
  destruct (_ && _)%bool; [|done].
  destruct (obind _ _) as [[]|e]; [|done].
  split; [done|]. simpl. apply Forall_app. split; [done|].
  constructor; [by exists l|done].
Qed.

Lemma start_well_formed (a : app) :
  Main.well_formed a -> Main.well_formed (Main.start add_hotkey a).
Proof.
  intros [Hs Hu]. unfold Main.start.
  destruct (Copilot.is_running (Main.copilot a)); [done|].
  split; [|done]. cbn [Main.copilot]. unfold Copilot._show_welcome_overlay.
  apply create_overlay_well_formed;
    [exact (proj1 (set_active_well_formed true _ Hs))
    |apply welcome_is_shown_batch|done].
Qed.

Lemma stop_well_formed (a : app) :
  Main.well_formed a -> Main.well_formed (Main.stop remove_hotkey a).
Proof.
  intros [(Hlast & Hshown & Hwindow & Hidle) Hu]. unfold Main.stop.
  destruct (negb _); [done|].
  split; [|done]. split; [done|]. split; [done|]. by split.
Qed.

Lemma exec_well_formed (s : Main.step) (a : app) :
  Main.well_formed a ->
  Main.well_formed (Main.exec add_hotkey remove_hotkey env s a).
Proof.
  intros Ha. destruct s; simpl.
  - destruct Ha as [Hs Hu]. split; [|done]. by apply handle_well_formed.
  - by apply on_voice_command_well_formed.
  - apply check_for_issues_well_formed.
    destruct Ha as [(Hlast & Hshown & Hwindow & Hidle) Hu].
    split; [|done]. split; [done|]. split; [done|].
    split; [exact Hwindow|exact Hidle].
  - by apply suggestion_loop_turn_well_formed.
  - done.
  - destruct Ha as [Hs Hu]. split; [|done]. by apply fade_ends_well_formed.
  - destruct Ha as [Hs Hu]. split; [|done]. by apply hide_overlay_well_formed.
  - by apply start_well_formed.
  - by apply stop_well_formed.
  - done.
Qed.

(** X28. What a copilot remembers and shows is well formed at any time.
    From a new copilot, after any sequence of events, voice commands,
    turns of the two loops, captures, fades, auto-hides, starts and stops,
    each run to its end, and whatever the provider answered:
    [last_suggestions] holds suggestions with exactly the five keys the
    overlay reads; every window was built on a list of such suggestions
    that is not empty, and every update of a window on a list of them; a
    visible overlay has a window; and while the copilot is not active the
    overlay is hidden or on its way out. *)
Theorem copilot_is_well_formed_at_any_time
    (l : L) (w : World) (steps : list Main.step) :
  Forall is_suggestion
    (Copilot.last_suggestions
       (Main.copilot
          (Main.play add_hotkey remove_hotkey env steps (Main.init env l w))))
  /\ Forall Main.is_shown_batch
       (Copilot.displayed
          (Copilot.overlay_ui
             (Main.copilot
                (Main.play add_hotkey remove_hotkey env steps
                   (Main.init env l w)))))
  /\ Forall Main.is_update
       (Main.overlay_updates
          (Main.play add_hotkey remove_hotkey env steps (Main.init env l w)))
  /\ (Copilot.is_visible
        (Copilot.overlay_ui
           (Main.copilot
              (Main.play add_hotkey remove_hotkey env steps
                 (Main.init env l w)))) = true ->
      Copilot.displayed
        (Copilot.overlay_ui
           (Main.copilot
              (Main.play add_hotkey remove_hotkey env steps
                 (Main.init env l w)))) <> [])
  /\ (Copilot.is_active
        (Main.copilot
           (Main.play add_hotkey remove_hotkey env steps
              (Main.init env l w))) = false ->
      Copilot.is_visible
        (Copilot.overlay_ui
           (Main.copilot
              (Main.play add_hotkey remove_hotkey env steps
                 (Main.init env l w)))) = true ->
      Copilot.fade_alive
        (Copilot.overlay_ui
           (Main.copilot
              (Main.play add_hotkey remove_hotkey env steps
                 (Main.init env l w)))) = true
      /\ Copilot.fade_direction
           (Copilot.overlay_ui
              (Main.copilot
                 (Main.play add_hotkey remove_hotkey env steps
                    (Main.init env l w)))) = -1).
Proof.
  assert (Hplay : forall a : app,
    Main.well_formed a ->
    Main.well_formed (Main.play add_hotkey remove_hotkey env steps a)).
  { unfold Main.play. induction steps as [|s steps' IH]; intros a Ha; simpl;
      [done|].
    apply IH. by apply exec_well_formed. }
  destruct (Hplay (Main.init env l w))
    as [(Hlast & Hshown & Hwindow & Hidle) Hupdates].
  { split; [|done]. split; [done|]. split; [done|]. by split. }
  split; [done|]. split; [done|]. split; [done|].
  split; [exact Hwindow|exact Hidle].
Qed.

End WellFormedApp.

(** ** config.py: where the window is put *)

(** X29. The window lies on the screen. Whatever [OVERLAY_POSITION] says,
    a known corner or any other text, a window that is at most 1880 wide
    and 1040 high is put wholly inside the 1920 by 1080 screen that
    [get_overlay_position] assumes, 20 pixels or more from each edge and
    exactly 20 from one vertical and one horizontal edge; a text that is
    no corner gives the top-left one. With the values of config.py the
    geometry asked of the window is [450x350+1450+20]. *)
Theorem overlay_is_put_inside_the_screen
    (OVERLAY_POSITION : string) (OVERLAY_WIDTH OVERLAY_HEIGHT : Z) :
  0 <= OVERLAY_WIDTH <= 1880 ->
  0 <= OVERLAY_HEIGHT <= 1040 ->
  (20 <= (Placement.get_overlay_position
            OVERLAY_POSITION OVERLAY_WIDTH OVERLAY_HEIGHT).1
   /\ (Placement.get_overlay_position
         OVERLAY_POSITION OVERLAY_WIDTH OVERLAY_HEIGHT).1
      + OVERLAY_WIDTH <= 1900)
  /\ (20 <= (Placement.get_overlay_position
               OVERLAY_POSITION OVERLAY_WIDTH OVERLAY_HEIGHT).2
      /\ (Placement.get_overlay_position
            OVERLAY_POSITION OVERLAY_WIDTH OVERLAY_HEIGHT).2
         + OVERLAY_HEIGHT <= 1060)
  /\ ((Placement.get_overlay_position
         OVERLAY_POSITION OVERLAY_WIDTH OVERLAY_HEIGHT).1 = 20
      \/ (Placement.get_overlay_position
            OVERLAY_POSITION OVERLAY_WIDTH OVERLAY_HEIGHT).1
         + OVERLAY_WIDTH = 1900)
  /\ ((Placement.get_overlay_position
         OVERLAY_POSITION OVERLAY_WIDTH OVERLAY_HEIGHT).2 = 20
      \/ (Placement.get_overlay_position
            OVERLAY_POSITION OVERLAY_WIDTH OVERLAY_HEIGHT).2
         + OVERLAY_HEIGHT = 1060)
  /\ (OVERLAY_POSITION ∉ ["top-right"; "bottom-right"; "bottom-left"] ->
      Placement.get_overlay_position
        OVERLAY_POSITION OVERLAY_WIDTH OVERLAY_HEIGHT = (20, 20))
  /\ Placement.window_geometry "top-right" 450 350 None = "450x350+1450+20".
Proof.
  intros Hwidth Hheight. unfold Placement.get_overlay_position.
  destruct (String.eqb_spec OVERLAY_POSITION "top-right") as [->|Htr];
    [simpl; repeat split; try lia; set_solver|].
  destruct (String.eqb_spec OVERLAY_POSITION "top-left") as [->|Htl];
    [simpl; repeat split; try lia; by left|].
  destruct (String.eqb_spec OVERLAY_POSITION "bottom-right") as [->|Hbr];
    [simpl; repeat split; try lia; set_solver|].
  destruct (String.eqb_spec OVERLAY_POSITION "bottom-left") as [->|Hbl];
    [simpl; repeat split; try lia; set_solver|].
  simpl. repeat split; try lia; by left.
Qed.

Lemma overlay_is_put_inside_the_screen_witness :
  (20 <= (Placement.get_overlay_position "bottom-right" 450 350).1
   /\ (Placement.get_overlay_position "bottom-right" 450 350).1 + 450 <= 1900)
  /\ (20 <= (Placement.get_overlay_position "bottom-right" 450 350).2
      /\ (Placement.get_overlay_position "bottom-right" 450 350).2 + 350
         <= 1060)
  /\ ((Placement.get_overlay_position "bottom-right" 450 350).1 = 20
      \/ (Placement.get_overlay_position "bottom-right" 450 350).1 + 450
         = 1900)
  /\ ((Placement.get_overlay_position "bottom-right" 450 350).2 = 20
      \/ (Placement.get_overlay_position "bottom-right" 450 350).2 + 350
         = 1060)
  /\ ("bottom-right" ∉ ["top-right"; "bottom-right"; "bottom-left"] ->
      Placement.get_overlay_position "bottom-right" 450 350 = (20, 20))
  /\ Placement.window_geometry "top-right" 450 350 None = "450x350+1450+20".
Proof.
  apply (overlay_is_put_inside_the_screen "bottom-right" 450 350); lia.
Defined.

